(* ===== verification/_CoqProject ===== *)
-Q . S2P
Prelude.v
JsString.v
Codec.v
JsValue.v
Models.v
Store.v
Jwt.v
Bcrypt.v
Http.v
AuthMiddleware.v
AuthRoutes.v
BlogRoutes.v
CommentRoutes.v
Server.v
Express.v
Ownership.v
