(* ===== verification/Prelude.v ===== *)
(** * A verification development for the Backend-Blog-Project REST API

    The program (src/) is an Express server over MongoDB through Mongoose:
    src/server.js mounts three routers (src/routes/authRoutes.js,
    blogRoutes.js, commentRoutes.js) behind [express.json()] and
    [cookieParser()], with a 404 handler and an error-handling
    middleware; protected routes first run src/middleware/authMiddleware.js,
    which verifies a JSON Web Token taken from the [token] cookie or the
    [Authorization] header; src/models/ declares the User, Blog and Comment
    schemas.  Passwords are hashed with bcrypt, tokens are made and checked
    with jsonwebtoken.

    ** How the development models it

    Every handler is a shallow embedding: a computation of the state and
    exception monad [st] of this file over the store ([Store.M]), written
    as the source is (destructuring of [req.body] as JavaScript values,
    the validation [if]s and their early returns, the awaited Mongoose
    calls, the [try]/[catch] that turns a thrown error into a response).
    Writes made before a throw stay in the store, as in MongoDB.

    - Prelude.v (this file): the monad and its notations ([blog_scope]),
      the [blog] hint databases, the tactics [st_unfold], [st_red] and
      [case_ifs], generic lemmas on strings and list searches.
    - JsString.v, Codec.v, JsValue.v: the JavaScript the handlers use
      (toLowerCase, trim, endsWith, split, includes; truthiness and [||];
      hex codecs) and the JSON of responses.
    - Models.v: the three schemas (Module Blog, Comment, User) as records
      with their casts, setters, defaults and validators
      ([Blog.validate], [Comment.validate], [User.errors]).
    - Store.v: the collections as gmaps keyed by 96-bit ObjectIds, the
      Mongoose calls the handlers make (findById, findOne, save with its
      unique indexes, findByIdAndDelete), and the frame conditions
      ([preserves], [Frame], [solve_preserves]) that say what a
      computation leaves alone.
    - Jwt.v and Bcrypt.v: the two libraries as type classes ([JwtLib],
      [BcryptLib]) stating the contract the handlers rely on; the handlers
      are proved against the classes, and [hs_jwt], [toy_bcrypt] are
      instances used by the witnesses.
    - Http.v: requests (credentials, parameters, body, two clock readings)
      and responses (status, JSON, cookie operations).
    - AuthMiddleware.v ([authMiddleware]), AuthRoutes.v (signup, login,
      getUser, logout, updateProfile, verifyUser), BlogRoutes.v
      (createBlog, getBlogs, myBlogs, deleteBlog, updateBlog),
      CommentRoutes.v (getComments, addComment, updateComment,
      deleteComment): one definition per handler of the source file of
      the same name.
    - Server.v: [serve], one request through the application: body
      parsing, the route table in mounting order, the gate of protected
      routes, the 404 handler and [error_handler]; [server_step] relates
      the store before and after a request.
    - Express.v: the two entry points as start-up programs ([server_js],
      [index_js]) run by [start] on the repository's modules, the
      middleware stack they build ([layer]), and Express 4's dispatch of a
      request over a stack ([dispatch]): body parser, cookie parser, cors
      preflight, mounted routers, 404 handler, error handler, final
      handler.
    - Ownership.v: the abstract ownership contract [owned_step] and its
      refinement by [serve].

    ** What is proved

    - Access control: a user never deletes or edits another's blog or
      comment (BlogRoutes, CommentRoutes); every request is a step of the
      ownership contract, and a request the gate refuses changes no blog
      or comment (Ownership, Server).
    - Authentication: tokens [jwt.sign] makes pass the gate for seven days
      with their claims, expired or foreign tokens are refused with 401
      and distinct messages, the cookie takes precedence
      (AuthMiddleware); signup then login succeeds and the token opens the
      gate as the new user; failed logins are indistinguishable; the
      password hash is stored and never returned, at any depth of the
      JSON, by GET /user or GET /user/verify (AuthRoutes).
    - Invariants: well-formed blogs and comments and valid users with
      unique lower-case emails hold in every store the server reaches,
      by rule induction over [server_step] (Server).
    - Composition and entry points: server.js starts and the stack it
      builds answers every non-preflight request exactly as [serve]
      (Express.server_js_serves); index.js stops at its require of the
      missing ./routes/userRoutes, and the application it would build
      without a cookie parser or error handler answers protected routes
      with 500 and malformed bodies with Express's default answer.
    - Response shape: every error response of [serve] is a JSON object
      with a string [message] (Server.serve_responses_typed), proved with
      the postcondition rules [answers_bind], [answers_catch] of the
      monad.
    - Liveness and listings: every request gets a response, since each
      handler's catch answers every error (Server.serve_always_answers);
      GET /blogs lists every stored blog once, newest first (BlogRoutes).
    - Ids: an ObjectId's [toString] casts back to it, a string casts to an
      id exactly when the id prints as the string lower-cased, so
      DELETE /blogs/:id treats ids that differ only in letter case alike
      (BlogRoutes.deleteBlog_id_case_insensitive).
    - Error behaviour and findings, each for every input of its kind:
      malformed ids answered 500, a missing image answered 500, comments
      stored whatever the blogs collection holds, password-length
      validators that never reject ([User.errors] on the hash), the hash
      echoed by PUT /user/update, the unchecked Authorization scheme,
      index.js stopping at a missing module whatever the other modules.

    ** Bounds and assumptions

    ObjectIds are naturals below 2^96 (24 hex digits); the id counter
    wraps there.  Clock readings are integers of milliseconds below 2^53
    ([Jwt.time_ok]), enough for [iat] and [exp] to fit the 16 hex digits
    of the token payload.  No function needs fuel: every recursion is structural.  JavaScript numbers are integers (fractions are not
    modelled), and request bodies hold primitive values.

    ** Not modelled

    Logging, the outcome of the database connection and the socket of
    [app.listen] (I/O: start-up only records that they were called);
    percent-decoding of path parameters and
    HEAD requests; the cryptography of HMAC-SHA256 and bcrypt (replaced by
    their contracts); concurrent requests (each request runs to completion
    on the store); the CORS headers of responses (only the preflight
    answer is modelled); the npm packages the entry points require are
    assumed installed, as the repository has no package.json.  Versions
    are not pinned either: ids are cast as 24 hex digits only (the
    12-character strings older bson versions also accept are not
    modelled); [jwt.verify] errors other than expiry and an invalid token
    (such as [NotBeforeError], which needs an [nbf] claim the application
    never signs) are not modelled; error messages follow Mongoose's
    format for CastError and are abbreviated for ValidationError. *)

From stdpp Require Import base gmap strings list.
From Stdlib Require Import String Ascii ZArith Lia.

(** ** Notation scope of the development *)

Declare Scope blog_scope.
Delimit Scope blog_scope with blog.

(** ** The state-and-exception monad of request handlers

    An Express handler is an [async] function that performs a sequence of
    awaited calls on a store, any of which may throw; a [try]/[catch]
    around the body turns a thrown error into a response.  Writes made
    before the throw stay in the store.  A computation is therefore a
    function from the store to the store and either a value or a thrown
    error: [st S E A := S -> S * result A E]. *)

Inductive result (A E : Type) : Type :=
| Ok (a : A)
| Err (e : E).
Arguments Ok {A E} a.
Arguments Err {A E} e.

Definition st (S E A : Type) : Type := S -> S * result A E.

Section Monad.
Context {S E : Type}.

Definition st_ret {A} (a : A) : st S E A := fun s => (s, Ok a).
Definition st_throw {A} (e : E) : st S E A := fun s => (s, Err e).
Definition st_bind {A B} (m : st S E A) (k : A -> st S E B) : st S E B :=
  fun s => match m s with
           | (s', Ok a) => k a s'
           | (s', Err e) => (s', Err e)
           end.
(** [try { m } catch (e) { h(e) }] *)
Definition st_catch {A} (m : st S E A) (h : E -> st S E A) : st S E A :=
  fun s => match m s with
           | (s', Ok a) => (s', Ok a)
           | (s', Err e) => h e s'
           end.
Definition st_get : st S E S := fun s => (s, Ok s).
Definition st_put (s : S) : st S E unit := fun _ => (s, Ok tt).
(** A pure fallible step, such as a cast or a validator. *)
Definition st_lift {A} (r : result A E) : st S E A := fun s => (s, r).

Lemma st_bind_ret {A B} (a : A) (k : A -> st S E B) s :
  st_bind (st_ret a) k s = k a s.
Proof. reflexivity. Qed.

Lemma st_bind_throw {A B} (e : E) (k : A -> st S E B) s :
  st_bind (st_throw e) k s = (s, Err e).
Proof. reflexivity. Qed.

Lemma st_bind_assoc {A B C} (m : st S E A) (k : A -> st S E B)
      (k' : B -> st S E C) s :
  st_bind (st_bind m k) k' s = st_bind m (fun a => st_bind (k a) k') s.
Proof. unfold st_bind. destruct (m s) as [s' [a|e]]; reflexivity. Qed.

Lemma st_catch_ok {A} (m : st S E A) h s s' a :
  m s = (s', Ok a) -> st_catch m h s = (s', Ok a).
Proof. unfold st_catch. by intros ->. Qed.

(** A [try] whose [catch] always answers never throws. *)
Lemma st_catch_total {A} (m : st S E A) (h : E -> st S E A) s :
  (forall e s', exists a, (h e s').2 = Ok a) -> exists a, (st_catch m h s).2 = Ok a.
Proof. intros Hh. unfold st_catch. destruct (m s) as [s' [a|e]]; [eauto | apply Hh]. Qed.

Lemma st_catch_err {A} (m : st S E A) h s s' e :
  m s = (s', Err e) -> st_catch m h s = h e s'.
Proof. unfold st_catch. by intros ->. Qed.

(** A postcondition on the value a computation returns, when it returns
    one; a thrown error satisfies it vacuously. *)
Definition answers {A} (P : A -> Prop) (m : st S E A) : Prop :=
  forall s, match (m s).2 with Ok a => P a | Err _ => True end.

Lemma answers_ret {A} (P : A -> Prop) a : P a -> answers P (st_ret a).
Proof. intros H s. exact H. Qed.

Lemma answers_throw {A} (P : A -> Prop) e : answers P (st_throw e).
Proof. intros s. exact I. Qed.

(** The cut rule: only the continuation returns the final value. *)
Lemma answers_bind {A B} (P : B -> Prop) (m : st S E A) (k : A -> st S E B) :
  (forall a, answers P (k a)) -> answers P (st_bind m k).
Proof. intros Hk s. unfold st_bind. destruct (m s) as [s' [a|e]]; [apply Hk | exact I]. Qed.

Lemma answers_catch {A} (P : A -> Prop) (m : st S E A) h :
  answers P m -> (forall e, answers P (h e)) -> answers P (st_catch m h).
Proof.
  intros Hm Hh s. unfold st_catch. specialize (Hm s).
  destruct (m s) as [s' [a|e]]; [exact Hm | apply Hh].
Qed.

End Monad.

Notation "'let*' x ':=' m 'in' k" := (st_bind m (fun x => k))
  (at level 10, x name, m at level 100, k at level 200) : blog_scope.
Notation "m ';;;' k" := (st_bind m (fun _ => k))
  (at level 100, right associativity) : blog_scope.

(** ** Hint database and tactics shared by the components *)

Create HintDb blog discriminated.
Create Rewrite HintDb blog_rw.
#[export] Hint Resolve st_catch_ok : blog.
#[export] Hint Rewrite @st_bind_ret @st_bind_throw @st_bind_assoc : blog_rw.

(** Unfold the monad and reduce a handler run to its branches. *)
Ltac st_unfold :=
  unfold st_bind, st_ret, st_throw, st_catch, st_get, st_put, st_lift in *.

(** Reduce the monad's plumbing in the goal, and nothing else: [simpl]
    would also unfold the handlers' data (strings, casts, JSON). *)
Ltac st_red :=
  cbv beta iota zeta delta [st_ret st_throw st_bind st_catch st_get st_put st_lift fst snd negb
                            fmap option_fmap option_map].

(** Walk a computation built from the monad's operations down to the
    values it returns, casing on its tests; [leaf] proves the
    postcondition of each returned value. *)
Ltac solve_answers leaf :=
  repeat match goal with
  | |- forall _, answers _ _ => intro
  | |- answers _ (st_catch _ _) => apply answers_catch
  | |- answers _ (st_bind _ _) => apply answers_bind
  | |- answers _ (st_ret _) => apply answers_ret; leaf
  | |- answers _ (st_throw _) => apply answers_throw
  | |- answers _ (fun _ => _) => let s := fresh "s" in intro s; cbv beta iota delta [snd]; leaf
  | |- answers _ (let _ := _ in _) => progress cbv zeta
  | |- answers _ (if ?b then _ else _) => destruct b
  | |- answers _ (match ?x with _ => _ end) => progress destruct x
  end.

(** Case on every [if] of the goal, keeping the test as an equation. *)
Ltac case_ifs :=
  repeat match goal with
  | |- context [if ?b then _ else _] => let E := fresh "Eif" in destruct b eqn:E
  end.

(** ** Generic lemmas on strings

    stdpp makes [String.append] opaque to [simpl]; [string_app_cons]
    is the computation step, used by rewriting. *)

Lemma string_app_cons (c : ascii) (s t : string) :
  (String c s ++ t)%string = String c (s ++ t)%string.
Proof. reflexivity. Qed.

Lemma string_app_nil_l (s : string) : ("" ++ s)%string = s.
Proof. reflexivity. Qed.

Lemma list_ascii_of_string_app (s1 s2 : string) :
  list_ascii_of_string (s1 ++ s2)%string = list_ascii_of_string s1 ++ list_ascii_of_string s2.
Proof. induction s1 as [|c s1 IH]; simpl; [done | by rewrite IH]. Qed.

Lemma list_ascii_of_string_inj (s1 s2 : string) :
  list_ascii_of_string s1 = list_ascii_of_string s2 -> s1 = s2.
Proof.
  intros H. by rewrite <- (string_of_list_ascii_of_string s1),
    <- (string_of_list_ascii_of_string s2), H.
Qed.

(** Right cancellation of [++] on strings. *)
Lemma string_app_cancel_r (s1 s2 t : string) : (s1 ++ t = s2 ++ t)%string -> s1 = s2.
Proof.
  intros H. apply (f_equal list_ascii_of_string) in H.
  rewrite !list_ascii_of_string_app in H.
  apply list_ascii_of_string_inj. by apply app_inv_tail in H.
Qed.

Lemma string_app_cancel_l (s t1 t2 : string) : (s ++ t1 = s ++ t2)%string -> t1 = t2.
Proof. apply (inj (String.append s)). Qed.

Lemma string_length_app (s1 s2 : string) :
  String.length (s1 ++ s2)%string = String.length s1 + String.length s2.
Proof. induction s1; simpl; auto. Qed.

Lemma string_app_nil_r (s : string) : (s ++ "")%string = s.
Proof. induction s as [|c s IH]; [done|]. by rewrite string_app_cons, IH. Qed.

#[export] Hint Rewrite string_app_cons string_app_nil_l list_ascii_of_string_app string_app_nil_r string_length_app : blog_rw.

(** ** Generic lemmas on lists and options *)

(** The first hit of a search ([head (omap f l)]) when every hit is [x]
    and there is one. *)
Lemma head_omap_unique {A B} (f : A -> option B) (l : list A) (x : B) :
  (exists y, y ∈ l /\ f y = Some x) ->
  (forall y x', y ∈ l -> f y = Some x' -> x' = x) ->
  head (omap f l) = Some x.
Proof.
  intros [y [Hy Hf]] Huniq.
  destruct (omap f l) as [|x' rest] eqn:E.
  - assert (x ∈ omap f l) as Hin by (apply list_elem_of_omap; eauto).
    rewrite E in Hin. set_solver.
  - assert (x' ∈ omap f l) as Hin by (rewrite E; left).
    apply list_elem_of_omap in Hin as [y' [Hy' Hf']]. simpl. f_equal. eauto.
Qed.

Lemma head_omap_none {A B} (f : A -> option B) (l : list A) :
  (forall y, y ∈ l -> f y = None) -> head (omap f l) = None.
Proof.
  intros Hnone. destruct (omap f l) as [|x rest] eqn:E; [done|].
  assert (x ∈ omap f l) as Hin by (rewrite E; left).
  apply list_elem_of_omap in Hin as [y [Hy Hf]]. rewrite Hnone in Hf by exact Hy. done.
Qed.

Lemma head_omap_some {A B} (f : A -> option B) (l : list A) (x : B) :
  head (omap f l) = Some x -> exists y, y ∈ l /\ f y = Some x.
Proof.
  intros H. apply list_elem_of_omap. destruct (omap f l); simpl in H; simplify_eq. left.
Qed.

Lemma head_omap_None_inv {A B} (f : A -> option B) (l : list A) y :
  head (omap f l) = None -> y ∈ l -> f y = None.
Proof.
  intros H Hy. destruct (f y) as [x|] eqn:Ef; [|done].
  assert (x ∈ omap f l) as Hin by (apply list_elem_of_omap; eauto).
  destruct (omap f l); [set_solver | discriminate].
Qed.
