(* ===== verification/JsString.v ===== *)
(** * JavaScript string primitives used by the handlers

    The route handlers call [String.prototype.toLowerCase] (signup),
    [endsWith] (signup), [trim] (comment routes and the schemas' [trim]
    option), [split(" ")] (the [Authorization] header in
    src/middleware/authMiddleware.js) and [Array.prototype.includes] on
    string arrays (blog routes).  A JavaScript string is a sequence of
    UTF-16 code units; this file models the code units U+0000..U+00FF
    (Latin-1) as Rocq [ascii] values, for which the ECMAScript definitions
    of lower-casing and white space are written out below.  Code units
    above U+00FF are not modelled. *)

From stdpp Require Import base list strings.
From Stdlib Require Import String Ascii Lia.
From S2P Require Import Prelude.

Local Open Scope bool_scope.

Module JsString.

(** ** Lower-casing ([toLowerCase]) on Latin-1 code units:
    U+0041..U+005A and U+00C0..U+00DE except U+00D7 map to the code
    unit 32 above. *)
Definition is_upper (c : ascii) : bool :=
  let n := nat_of_ascii c in
  ((65 <=? n) && (n <=? 90)) || ((192 <=? n) && (n <=? 222) && negb (n =? 215)).

Definition lower_char (c : ascii) : ascii :=
  if is_upper c then ascii_of_nat (nat_of_ascii c + 32) else c.

Fixpoint toLowerCase (s : string) : string :=
  match s with
  | EmptyString => EmptyString
  | String c s' => String (lower_char c) (toLowerCase s')
  end.

(** ** [endsWith] *)
Definition endsWith (s suffix : string) : bool :=
  let n := String.length s in
  let m := String.length suffix in
  (m <=? n)%nat && String.eqb (substring (n - m) m s) suffix.

(** ** White space for [trim]: TAB, LF, VT, FF, CR, SPACE and NBSP. *)
Definition is_ws (c : ascii) : bool :=
  let n := nat_of_ascii c in
  ((9 <=? n) && (n <=? 13)) || (n =? 32) || (n =? 160).

Fixpoint trim_start (s : string) : string :=
  match s with
  | EmptyString => EmptyString
  | String c s' => if is_ws c then trim_start s' else s
  end.

Definition str_rev (s : string) : string :=
  string_of_list_ascii (rev (list_ascii_of_string s)).

Definition trim_end (s : string) : string := str_rev (trim_start (str_rev s)).

Definition trim (s : string) : string := trim_end (trim_start s).

(** ** [split(sep)] with a one-character separator: every occurrence
    cuts, empty pieces are kept, and [""] splits to [[""]]. *)
Fixpoint split_on (sep : ascii) (s : string) : list string :=
  match s with
  | EmptyString => [EmptyString]
  | String c s' =>
      let rest := split_on sep s' in
      if ascii_dec c sep then EmptyString :: rest
      else match rest with
           | r :: rs => String c r :: rs
           | [] => [String c EmptyString]
           end
  end.

(** [parts.join(sep)] *)
Fixpoint join (sep : ascii) (parts : list string) : string :=
  match parts with
  | [] => EmptyString
  | [p] => p
  | p :: ps => (p ++ String sep (join sep ps))%string
  end.

Definition has_char (c : ascii) (s : string) : bool :=
  existsb (fun d => if ascii_dec d c then true else false) (list_ascii_of_string s).

(** [list.includes(x)] on an array of strings. *)
Definition includes (l : list string) (x : string) : bool :=
  existsb (String.eqb x) l.

(** ** Lemmas *)

Lemma nat_of_ascii_lt (c : ascii) : nat_of_ascii c < 256.
Proof.
  destruct c as [[] [] [] [] [] [] [] []]; vm_compute; lia.
Qed.

Lemma lower_char_not_upper c : is_upper (lower_char c) = false.
Proof.
  destruct c as [[] [] [] [] [] [] [] []]; reflexivity.
Qed.

Lemma lower_char_idem c : lower_char (lower_char c) = lower_char c.
Proof.
  destruct c as [[] [] [] [] [] [] [] []]; reflexivity.
Qed.

Lemma toLowerCase_idem s : toLowerCase (toLowerCase s) = toLowerCase s.
Proof. induction s as [|c s IH]; simpl; [done|]. by rewrite lower_char_idem, IH. Qed.

Lemma toLowerCase_app s1 s2 :
  toLowerCase (s1 ++ s2)%string = (toLowerCase s1 ++ toLowerCase s2)%string.
Proof. induction s1 as [|c s1 IH]; simpl; [done|]. by rewrite IH. Qed.

Lemma toLowerCase_length s : String.length (toLowerCase s) = String.length s.
Proof. induction s; simpl; auto. Qed.

Lemma substring_all' (s : string) : substring 0 (String.length s) s = s.
Proof. induction s as [|c s IH]; simpl; [done | by rewrite IH]. Qed.

Lemma substring_app_r (p t : string) :
  substring (String.length p) (String.length t) (p ++ t)%string = t.
Proof. induction p as [|c p IH]; simpl; [apply substring_all' | exact IH]. Qed.

Lemma substring_prefix (s : string) n :
  n <= String.length s ->
  s = (substring 0 n s ++ substring n (String.length s - n) s)%string.
Proof.
  revert n. induction s as [|c s IH]; intros [|n] Hn; simpl in *; try lia; try done.
  - by rewrite substring_all'.
  - change (String c s = String c (substring 0 n s ++ substring n (String.length s - n) s)%string). f_equal. apply IH. lia.
Qed.

(** [s.endsWith(t)] holds exactly when [s] is some prefix followed by [t]. *)
Lemma endsWith_spec s t :
  endsWith s t = true <-> exists p, s = (p ++ t)%string.
Proof.
  unfold endsWith. rewrite andb_true_iff, Nat.leb_le, String.eqb_eq. split.
  - intros [Hle Hsub]. exists (substring 0 (String.length s - String.length t) s).
    rewrite (substring_prefix s (String.length s - String.length t)) at 1 by lia.
    replace (String.length s - (String.length s - String.length t))
      with (String.length t) by lia.
    by rewrite Hsub.
  - intros [p ->]. rewrite string_length_app. split; [lia|].
    replace (String.length p + String.length t - String.length t)
      with (String.length p) by lia.
    apply substring_app_r.
Qed.

Lemma endsWith_app p t : endsWith (p ++ t)%string t = true.
Proof. apply endsWith_spec. eauto. Qed.

(** [split(sep)] inverts [join(sep)] on pieces free of the separator. *)
Lemma split_on_app_nosep sep p s :
  has_char sep p = false ->
  split_on sep (p ++ String sep s)%string = p :: split_on sep s.
Proof.
  induction p as [|c p IH]; intros Hp; simpl.
  - destruct (ascii_dec sep sep); [done | congruence].
  - simpl in Hp. unfold has_char in Hp. simpl in Hp.
    destruct (ascii_dec c sep); [done|]. simpl in Hp.
    rewrite IH by exact Hp. done.
Qed.

Lemma split_on_nosep sep p :
  has_char sep p = false -> split_on sep p = [p].
Proof.
  induction p as [|c p IH]; intros Hp; [done|]. unfold has_char in Hp. simpl in Hp |- *.
  destruct (ascii_dec c sep); [done|]. simpl in Hp. by rewrite IH.
Qed.

Lemma split_on_join sep parts :
  parts <> [] -> Forall (fun p => has_char sep p = false) parts ->
  split_on sep (join sep parts) = parts.
Proof.
  induction parts as [|p [|q ps] IH]; intros Hne Hall; [done| |].
  - inversion Hall; subst. by apply split_on_nosep.
  - inversion Hall as [|? ? Hp Hrest]; subst. simpl join.
    rewrite split_on_app_nosep by exact Hp. f_equal. apply IH; [done | exact Hrest].
Qed.

Lemma has_char_app c s t :
  has_char c (s ++ t)%string = has_char c s || has_char c t.
Proof. unfold has_char. by rewrite list_ascii_of_string_app, existsb_app. Qed.

(** ** [trim] *)

Lemma trim_start_idem s : trim_start (trim_start s) = trim_start s.
Proof.
  induction s as [|c s IH]; simpl; [done|].
  destruct (is_ws c) eqn:E; [exact IH|]. simpl. by rewrite E.
Qed.

(** After [trim_start] the string is empty or starts with a non-space. *)
Definition starts_non_ws (s : string) : Prop :=
  match list_ascii_of_string s with [] => True | c :: _ => is_ws c = false end.

Lemma trim_start_starts s : starts_non_ws (trim_start s).
Proof.
  induction s as [|c s IH]; simpl; [done|]. destruct (is_ws c) eqn:E; [exact IH|].
  unfold starts_non_ws. simpl. exact E.
Qed.

Lemma trim_start_fixed s : starts_non_ws s -> trim_start s = s.
Proof. destruct s as [|c s]; unfold starts_non_ws; simpl; [done|]. by intros ->. Qed.

Lemma str_rev_involutive s : str_rev (str_rev s) = s.
Proof.
  unfold str_rev. rewrite list_ascii_of_string_of_list_ascii, rev_involutive.
  apply string_of_list_ascii_of_string.
Qed.

Lemma list_ascii_str_rev s :
  list_ascii_of_string (str_rev s) = rev (list_ascii_of_string s).
Proof. unfold str_rev. apply list_ascii_of_string_of_list_ascii. Qed.

(** [trim_start] drops a prefix. *)
Lemma trim_start_suffix s :
  exists k, list_ascii_of_string s = k ++ list_ascii_of_string (trim_start s).
Proof.
  induction s as [|c s IH]; simpl; [by exists []|].
  destruct (is_ws c); [|by exists []].
  destruct IH as [k Hk]. exists (c :: k). simpl. by rewrite Hk.
Qed.

(** [trim] is idempotent: the schemas' [trim] option applied to content
    the handler already trimmed changes nothing. *)
Lemma trim_idem s : trim (trim s) = trim s.
Proof.
  unfold trim, trim_end.
  set (u := trim_start s). set (v := trim_start (str_rev u)).
  assert (Hv : trim_start (str_rev v) = str_rev v).
  { apply trim_start_fixed. unfold starts_non_ws. rewrite list_ascii_str_rev.
    destruct (trim_start_suffix (str_rev u)) as [k Hk]. fold v in Hk.
    rewrite list_ascii_str_rev in Hk.
    pose proof (trim_start_starts s) as Hu. fold u in Hu. unfold starts_non_ws in Hu.
    assert (Hu' : list_ascii_of_string u = rev (list_ascii_of_string v) ++ rev k).
    { by rewrite <- rev_app_distr, <- Hk, rev_involutive. }
    rewrite Hu' in Hu.
    destruct (rev (list_ascii_of_string v)); [done | exact Hu]. }
  rewrite Hv, str_rev_involutive. unfold v at 1. by rewrite trim_start_idem.
Qed.

End JsString.
