(* ===== verification/Codec.v ===== *)
(** * Hexadecimal codecs

    Two encodings the program relies on through its libraries:
    - a MongoDB ObjectId is printed by [toString()] as 24 lower-case hex
      digits, and a route parameter is cast back to an ObjectId only when
      it is exactly 24 hex digits (either case): [hex_fixed] and
      [parse_hex] below, used by Store.v;
    - the token model of Jwt.v carries text fields hex-encoded, two digits
      per code unit, so that a token contains no white space and no
      separator: [hex_of_string] and [string_of_hex].
    The round-trip lemmas are what make the ownership checks of the route
    handlers (which compare [toString()] forms) and the token claims
    correct. *)

From stdpp Require Import base list strings.
From Stdlib Require Import String Ascii NArith Lia.
From S2P Require Import Prelude JsString.

Local Open Scope N_scope.
Local Open Scope bool_scope.

Module Codec.

Definition hex_digit (d : N) : ascii :=
  ascii_of_N (if d <? 10 then 48 + d else 87 + d).

Definition hex_val (c : ascii) : option N :=
  let n := N_of_ascii c in
  if (48 <=? n) && (n <=? 57) then Some (n - 48)
  else if (97 <=? n) && (n <=? 102) then Some (n - 87)
  else if (65 <=? n) && (n <=? 70) then Some (n - 55)
  else None.

(** [w] digits, most significant first, of [n mod 16^w]. *)
Fixpoint hex_fixed (w : nat) (n : N) : string :=
  match w with
  | O => EmptyString
  | S w' => (hex_fixed w' (n / 16) ++ String (hex_digit (n mod 16)) EmptyString)%string
  end.

Fixpoint parse_hex_acc (acc : N) (s : string) : option N :=
  match s with
  | EmptyString => Some acc
  | String c s' =>
      match hex_val c with
      | Some d => parse_hex_acc (acc * 16 + d) s'
      | None => None
      end
  end.

Definition parse_hex (s : string) : option N := parse_hex_acc 0 s.

Definition hex_of_string (s : string) : string :=
  String.concat "" (map (fun c => hex_fixed 2 (N_of_ascii c)) (list_ascii_of_string s)).

Fixpoint string_of_hex (s : string) : option string :=
  match s with
  | EmptyString => Some EmptyString
  | String a (String b s') =>
      match hex_val a, hex_val b, string_of_hex s' with
      | Some x, Some y, Some r => Some (String (ascii_of_N (x * 16 + y)) r)
      | _, _, _ => None
      end
  | _ => None
  end.

Definition is_hex_char (c : ascii) : bool :=
  match hex_val c with Some _ => true | None => false end.

(** ** Digits *)

Ltac n_lt_16_cases d :=
  let p := fresh "p" in
  destruct d as [|p]; [|do 4 (try destruct p as [p|p|]); try lia].

Lemma hex_val_digit d : d < 16 -> hex_val (hex_digit d) = Some d.
Proof. intros Hd. n_lt_16_cases d; reflexivity. Qed.

Lemma hex_digit_hex d : d < 16 -> is_hex_char (hex_digit d) = true.
Proof. intros Hd. unfold is_hex_char. by rewrite hex_val_digit. Qed.

Lemma hex_val_lt c d : hex_val c = Some d -> d < 16.
Proof.
  intros H. destruct c as [[] [] [] [] [] [] [] []]; vm_compute in H;
    try discriminate; injection H as <-; lia.
Qed.

(** ** Fixed-width numbers *)

Lemma hex_fixed_length w n : String.length (hex_fixed w n) = w.
Proof.
  revert n. induction w as [|w IH]; intros n; simpl; [done|].
  rewrite string_length_app, IH. simpl. lia.
Qed.

Lemma parse_hex_acc_app acc s t :
  parse_hex_acc acc (s ++ t)%string =
  match parse_hex_acc acc s with Some a => parse_hex_acc a t | None => None end.
Proof.
  revert acc. induction s as [|c s IH]; intros acc; simpl; [done|].
  destruct (hex_val c); [apply IH | done].
Qed.

Lemma mod_16_succ n w : (n / 16) mod 16 ^ N.of_nat w * 16 + n mod 16 = n mod 16 ^ N.of_nat (S w).
Proof.
  rewrite Nat2N.inj_succ, N.pow_succ_r', (N.mul_comm 16 (16 ^ _)).
  rewrite (N.mul_comm (16 ^ _) 16), N.Div0.mod_mul_r by (try apply N.pow_nonzero; lia).
  lia.
Qed.

Lemma parse_hex_acc_fixed w n acc :
  parse_hex_acc acc (hex_fixed w n) = Some (acc * 16 ^ N.of_nat w + n mod 16 ^ N.of_nat w).
Proof.
  revert n acc. induction w as [|w IH]; intros n acc; simpl hex_fixed.
  - simpl. f_equal. rewrite N.mod_1_r. lia.
  - rewrite parse_hex_acc_app, IH. simpl.
    rewrite hex_val_digit by (apply N.mod_lt; lia). f_equal.
    rewrite <- mod_16_succ, Nat2N.inj_succ, N.pow_succ_r'. lia.
Qed.

(** Printing a number with [w] digits and parsing it back gives it modulo
    [16^w]. *)
Lemma parse_hex_fixed w n : parse_hex (hex_fixed w n) = Some (n mod 16 ^ N.of_nat w).
Proof. unfold parse_hex. by rewrite parse_hex_acc_fixed. Qed.

Lemma hex_fixed_chars w n :
  Forall (fun c => is_hex_char c = true) (list_ascii_of_string (hex_fixed w n)).
Proof.
  revert n. induction w as [|w IH]; intros n; simpl; [constructor|].
  rewrite list_ascii_of_string_app. apply Forall_app. split; [apply IH|].
  constructor; [|constructor]. apply hex_digit_hex, N.mod_lt. lia.
Qed.

(** ** Text *)

Lemma hex_fixed_2 n :
  hex_fixed 2 n = String (hex_digit ((n / 16) mod 16)) (String (hex_digit (n mod 16)) EmptyString).
Proof. reflexivity. Qed.

Lemma N_of_ascii_lt c : N_of_ascii c < 256.
Proof. destruct c as [[] [] [] [] [] [] [] []]; vm_compute; reflexivity. Qed.

Lemma hex_pair_decode n :
  n < 256 -> ((n / 16) mod 16) * 16 + n mod 16 = n.
Proof.
  intros Hn. rewrite (N.mod_small (n / 16) 16).
  - pose proof (N.div_mod n 16). lia.
  - apply N.Div0.div_lt_upper_bound. lia.
Qed.

Lemma hex_of_string_cons c s :
  hex_of_string (String c s) = (hex_fixed 2 (N_of_ascii c) ++ hex_of_string s)%string.
Proof.
  unfold hex_of_string. simpl list_ascii_of_string. cbn [map].
  destruct (map _ (list_ascii_of_string s)); [|reflexivity].
  simpl. by rewrite string_app_nil_r.
Qed.

(** Hex-encoding a text and decoding it gives the text back. *)
Lemma string_of_hex_of_string s : string_of_hex (hex_of_string s) = Some s.
Proof.
  induction s as [|c s IH]; [done|].
  rewrite hex_of_string_cons, hex_fixed_2, !string_app_cons, string_app_nil_l.
  cbn [string_of_hex]. rewrite !hex_val_digit, IH by (apply N.mod_lt; lia).
  rewrite hex_pair_decode by apply N_of_ascii_lt. by rewrite ascii_N_embedding.
Qed.

Lemma hex_of_string_chars s :
  Forall (fun c => is_hex_char c = true) (list_ascii_of_string (hex_of_string s)).
Proof.
  induction s as [|c s IH]; [constructor|].
  rewrite hex_of_string_cons, list_ascii_of_string_app. apply Forall_app.
  split; [apply hex_fixed_chars | exact IH].
Qed.

(** A string of hex digits contains no separator that is not a hex digit. *)
Lemma hex_chars_no_sep sep s :
  is_hex_char sep = false ->
  Forall (fun c => is_hex_char c = true) (list_ascii_of_string s) ->
  JsString.has_char sep s = false.
Proof.
  intros Hsep Hall. unfold JsString.has_char.
  apply not_true_is_false. intros Hex. apply existsb_exists in Hex as [d [Hin Hd]].
  destruct (ascii_dec d sep) as [->|]; [|discriminate].
  rewrite Forall_forall in Hall. specialize (Hall sep). rewrite <- list_elem_of_In in Hin.
  rewrite (Hall Hin) in Hsep. discriminate.
Qed.

(** ** Parsing then printing

    Printing a parsed hex string gives it back lower-cased: the digit of
    [hex_val c] is [lower_char c], and the leading digit of a fixed-width
    number is its [w]-th digit. *)

Lemma hex_digit_val c d : hex_val c = Some d -> hex_digit d = JsString.lower_char c.
Proof.
  intros H. destruct c as [[] [] [] [] [] [] [] []]; vm_compute in H;
    try discriminate; injection H as <-; reflexivity.
Qed.

Lemma hex_fixed_cons w n :
  hex_fixed (S w) n = String (hex_digit ((n / 16 ^ N.of_nat w) mod 16)) (hex_fixed w n).
Proof.
  revert n. induction w as [|w IH]; intros n.
  - simpl. by rewrite N.div_1_r.
  - change (hex_fixed (S (S w)) n) with
      (hex_fixed (S w) (n / 16) ++ String (hex_digit (n mod 16)) EmptyString)%string.
    rewrite IH, N.Div0.div_div, Nat2N.inj_succ, N.pow_succ_r'. reflexivity.
Qed.

Lemma parse_hex_acc_value acc s n :
  parse_hex_acc acc s = Some n ->
  exists v, v < 16 ^ N.of_nat (String.length s) /\ n = acc * 16 ^ N.of_nat (String.length s) + v.
Proof.
  revert acc. induction s as [|c s IH]; intros acc H; simpl in H.
  - injection H as <-. exists 0. simpl. lia.
  - destruct (hex_val c) as [d|] eqn:Hc; [|discriminate].
    apply hex_val_lt in Hc. destruct (IH _ H) as [v [Hv ->]].
    exists (d * 16 ^ N.of_nat (String.length s) + v).
    simpl String.length. rewrite Nat2N.inj_succ, N.pow_succ_r'.
    remember (16 ^ N.of_nat (String.length s)) as P. split; [|ring].
    assert (d * P <= 15 * P) by (apply N.mul_le_mono_r; lia). lia.
Qed.

Lemma parse_hex_acc_print acc s n :
  parse_hex_acc acc s = Some n -> hex_fixed (String.length s) n = JsString.toLowerCase s.
Proof.
  revert acc. induction s as [|c s IH]; intros acc H; [done|]. simpl in H.
  destruct (hex_val c) as [d|] eqn:Hc; [|discriminate].
  simpl String.length. rewrite hex_fixed_cons, (IH _ H). simpl. f_equal.
  destruct (parse_hex_acc_value _ _ _ H) as [v [Hv ->]].
  rewrite N.div_add_l, N.div_small, N.add_0_r by (try apply N.pow_nonzero; lia).
  rewrite (N.add_comm (acc * 16) d), N.Div0.mod_add, N.mod_small
    by (apply hex_val_lt in Hc; lia).
  by apply hex_digit_val.
Qed.

(** Lower-casing does not change what a character is worth as a digit. *)
Lemma hex_val_lower c : hex_val (JsString.lower_char c) = hex_val c.
Proof. destruct c as [[] [] [] [] [] [] [] []]; reflexivity. Qed.

Lemma parse_hex_acc_lower acc s :
  parse_hex_acc acc (JsString.toLowerCase s) = parse_hex_acc acc s.
Proof.
  revert acc. induction s as [|c s IH]; intros acc; [done|]. simpl.
  rewrite hex_val_lower. destruct (hex_val c); [apply IH | done].
Qed.

End Codec.
