(* ===== verification/JsValue.v ===== *)
(** * JavaScript values of request bodies and JSON responses

    [express.json()] parses a request body into a JavaScript object whose
    fields the handlers destructure ([const { title, ... } = req.body])
    and test for truthiness ([if (!title)], [title || blog.title]).
    [jsval] models the primitive values such a field can hold: a missing
    field reads as [undefined]; numbers are integers (JSON bodies carry no
    NaN; fractional numbers are not modelled); nested arrays and objects
    in a field are not modelled.  A body is a finite map from field names
    to values.  [json] is the value a handler passes to [res.json]. *)

From stdpp Require Import base gmap strings list.
From Stdlib Require Import String ZArith.
From S2P Require Import Prelude.

Local Open Scope bool_scope.

Module JsValue.

Inductive jsval : Type :=
| JUndefined
| JNull
| JBool (b : bool)
| JNum (z : Z)
| JStr (s : string).

#[export] Instance jsval_eq_dec : EqDecision jsval.
Proof. solve_decision. Defined.

(** ECMAScript ToBoolean on the modelled values. *)
Definition truthy (v : jsval) : bool :=
  match v with
  | JUndefined | JNull => false
  | JBool b => b
  | JNum z => negb (Z.eqb z 0)
  | JStr s => negb (String.eqb s "")
  end.

(** [a || b] *)
Definition js_or (a b : jsval) : jsval := if truthy a then a else b.

Definition body : Type := gmap string jsval.

(** [req.body.k] *)
Definition field (b : body) (k : string) : jsval := default JUndefined (b !! k).

(** The JSON a handler sends. *)
Inductive json : Type :=
| JsonNull
| JsonBool (b : bool)
| JsonNum (z : Z)
| JsonStr (s : string)
| JsonArr (l : list json)
| JsonObj (fields : list (string * json)).

(** [{ message: m }] *)
Definition msg (m : string) : json := JsonObj [("message", JsonStr m)].

(** A key at any depth of a JSON value. *)
Fixpoint json_has_key (k : string) (j : json) : bool :=
  match j with
  | JsonArr l => existsb (json_has_key k) l
  | JsonObj fs => existsb (fun kv => String.eqb kv.1 k || json_has_key k kv.2) fs
  | _ => false
  end.

Lemma json_has_key_obj k fs :
  json_has_key k (JsonObj fs) = false <->
  Forall (fun kv => kv.1 <> k /\ json_has_key k kv.2 = false) fs.
Proof.
  induction fs as [|[k' v] fs IH]; simpl; [split; auto|].
  rewrite Forall_cons, !orb_false_iff, String.eqb_neq, <- IH. simpl. tauto.
Qed.

Lemma truthy_str s : truthy (JStr s) = true <-> s <> "".
Proof.
  simpl. rewrite negb_true_iff. split.
  - intros H ->. discriminate.
  - intros H. apply String.eqb_neq. exact H.
Qed.

Lemma js_or_truthy a b : truthy a = true -> js_or a b = a.
Proof. unfold js_or. by intros ->. Qed.

Lemma js_or_falsy a b : truthy a = false -> js_or a b = b.
Proof. unfold js_or. by intros ->. Qed.

End JsValue.

#[export] Hint Rewrite JsValue.js_or_truthy JsValue.js_or_falsy using assumption : blog_rw.
