(* ===== verification/Models.v ===== *)
(** * The Mongoose models of src/models

    One Module per schema ([User], [Blog], [Comment]) holding the stored
    document as a Record, and the schema's casts and validators as
    functions: a document is built from the values the handler passes to
    [new Model({...})] by casting each path (String paths take the string
    form of a primitive, [trim] and [lowercase] setters run at cast time,
    [default] fills an [undefined] path) and is then checked by the
    validators ([required], [minlength], [maxlength], [enum], [match],
    [min], [max]) when [save()] runs.  A failed validation is a
    [ValidationError] naming the failing paths in schema order. *)

From stdpp Require Import base gmap strings list.
From Stdlib Require Import String Ascii ZArith NArith DecimalString.
From S2P Require Import Prelude JsString Codec JsValue.
Import JsValue.

Local Open Scope bool_scope.

Module Models.

(** ** Casts shared by the schemas *)

(** [String(v)] for a primitive; [null] and [undefined] are absent. *)
Definition cast_string (v : jsval) : option string :=
  match v with
  | JUndefined | JNull => None
  | JBool true => Some "true"
  | JBool false => Some "false"
  | JNum z => Some (NilZero.string_of_int (Z.to_int z))
  | JStr s => Some s
  end.

(** Mongoose's [required] on a String path: present and not empty. *)
Definition required_str (v : option string) : bool :=
  match v with Some s => negb (String.eqb s "") | None => false end.

Definition len_between (lo hi : nat) (s : string) : bool :=
  (lo <=? String.length s)%nat && (String.length s <=? hi)%nat.

(** A validator result: the document or the failing paths. *)
Definition check (path : string) (ok : bool) : list string :=
  if ok then [] else [path].

(** ** Blog (src/models/Blog.js) *)
Module Blog.
Inductive Category := Business | Study | Technology | Food | Travel | Others.

#[export] Instance category_eq_dec : EqDecision Category.
Proof. solve_decision. Defined.

Definition category_name (c : Category) : string :=
  match c with
  | Business => "Business" | Study => "Study" | Technology => "Technology"
  | Food => "Food" | Travel => "Travel" | Others => "Others"
  end.

Definition all_categories : list Category :=
  [Business; Study; Technology; Food; Travel; Others].

(** The [enum] of the schema, as strings. *)
Definition enum_values : list string := map category_name all_categories.

Definition parse_category (s : string) : option Category :=
  find (fun c => String.eqb (category_name c) s) all_categories.

Record t := mk {
  title : string;
  description : string;
  category : Category;
  image : string;
  author : N;
  createdAt : Z
}.

(** [new Blog({...}).save()] validation: every path is required,
    [category] must be in the enum, [author] must cast to an ObjectId. *)
Definition validate (title description image : option string)
           (category : option string) (author : option N) (now : Z)
  : result t (list string) :=
  match title, description, category ≫= parse_category, image, author with
  | Some ti, Some de, Some ca, Some im, Some au =>
      if required_str title && required_str description && required_str image
      then Ok (mk ti de ca im au now)
      else Err (check "title" (required_str title) ++ check "description" (required_str description)
                ++ check "image" (required_str image))
  | _, _, _, _, _ =>
      Err (check "title" (required_str title) ++ check "description" (required_str description)
           ++ check "category" (bool_decide (is_Some (category ≫= parse_category)))
           ++ check "image" (required_str image)
           ++ check "author" (bool_decide (is_Some author)))
  end.

(** A stored blog: its text paths are non-empty (the category is in the
    enum by its type). *)
Definition wf (b : t) : Prop := title b <> "" /\ description b <> "" /\ image b <> "".
End Blog.

(** ** Comment (src/models/Comment.js) *)
Module Comment.
Record t := mk {
  content : string;
  blog : N;
  user : N;
  createdAt : Z;
  updatedAt : Z
}.

(** [content] is trimmed by its setter and required; [blog] and [user]
    are required ObjectIds; the pre-save hook stamps [updatedAt]. *)
Definition validate (content : option string) (blog user : option N) (now : Z)
  : result t (list string) :=
  let content := JsString.trim <$> content in
  match content, blog, user with
  | Some c, Some b, Some u =>
      if required_str content then Ok (mk c b u now now) else Err ["content"]
  | _, _, _ =>
      Err (check "content" (required_str content) ++ check "blog" (bool_decide (is_Some blog))
           ++ check "user" (bool_decide (is_Some user)))
  end.

(** A stored comment has non-empty trimmed content. *)
Definition wf (c : t) : Prop := content c <> "" /\ JsString.trim (content c) = content c.
End Comment.

(** ** User (src/models/User.js) *)
Module User.
Record t := mk {
  username : string;
  email : string;
  password : string;
  profileImage : option string;
  firstName : option string;
  lastName : option string;
  age : option Z;
  gender : option string;
  phone : option string;
  country : option string;
  city : option string;
  address : option string;
  qualification : option string;
  createdAt : Z;
  updatedAt : Z
}.

Definition default_profileImage : string :=
  "https://cdn-icons-png.flaticon.com/512/3135/3135715.png".

(** [\w] *)
Definition is_word (c : ascii) : bool :=
  let n := nat_of_ascii c in
  ((48 <=? n) && (n <=? 57)) || ((65 <=? n) && (n <=? 90))
  || ((97 <=? n) && (n <=? 122)) || (n =? 95).

(** The local part of [/^\w+([\.-]?\w+)*@gmail\.com$/]: words of [\w]
    joined by single ['.'] or ['-']. *)
Fixpoint word_seq (need_word : bool) (l : list ascii) : bool :=
  match l with
  | [] => negb need_word
  | c :: l' =>
      if is_word c then word_seq false l'
      else if (nat_of_ascii c =? 46) || (nat_of_ascii c =? 45)
           then negb need_word && word_seq true l'
           else false
  end.

Definition gmail_suffix : string := "@gmail.com".

Definition email_match (s : string) : bool :=
  JsString.endsWith s gmail_suffix
  && word_seq true (list_ascii_of_string
                      (substring 0 (String.length s - String.length gmail_suffix) s)).

Definition gender_enum : list string := ["Male"; "Female"; "Other"; ""].

Definition phone_match (s : string) : bool :=
  len_between 10 15 s
  && forallb (fun c => (48 <=? nat_of_ascii c) && (nat_of_ascii c <=? 57))
             (list_ascii_of_string s).

Definition opt_check {A} (p : A -> bool) (v : option A) : bool :=
  match v with Some x => p x | None => true end.

(** The validators of the schema, in path order; [[]] when the document
    is valid.  [password] is checked as stored, that is on the hash. *)
Definition errors (u : t) : list string :=
  check "username" (required_str (Some (username u)) && len_between 3 30 (username u))
  ++ check "email" (required_str (Some (email u)) && email_match (email u))
  ++ check "password" (required_str (Some (password u)) && len_between 5 100 (password u))
  ++ check "firstName" (opt_check (fun s => String.length s <=? 50)%nat (firstName u))
  ++ check "lastName" (opt_check (fun s => String.length s <=? 50)%nat (lastName u))
  ++ check "age" (opt_check (fun a => (1 <=? a)%Z && (a <=? 120)%Z) (age u))
  ++ check "gender" (opt_check (JsString.includes gender_enum) (gender u))
  ++ check "phone" (opt_check phone_match (phone u))
  ++ check "address" (opt_check (fun s => String.length s <=? 200)%nat (address u))
  ++ check "qualification" (opt_check (fun s => String.length s <=? 100)%nat (qualification u)).
End User.

(** ** Lemmas *)

Lemma parse_category_name c : Blog.parse_category (Blog.category_name c) = Some c.
Proof. destruct c; reflexivity. Qed.

Lemma parse_category_spec s c :
  Blog.parse_category s = Some c <-> Blog.category_name c = s.
Proof.
  split.
  - unfold Blog.parse_category. intros H. apply find_some in H as [_ H].
    by apply String.eqb_eq in H.
  - intros <-. apply parse_category_name.
Qed.

Lemma parse_category_enum s :
  is_Some (Blog.parse_category s) <-> JsString.includes Blog.enum_values s = true.
Proof.
  unfold JsString.includes. rewrite existsb_exists. split.
  - intros [c Hc]. apply parse_category_spec in Hc. subst.
    exists (Blog.category_name c). split; [|apply String.eqb_refl].
    destruct c; simpl; auto 7.
  - intros [x [Hin Heq]]. apply String.eqb_eq in Heq. subst x.
    simpl in Hin. repeat destruct Hin as [<-|Hin]; try done; eexists; reflexivity.
Qed.

Lemma elem_of_check x path ok : x ∈ check path ok <-> x = path /\ ok = false.
Proof. destruct ok; simpl; set_solver. Qed.

Lemma required_str_some s : required_str (Some s) = true <-> s <> "".
Proof.
  simpl. rewrite negb_true_iff. split.
  - intros H ->. discriminate.
  - apply String.eqb_neq.
Qed.

Lemma string_of_int_nonempty i : NilZero.string_of_int i <> "".
Proof.
  destruct i as [d|d]; [|discriminate]. unfold NilZero.string_of_int, NilZero.string_of_uint.
  destruct d; discriminate.
Qed.

(** A truthy primitive casts to a non-empty string. *)
Lemma cast_string_truthy v :
  truthy v = true -> exists s, cast_string v = Some s /\ s <> "".
Proof.
  destruct v as [| |[]|z|s]; simpl; intros H; try discriminate.
  - eexists. split; [reflexivity|discriminate].
  - eexists. split; [reflexivity | apply string_of_int_nonempty].
  - exists s. split; [reflexivity|]. apply negb_true_iff, String.eqb_neq in H. exact H.
Qed.

(** A blog that passes validation is well formed and is exactly the
    document built from the cast values. *)
Lemma blog_validate_ok ti de im ca au now b :
  Blog.validate ti de im ca au now = Ok b ->
  Blog.wf b /\ Some (Blog.title b) = ti /\ Some (Blog.description b) = de
  /\ Some (Blog.image b) = im /\ Some (Blog.author b) = au
  /\ ca = Some (Blog.category_name (Blog.category b)) /\ Blog.createdAt b = now.
Proof.
  unfold Blog.validate.
  destruct ti as [ti|], de as [de|], ca as [ca|], im as [im|], au as [au|]; simpl;
    try discriminate; try (destruct (Blog.parse_category _); discriminate).
  destruct (Blog.parse_category ca) as [c|] eqn:Ec; [|discriminate].
  case_ifs; intros H; try discriminate.
  injection H as <-. apply parse_category_spec in Ec.
  repeat match goal with H : (_ && _) = true |- _ => apply andb_true_iff in H as [? ?] end.
  repeat match goal with H : negb _ = true |- _ => apply negb_true_iff, String.eqb_neq in H end.
  unfold Blog.wf. simpl. subst. repeat split; auto.
Qed.

Lemma comment_validate_ok co bl us now c :
  Comment.validate co bl us now = Ok c ->
  Comment.wf c /\ Some (Comment.content c) = JsString.trim <$> co
  /\ Some (Comment.blog c) = bl /\ Some (Comment.user c) = us.
Proof.
  unfold Comment.validate.
  destruct co as [co|], bl as [bl|], us as [us|]; simpl; try discriminate.
  case_ifs; intros H; try discriminate.
  injection H as <-. simpl.
  repeat match goal with H : negb _ = true |- _ => apply negb_true_iff, String.eqb_neq in H end.
  unfold Comment.wf. simpl. repeat split; auto. apply JsString.trim_idem.
Qed.

Lemma check_app_nil p b l : check p b ++ l = [] <-> b = true /\ l = [].
Proof. unfold check. destruct b; simpl; split; intros H; naive_solver. Qed.

(** A user that passes validation has an email of the Gmail pattern. *)
Lemma errors_nil_email u : User.errors u = [] -> User.email_match (User.email u) = true.
Proof.
  unfold User.errors. rewrite !check_app_nil. intros (_ & He & _).
  by apply andb_true_iff in He as [_ He].
Qed.

Lemma email_match_endsWith s : User.email_match s = true -> JsString.endsWith s User.gmail_suffix = true.
Proof. unfold User.email_match. by intros [? _]%andb_true_iff. Qed.

End Models.
