(* ===== verification/Store.v ===== *)
(** * The document store and the Mongoose calls of the handlers

    The three collections [users], [blogs] and [comments] are finite maps
    from ObjectIds to documents.  An ObjectId is a 96-bit number; its
    [toString()] is 24 lower-case hex digits, and a string is cast to an
    ObjectId only when it is 24 hex digits ([CastError] otherwise).  New
    ids come from a counter that wraps at 2^96, and inserting under an id
    already taken fails with a duplicate-key error, as MongoDB's unique
    [_id] index does; the unique index on [users.email] is enforced the
    same way.

    Every call is a computation of the monad [M] of Prelude.v over the
    store: [findById], [findOne], [save], [findByIdAndUpdate] and
    [findByIdAndDelete] as the route handlers use them. *)

From stdpp Require Import base gmap strings list.
From Stdlib Require Import String Ascii ZArith NArith Lia.
From S2P Require Import Prelude JsString Codec JsValue Models.
Import Models.

Local Open Scope N_scope.
Local Open Scope blog_scope.

Module Store.

(** ** ObjectIds *)

Definition oid_bound : N := 2 ^ 96.

(** [id.toString()] *)
Definition oid_toString (o : N) : string := Codec.hex_fixed 24 o.

(** The cast of a string to an ObjectId. *)
Definition cast_oid (s : string) : option N :=
  if (String.length s =? 24)%nat then Codec.parse_hex s else None.

(** ** Errors thrown by the data layer and the libraries *)

Inductive exn : Type :=
| CastError (model path value : string)
| ValidationError (model : string) (paths : list string)
| DuplicateKey (collection key : string)
| TypeError (what : string)
| SignError (what : string).

(** [err.message] *)
(** A double quote, which Mongoose's messages put around values. *)
Definition dq : string := String "034"%char EmptyString.

Definition quoted (s : string) : string := (dq ++ s ++ dq)%string.

Definition exn_message (e : exn) : string :=
  match e with
  | CastError model path v =>
      "Cast to ObjectId failed for value " ++ quoted v ++ " (type string) at path " ++ quoted path
      ++ " for model " ++ quoted model
  | ValidationError model paths =>
      model ++ " validation failed: " ++ JsString.join ","%char paths
  | DuplicateKey coll key => "E11000 duplicate key error collection: " ++ coll ++ " dup key: " ++ key
  | TypeError what => what
  | SignError what => what
  end%string.

(** ** The store *)

Record db : Type := mkDb {
  users : gmap N User.t;
  blogs : gmap N Blog.t;
  comments : gmap N Comment.t;
  next_id : N
}.

Definition empty_db : db := mkDb ∅ ∅ ∅ 0.

Definition set_users (d : db) (m : gmap N User.t) : db :=
  mkDb m (blogs d) (comments d) (next_id d).
Definition set_blogs (d : db) (m : gmap N Blog.t) : db :=
  mkDb (users d) m (comments d) (next_id d).
Definition set_comments (d : db) (m : gmap N Comment.t) : db :=
  mkDb (users d) (blogs d) m (next_id d).

Definition M (A : Type) : Type := st db exn A.

(** A fresh ObjectId. *)
Definition new_id : M N :=
  fun d => (mkDb (users d) (blogs d) (comments d) ((next_id d + 1) mod oid_bound), Ok (next_id d)).

(** ** Queries and writes, one per collection *)

(** [Model.findById(s)] *)
Definition findById {A} (model : string) (coll : db -> gmap N A) (s : string)
  : M (option A) :=
  match cast_oid s with
  | None => st_throw (CastError model "_id" s)
  | Some o => fun d => (d, Ok (coll d !! o))
  end.

Definition find_blog := findById "Blog" blogs.
Definition find_comment := findById "Comment" comments.
Definition find_user := findById "User" users.

(** [Model.findByIdAndDelete(s)] *)
Definition delete_blog (s : string) : M unit :=
  match cast_oid s with
  | None => st_throw (CastError "Blog" "_id" s)
  | Some o => fun d => (set_blogs d (delete o (blogs d)), Ok tt)
  end.

Definition delete_comment (s : string) : M unit :=
  match cast_oid s with
  | None => st_throw (CastError "Comment" "_id" s)
  | Some o => fun d => (set_comments d (delete o (comments d)), Ok tt)
  end.

(** [doc.save()] of a new document: it gets a fresh id, and the insert fails
    when the id is taken. *)
Definition insert_blog (b : Blog.t) : M N :=
  let* o := new_id in
  fun d => match blogs d !! o with
           | Some _ => (d, Err (DuplicateKey "blogs" "_id"))
           | None => (set_blogs d (<[o := b]> (blogs d)), Ok o)
           end.

Definition insert_comment (c : Comment.t) : M N :=
  let* o := new_id in
  fun d => match comments d !! o with
           | Some _ => (d, Err (DuplicateKey "comments" "_id"))
           | None => (set_comments d (<[o := c]> (comments d)), Ok o)
           end.

(** [User.findOne({ email })]: the query value goes through the schema's
    [lowercase] setter. *)
Definition find_user_by_email (e : string) : M (option (N * User.t)) :=
  fun d => (d, Ok (head (omap (fun '(k, u) =>
                     if String.eqb (User.email u) (JsString.toLowerCase e)
                     then Some (k, u) else None) (map_to_list (users d))))).

Definition email_taken (d : db) (e : string) : bool :=
  bool_decide (exists k u, users d !! k = Some u /\ User.email u = e).

(** Inserting a user also checks the unique index on [email]. *)
Definition insert_user (u : User.t) : M N :=
  let* o := new_id in
  fun d => if email_taken d (User.email u) then (d, Err (DuplicateKey "users" "email"))
           else match users d !! o with
                | Some _ => (d, Err (DuplicateKey "users" "_id"))
                | None => (set_users d (<[o := u]> (users d)), Ok o)
                end.

(** [doc.save()] of a loaded document. *)
Definition save_comment (o : N) (c : Comment.t) : M unit :=
  fun d => (set_comments d (<[o := c]> (comments d)), Ok tt).
Definition save_user (o : N) (u : User.t) : M unit :=
  fun d => (set_users d (<[o := u]> (users d)), Ok tt).


(** Reduce a handler run over the store: the monad's plumbing and the
    projections of a rebuilt store. *)
Ltac db_red := st_red; cbn [users blogs comments next_id set_users set_blogs set_comments].

(** ** Frame conditions: what a computation leaves alone

    A [Frame] is a preorder on stores; [preserves R m] says that every run
    of [m] ends in a store related to the one it started from.  The
    relations used are "the users (blogs, comments) are unchanged";
    [preserves] is closed under the monad's operations, so a handler is
    shown to leave a collection alone by walking its code
    ([solve_preserves]). *)

Class Frame (R : db -> db -> Prop) : Prop := {
  frame_refl : forall d, R d d;
  frame_trans : forall d1 d2 d3, R d1 d2 -> R d2 d3 -> R d1 d3
}.

Definition keeps_users (d d' : db) : Prop := users d' = users d.
Definition keeps_blogs (d d' : db) : Prop := blogs d' = blogs d.
Definition keeps_comments (d d' : db) : Prop := comments d' = comments d.

#[export] Instance keeps_users_frame : Frame keeps_users.
Proof. split; unfold keeps_users; congruence. Qed.
#[export] Instance keeps_blogs_frame : Frame keeps_blogs.
Proof. split; unfold keeps_blogs; congruence. Qed.
#[export] Instance keeps_comments_frame : Frame keeps_comments.
Proof. split; unfold keeps_comments; congruence. Qed.

Definition preserves (R : db -> db -> Prop) {A} (m : M A) : Prop := forall d, R d (m d).1.

Section Preserves.
Context (R : db -> db -> Prop) `{!Frame R}.

Lemma preserves_ret {A} (a : A) : preserves R (st_ret a).
Proof. intros d. apply frame_refl. Qed.

Lemma preserves_throw {A} (e : exn) : preserves R (st_throw (A:=A) e).
Proof. intros d. apply frame_refl. Qed.

Lemma preserves_bind {A B} (m : M A) (k : A -> M B) :
  preserves R m -> (forall a, preserves R (k a)) -> preserves R (st_bind m k).
Proof.
  intros Hm Hk d. unfold st_bind. specialize (Hm d).
  destruct (m d) as [d' [a|e]]; simpl in *; [|exact Hm].
  eapply frame_trans; [exact Hm | apply Hk].
Qed.

Lemma preserves_catch {A} (m : M A) (h : exn -> M A) :
  preserves R m -> (forall e, preserves R (h e)) -> preserves R (st_catch m h).
Proof.
  intros Hm Hh d. unfold st_catch. specialize (Hm d).
  destruct (m d) as [d' [a|e]]; simpl in *; [exact Hm|].
  eapply frame_trans; [exact Hm | apply Hh].
Qed.

(** A computation that reads the store and writes nothing. *)
Lemma preserves_read {A} (m : M A) : (forall d, (m d).1 = d) -> preserves R m.
Proof. intros H d. rewrite H. apply frame_refl. Qed.
End Preserves.

Create HintDb frame discriminated.
#[export] Hint Resolve preserves_ret preserves_throw : frame.

(** A store primitive, or a read or write written inline as a function
    of the store, by evaluation. *)
Ltac frame_prim :=
  intros ?d; unfold keeps_users, keeps_blogs, keeps_comments, st_bind, st_throw;
  repeat (case_match; db_red); simplify_eq; reflexivity.

(** Walk a computation built from the monad's operations, casing on its
    tests, down to the store primitives of the hint database. *)
Ltac solve_preserves :=
  repeat match goal with
  | |- forall _, preserves _ _ => intro
  | |- Frame _ => exact _
  | |- preserves _ (st_catch _ _) => apply preserves_catch
  | |- preserves _ (st_bind _ _) => apply preserves_bind
  | |- preserves _ (let _ := _ in _) => progress cbv zeta
  | |- preserves _ (if ?b then _ else _) => destruct b
  | |- preserves _ (match ?x with _ => _ end) => progress destruct x
  | |- preserves _ _ => solve [eauto with frame typeclass_instances | frame_prim]
  end.

(** ** Lemmas *)

Lemma oid_bound_hex : oid_bound = 16 ^ N.of_nat 24.
Proof. reflexivity. Qed.

(** Casting the [toString()] of an ObjectId gives it back. *)
Lemma cast_oid_toString o : o < oid_bound -> cast_oid (oid_toString o) = Some o.
Proof.
  intros Ho. unfold cast_oid, oid_toString.
  rewrite Codec.hex_fixed_length. simpl Nat.eqb. cbv iota.
  rewrite Codec.parse_hex_fixed, <- oid_bound_hex. f_equal. by apply N.mod_small.
Qed.

(** ObjectId strings round-trip up to letter case: a string casts to
    the ObjectId [o] exactly when [o] is below [2^96] and [o.toString()] is
    the string lower-cased, so [toString] inverts the cast on the
    lower-case ids the server prints and an id written with upper-case hex
    digits names the same document. *)
Theorem cast_oid_roundtrip s o :
  cast_oid s = Some o <-> o < oid_bound /\ oid_toString o = JsString.toLowerCase s.
Proof.
  split.
  - unfold cast_oid, Codec.parse_hex. destruct (String.length s =? 24)%nat eqn:Hl; [|done].
    apply Nat.eqb_eq in Hl. intros H. split.
    + destruct (Codec.parse_hex_acc_value _ _ _ H) as [v [Hv ->]]. rewrite Hl in Hv. exact Hv.
    + unfold oid_toString. rewrite <- Hl. by eapply Codec.parse_hex_acc_print.
  - intros [Ho E]. rewrite <- (cast_oid_toString o Ho), E.
    unfold cast_oid, Codec.parse_hex. by rewrite JsString.toLowerCase_length, Codec.parse_hex_acc_lower.
Qed.

(** The cast ignores the letter case of the hex digits. *)
Lemma cast_oid_lower s : cast_oid (JsString.toLowerCase s) = cast_oid s.
Proof.
  unfold cast_oid, Codec.parse_hex. by rewrite JsString.toLowerCase_length, Codec.parse_hex_acc_lower.
Qed.

Lemma oid_toString_inj o1 o2 :
  o1 < oid_bound -> o2 < oid_bound ->
  oid_toString o1 = oid_toString o2 -> o1 = o2.
Proof.
  intros H1 H2 E. apply (f_equal cast_oid) in E.
  rewrite !cast_oid_toString in E by assumption. congruence.
Qed.

(** The user a lookup by email finds: [findOne] reads nothing else. *)
Lemma find_user_by_email_some e d d' o u :
  find_user_by_email e d = (d', Ok (Some (o, u))) ->
  d' = d /\ users d !! o = Some u /\ User.email u = JsString.toLowerCase e.
Proof.
  unfold find_user_by_email. intros [= <- Hh]. split; [done|].
  apply head_omap_some in Hh as [[k v] [Hin Hf]].
  apply elem_of_map_to_list in Hin.
  destruct (String.eqb_spec (User.email v) (JsString.toLowerCase e)); simplify_eq. done.
Qed.

Lemma find_user_by_email_none e d :
  email_taken d (JsString.toLowerCase e) = false -> find_user_by_email e d = (d, Ok None).
Proof.
  unfold find_user_by_email, email_taken. intros Ht. do 2 f_equal.
  apply head_omap_none. intros [k v] Hin. apply elem_of_map_to_list in Hin.
  destruct (String.eqb_spec (User.email v) (JsString.toLowerCase e)) as [E|]; [|done].
  apply bool_decide_eq_false in Ht. exfalso. eauto.
Qed.

Lemma find_user_by_email_taken e d :
  email_taken d (JsString.toLowerCase e) = true ->
  exists o u, find_user_by_email e d = (d, Ok (Some (o, u))).
Proof.
  unfold email_taken. intros Ht. apply bool_decide_eq_true in Ht as (k & v & Hk & Hv).
  unfold find_user_by_email.
  destruct (head (omap _ (map_to_list (users d)))) as [[o u]|] eqn:Eh; [eauto|].
  apply elem_of_map_to_list in Hk. eapply head_omap_None_inv in Hk; [|exact Eh].
  simpl in Hk. rewrite Hv, String.eqb_refl in Hk. discriminate.
Qed.

Lemma find_user_by_email_unique e d o u :
  users d !! o = Some u -> User.email u = JsString.toLowerCase e ->
  (forall k v, users d !! k = Some v -> User.email v = JsString.toLowerCase e -> k = o) ->
  find_user_by_email e d = (d, Ok (Some (o, u))).
Proof.
  intros Ho He Huniq. unfold find_user_by_email. do 2 f_equal.
  apply head_omap_unique.
  - exists (o, u). rewrite elem_of_map_to_list. simpl. rewrite He, String.eqb_refl. done.
  - intros [k v] x Hin. apply elem_of_map_to_list in Hin. simpl.
    destruct (String.eqb_spec (User.email v) (JsString.toLowerCase e)) as [E|]; [|done].
    intros [= <-]. pose proof (Huniq k v Hin E) as ->. congruence.
Qed.

(** The store after inserting a user under a free id. *)
Definition added_user (d : db) (u : User.t) : db :=
  mkDb (<[next_id d := u]> (users d)) (blogs d) (comments d) ((next_id d + 1) mod oid_bound).

Lemma insert_user_run u d :
  email_taken d (User.email u) = false -> users d !! next_id d = None ->
  insert_user u d = (added_user d u, Ok (next_id d)).
Proof. unfold insert_user, new_id, st_bind, email_taken. simpl. intros Ht Hf. by rewrite Ht, Hf. Qed.

(** ** What each store call leaves alone *)


Lemma new_id_users : preserves keeps_users new_id. Proof. frame_prim. Qed.
Lemma new_id_blogs : preserves keeps_blogs new_id. Proof. frame_prim. Qed.
Lemma new_id_comments : preserves keeps_comments new_id. Proof. frame_prim. Qed.

Lemma findById_keeps R `{!Frame R} {A} model (coll : db -> gmap N A) s :
  preserves R (findById model coll s).
Proof. intros d. unfold findById, st_throw. case_match; apply frame_refl. Qed.

Lemma find_user_by_email_keeps R `{!Frame R} e : preserves R (find_user_by_email e).
Proof. intros d. apply frame_refl. Qed.

Lemma delete_blog_users s : preserves keeps_users (delete_blog s).
Proof. unfold delete_blog. frame_prim. Qed.
Lemma delete_blog_comments s : preserves keeps_comments (delete_blog s).
Proof. unfold delete_blog. frame_prim. Qed.
Lemma delete_comment_users s : preserves keeps_users (delete_comment s).
Proof. unfold delete_comment. frame_prim. Qed.
Lemma delete_comment_blogs s : preserves keeps_blogs (delete_comment s).
Proof. unfold delete_comment. frame_prim. Qed.
Lemma insert_blog_users b : preserves keeps_users (insert_blog b).
Proof. unfold insert_blog, new_id. frame_prim. Qed.
Lemma insert_blog_comments b : preserves keeps_comments (insert_blog b).
Proof. unfold insert_blog, new_id. frame_prim. Qed.
Lemma insert_comment_users c : preserves keeps_users (insert_comment c).
Proof. unfold insert_comment, new_id. frame_prim. Qed.
Lemma insert_comment_blogs c : preserves keeps_blogs (insert_comment c).
Proof. unfold insert_comment, new_id. frame_prim. Qed.
Lemma insert_user_blogs u : preserves keeps_blogs (insert_user u).
Proof. unfold insert_user, new_id. frame_prim. Qed.
Lemma insert_user_comments u : preserves keeps_comments (insert_user u).
Proof. unfold insert_user, new_id. frame_prim. Qed.
Lemma save_comment_users o c : preserves keeps_users (save_comment o c).
Proof. frame_prim. Qed.
Lemma save_comment_blogs o c : preserves keeps_blogs (save_comment o c).
Proof. frame_prim. Qed.
Lemma save_user_blogs o u : preserves keeps_blogs (save_user o u).
Proof. frame_prim. Qed.
Lemma save_user_comments o u : preserves keeps_comments (save_user o u).
Proof. frame_prim. Qed.

#[export] Hint Unfold find_blog find_comment find_user : frame.
#[export] Hint Resolve new_id_users new_id_blogs new_id_comments findById_keeps
  find_user_by_email_keeps delete_blog_users delete_blog_comments delete_comment_users
  delete_comment_blogs insert_blog_users insert_blog_comments insert_comment_users
  insert_comment_blogs insert_user_blogs insert_user_comments save_comment_users
  save_comment_blogs save_user_blogs save_user_comments : frame.

End Store.
