(* ===== verification/Jwt.v ===== *)
(** * The token library (jsonwebtoken) as an interface

    src/routes/authRoutes.js calls [jwt.sign({id, email, username},
    secret, {expiresIn: "7d"})] and src/middleware/authMiddleware.js calls
    [jwt.verify(token, secret)], catching [TokenExpiredError] and
    [JsonWebTokenError].  The library is not part of the repository; its
    contract is the class [JwtLib]: what [verify] returns on a token that
    [sign] produced (the claims while [floor(now/1000) < exp], the expiry
    error after), that it rejects a token signed with another secret, and
    that a token is a non-empty string without spaces (so it survives the
    [Authorization: Bearer <token>] header).  The handlers are proved
    against the class.  [hs_jwt] is an instance with the library's
    three-part [header.payload.signature] layout and its checking order
    (decode, signature, expiry); its signature is a keyed injective code,
    standing in for HMAC-SHA256. *)

From stdpp Require Import base list strings.
From Stdlib Require Import String Ascii ZArith NArith Lia.
From S2P Require Import Prelude JsString Codec.
Import JsString Codec.

Local Open Scope Z_scope.

Module Jwt.

(** The payload [jwt.sign] writes: the three claims of the login route and
    the library's [iat] and [exp] (seconds). *)
Record claims : Type := mkClaims {
  id : string;
  email : string;
  username : string;
  iat : Z;
  exp : Z
}.

Inductive verify_error : Type :=
| TokenExpiredError
| JsonWebTokenError (message : string).

(** [expiresIn: "7d"] *)
Definition seven_days : Z := 7 * 24 * 60 * 60.

(** The claims [jwt.sign] puts in a token made at [now] (milliseconds). *)
Definition claims_at (now : Z) (id email username : string) : claims :=
  mkClaims id email username (now / 1000) (now / 1000 + seven_days).

(** [Date.now()] is a non-negative safe integer. *)
Definition time_ok (now : Z) : Prop := 0 <= now < 2 ^ 53.

Class JwtLib : Type := {
  sign : string -> Z -> string -> string -> string -> string;
  verify : string -> string -> Z -> result claims verify_error;
  verify_sign : forall key now now' i e u,
    time_ok now ->
    verify (sign key now i e u) key now' =
      let c := claims_at now i e u in
      if now' / 1000 <? exp c then Ok c else Err TokenExpiredError;
  verify_other_key : forall key key' now now' i e u,
    key <> key' -> exists m, verify (sign key now i e u) key' now' = Err (JsonWebTokenError m);
  sign_no_space : forall key now i e u,
    has_char " "%char (sign key now i e u) = false /\ sign key now i e u <> ""%string;
  verify_ok_exp : forall token key now c,
    verify token key now = Ok c -> now / 1000 < exp c
}.

(** ** An instance *)

Definition header : string := "eyJhbGciOiJIUzI1NiJ9".

Definition encode_payload (c : claims) : string :=
  join "-"%char [hex_of_string (id c); hex_of_string (email c); hex_of_string (username c);
                 hex_fixed 16 (Z.to_N (iat c)); hex_fixed 16 (Z.to_N (exp c))].

Definition decode_payload (p : string) : option claims :=
  match split_on "-"%char p with
  | [a; b; c; d; e] =>
      i ← string_of_hex a; em ← string_of_hex b; u ← string_of_hex c;
      t ← parse_hex d; x ← parse_hex e;
      Some (mkClaims i em u (Z.of_N t) (Z.of_N x))
  | _ => None
  end.

Definition signature (key h p : string) : string :=
  hex_of_string (key ++ "." ++ h ++ "." ++ p)%string.

Definition hs_sign (key : string) (now : Z) (i e u : string) : string :=
  let p := encode_payload (claims_at now i e u) in
  join "."%char [header; p; signature key header p].

Definition hs_verify (token key : string) (now : Z) : result claims verify_error :=
  match split_on "."%char token with
  | [h; p; s] =>
      match decode_payload p with
      | None => Err (JsonWebTokenError "invalid token")
      | Some c =>
          if String.eqb h header && String.eqb s (signature key h p) then
            if now / 1000 <? exp c then Ok c else Err TokenExpiredError
          else Err (JsonWebTokenError "invalid signature")
      end
  | _ => Err (JsonWebTokenError "jwt malformed")
  end.

(** ** Lemmas of the instance *)

Lemma hex_no_sep sep s : is_hex_char sep = false -> has_char sep (hex_of_string s) = false.
Proof. intros H. apply hex_chars_no_sep; [exact H | apply hex_of_string_chars]. Qed.

Lemma fixed_no_sep sep w n : is_hex_char sep = false -> has_char sep (hex_fixed w n) = false.
Proof. intros H. apply hex_chars_no_sep; [exact H | apply hex_fixed_chars]. Qed.

Lemma has_char_join c sep parts :
  c <> sep -> Forall (fun p => has_char c p = false) parts -> has_char c (join sep parts) = false.
Proof.
  intros Hne Hall. induction Hall as [|p ps Hp Hps IH]; [done|].
  destruct ps as [|q qs]; [exact Hp|].
  cbn [join]. rewrite has_char_app, Hp. simpl. unfold has_char in *. simpl.
  destruct (ascii_dec sep c); [congruence|]. exact IH.
Qed.

Lemma decode_encode_payload c :
  0 <= iat c < 2 ^ 64 -> 0 <= exp c < 2 ^ 64 ->
  decode_payload (encode_payload c) = Some c.
Proof.
  intros Hi He. unfold decode_payload, encode_payload.
  rewrite split_on_join.
  2: done.
  2: repeat constructor; (apply hex_no_sep || apply fixed_no_sep); reflexivity.
  rewrite !string_of_hex_of_string, !parse_hex_fixed. simpl.
  rewrite !N.mod_small by (change (16 ^ N.of_nat 16)%N with (Z.to_N (2 ^ 64)); lia).
  rewrite !Z2N.id by lia. by destruct c.
Qed.

Lemma payload_no_dot c : has_char "."%char (encode_payload c) = false.
Proof.
  apply has_char_join; [done|].
  repeat constructor; (apply hex_no_sep || apply fixed_no_sep); reflexivity.
Qed.

Lemma split_token key now i e u :
  split_on "."%char (hs_sign key now i e u) =
    [header; encode_payload (claims_at now i e u);
     signature key header (encode_payload (claims_at now i e u))].
Proof.
  unfold hs_sign. apply split_on_join; [done|].
  constructor; [reflexivity|]. constructor; [apply payload_no_dot|].
  constructor; [apply hex_no_sep; reflexivity | constructor].
Qed.

Lemma claims_at_bounds now i e u :
  time_ok now ->
  0 <= iat (claims_at now i e u) < 2 ^ 64 /\ 0 <= exp (claims_at now i e u) < 2 ^ 64.
Proof.
  unfold time_ok, claims_at, seven_days. simpl. intros H.
  pose proof (Z.div_pos now 1000). pose proof (Z.div_le_upper_bound now 1000 (2^53)).
  lia.
Qed.

Lemma signature_key_inj key key' h p : signature key h p = signature key' h p -> key = key'.
Proof.
  unfold signature. intros E.
  apply (f_equal string_of_hex) in E. rewrite !string_of_hex_of_string in E.
  injection E as E. by apply string_app_cancel_r in E.
Qed.

#[export] Program Instance hs_jwt : JwtLib := {|
  sign := hs_sign;
  verify := hs_verify
|}.
Next Obligation.
  intros key now now' i e u Hnow. unfold hs_verify. rewrite split_token.
  destruct (claims_at_bounds now i e u Hnow).
  rewrite decode_encode_payload by assumption.
  rewrite !String.eqb_refl. reflexivity.
Qed.
Next Obligation.
  intros key key' now now' i e u Hne. unfold hs_verify. rewrite split_token.
  destruct (decode_payload _) as [c|]; [|eauto].
  rewrite String.eqb_refl. simpl.
  destruct (String.eqb _ _) eqn:E; [|eauto].
  apply String.eqb_eq, signature_key_inj in E. congruence.
Qed.
Next Obligation.
  intros key now i e u. split.
  - unfold hs_sign. apply has_char_join; [done|].
    constructor; [reflexivity|]. constructor.
    + apply has_char_join; [done|].
      repeat constructor; (apply hex_no_sep || apply fixed_no_sep); reflexivity.
    + constructor; [apply hex_no_sep; reflexivity | constructor].
  - unfold hs_sign. cbn [join]. unfold header. rewrite string_app_cons. discriminate.
Qed.
Next Obligation.
  intros token key now c. unfold hs_verify.
  destruct (split_on _ _) as [|h [|p [|sg [|]]]]; try discriminate.
  destruct (decode_payload p) as [c'|]; [|discriminate].
  case_ifs; intros H; try discriminate. injection H as <-. by apply Z.ltb_lt.
Qed.

End Jwt.
