(* ===== verification/Bcrypt.v ===== *)
(** * The password hashing library (bcrypt) as an interface

    src/routes/authRoutes.js calls [bcrypt.genSalt(10)], [bcrypt.hash(password,
    salt)] at signup and [bcrypt.compare(password, user.password)] at login.
    The library is not part of the repository; its contract is the class
    [BcryptLib]: a hash is a 60-character string ([$2b$10$], the 22-character
    salt, the 31-character digest), the library reads at most the first 72
    bytes of a password, and [compare] accepts every password whose first 72
    bytes are those of the hashed one.  The salt [genSalt] draws at random is
    an input of the signup request.  [toy_bcrypt] is an instance with the
    library's layout and a non-cryptographic digest. *)

From stdpp Require Import base list strings.
From Stdlib Require Import String Ascii NArith Lia.
From S2P Require Import Prelude Codec.
Import Codec.

Module Bcrypt.

(** bcrypt uses at most 72 bytes of the password. *)
Definition max_password_bytes : nat := 72.

Definition truncate72 (p : string) : string := substring 0 max_password_bytes p.

Class BcryptLib : Type := {
  hash : string -> string -> string;
  compare : string -> string -> bool;
  hash_length : forall p s, String.length (hash p s) = 60;
  compare_hash : forall p q s, truncate72 p = truncate72 q -> compare p (hash q s) = true
}.

(** ** An instance *)

Definition prefix : string := "$2b$10$".

(** [genSalt] yields 22 characters; other salts are padded or cut. *)
Definition salt_norm (s : string) : string := substring 0 22 (s ++ "......................").

Fixpoint digest_acc (acc : N) (s : string) : N :=
  match s with
  | EmptyString => acc
  | String c s' => digest_acc ((acc * 257 + N_of_ascii c + 1) mod 16 ^ 31) s'
  end.

Definition toy_hash (p s : string) : string :=
  let salt := salt_norm s in
  (prefix ++ salt ++ hex_fixed 31 (digest_acc 0 (salt ++ truncate72 p)))%string.

Definition toy_compare (p h : string) : bool :=
  String.eqb (toy_hash p (substring 7 22 h)) h.

Lemma substring_0_length n s : n <= String.length s -> String.length (substring 0 n s) = n.
Proof.
  revert s. induction n as [|n IH]; intros [|c s]; simpl; intros H; try lia.
  rewrite IH; lia.
Qed.

Lemma salt_norm_length s : String.length (salt_norm s) = 22.
Proof. apply substring_0_length. rewrite string_length_app. simpl. lia. Qed.

Lemma substring_0_app x y : substring 0 (String.length x) (x ++ y)%string = x.
Proof. induction x as [|c x IH]; [by destruct y|]. rewrite string_app_cons. simpl. by rewrite IH. Qed.

Lemma substring_mid p x y :
  substring (String.length p) (String.length x) (p ++ x ++ y)%string = x.
Proof. induction p as [|c p IH]; [exact (substring_0_app x y)|]. rewrite string_app_cons. exact IH. Qed.

Lemma salt_norm_idem s : salt_norm (salt_norm s) = salt_norm s.
Proof.
  unfold salt_norm at 1. rewrite <- (salt_norm_length s). apply substring_0_app.
Qed.

#[export] Program Instance toy_bcrypt : BcryptLib := {|
  hash := toy_hash;
  compare := toy_compare
|}.
Next Obligation.
  intros p s. unfold toy_hash. rewrite !string_length_app, salt_norm_length, hex_fixed_length.
  reflexivity.
Qed.
Next Obligation.
  intros p q s H. unfold toy_compare, toy_hash at 2.
  rewrite <- (salt_norm_length s). change 7 with (String.length prefix).
  rewrite substring_mid. unfold toy_hash. rewrite salt_norm_idem, H. apply String.eqb_refl.
Qed.

End Bcrypt.
