(* ===== verification/Http.v ===== *)
(** * Requests, responses and the server configuration

    What an Express handler reads from a request after [express.json()]
    and [cookieParser()] ran (src/server.js): the [token] cookie, the
    [Authorization] header, the route parameters, the JSON body, and the
    clock: [now] is the reading [jwt.verify] takes and the handler's
    timestamps use, [now2] the later reading of [Date.now()] in
    src/middleware/authMiddleware.js line 18 ([now <= now2]).  What it writes:
    a status, a JSON body and cookie operations ([res.cookie],
    [res.clearCookie]).  The configuration holds what the handlers read
    from [process.env]. *)

From stdpp Require Import base gmap strings list.
From Stdlib Require Import String ZArith Lia.
From S2P Require Import Prelude JsValue.
Import JsValue.

Module Http.

Record request : Type := mkReq {
  cookie_token : option string;
  authorization : option string;
  params : gmap string string;
  body : JsValue.body;
  now : Z;
  now2 : Z
}.

(** [req.params.k]; Express always provides the parameters of the
    matched route. *)
Definition param (r : request) (k : string) : string := default EmptyString (params r !! k).

Record cookie_options : Type := mkCookieOptions {
  httpOnly : bool;
  secure : bool;
  sameSite : string;
  maxAge : Z
}.

Inductive cookie_op : Type :=
| SetCookie (name value : string) (opts : cookie_options)
| ClearCookie (name : string).

Record response : Type := mkResp {
  status : Z;
  rjson : json;
  cookies : list cookie_op
}.

(** [res.status(s).json(j)] *)
Definition reply (s : Z) (j : json) : response := mkResp s j [].

(** ** The shape of the API's error responses

    An error status carries its explanation as the string [message] of a
    JSON object. *)

Definition has_string_field (k : string) (j : json) : bool :=
  match j with
  | JsonObj kvs =>
      existsb (fun kv => String.eqb kv.1 k && match kv.2 with JsonStr _ => true | _ => false end) kvs
  | _ => false
  end.

Definition resp_typed (r : response) : Prop :=
  (400 <= status r)%Z -> has_string_field "message" (rjson r) = true.

(** The leaf of a [resp_typed] proof: the body is evaluated, the status
    compared. *)
Ltac resp_typed_leaf :=
  let H := fresh in intro H; first [reflexivity | cbn [status reply] in H; lia].

Record config : Type := mkConfig {
  jwt_secret : option string;
  node_env_production : bool
}.

End Http.
