(* ===== verification/AuthMiddleware.v ===== *)
(** * The authentication gate (src/middleware/authMiddleware.js)

    [authMiddleware] takes the token from the [token] cookie, or when the
    cookie is missing or empty from the second space-separated word of the
    [Authorization] header; rejects with 401 when there is none; verifies
    it with [jwt.verify] and the secret of the configuration; rejects with
    401 and a message that tells an expired token (["Session expired"])
    from an invalid one (["Invalid token"]); re-checks the expiry against a
    second reading of the clock (["Token has expired"]); and otherwise
    passes the decoded claims on to the route ([req.user = decoded;
    next()]).  The outcome is [Next claims] or [Reject response].  The
    gate is proved against the [Jwt.JwtLib] interface. *)

From stdpp Require Import base gmap strings list.
From Stdlib Require Import String Ascii ZArith Lia.
From S2P Require Import Prelude JsString JsValue Jwt Http.
Import JsString JsValue Http.

Local Open Scope Z_scope.

Module AuthMiddleware.

Inductive outcome : Type :=
| Next (c : Jwt.claims)
| Reject (r : response).

Definition msg_denied : string := "Access denied. Please login to continue.".
Definition msg_expired_check : string := "Token has expired. Please login again.".
Definition msg_session_expired : string := "Session expired. Please login again.".
Definition msg_invalid : string := "Invalid token. Please login again.".

(** [req.header("Authorization")?.split(" ")[1]] *)
Definition header_token (h : option string) : option string :=
  h ≫= fun s => nth_error (split_on " "%char s) 1.

(** [req.cookies.token || <header token>] *)
Definition extract_token (r : request) : option string :=
  match cookie_token r with
  | Some t => if String.eqb t "" then header_token (authorization r) else Some t
  | None => header_token (authorization r)
  end.

Section Gate.
Context `{J : Jwt.JwtLib}.

(** [jwt.verify(token, process.env.JWT_SECRET)]; without a secret the
    library throws a [JsonWebTokenError]. *)
Definition jwt_verify (cfg : config) (token : string) (now : Z)
  : result Jwt.claims Jwt.verify_error :=
  match jwt_secret cfg with
  | None => Err (Jwt.JsonWebTokenError "secret or public key must be provided")
  | Some k => Jwt.verify token k now
  end.

Definition authMiddleware (cfg : config) (r : request) : outcome :=
  match extract_token r with
  | None => Reject (reply 401 (msg msg_denied))
  | Some t =>
      if String.eqb t "" then Reject (reply 401 (msg msg_denied))
      else match jwt_verify cfg t (now r) with
           | Ok c =>
               if negb (Z.eqb (Jwt.exp c) 0) && (now2 r >=? Jwt.exp c * 1000)
               then Reject (reply 401 (msg msg_expired_check))
               else Next c
           | Err Jwt.TokenExpiredError => Reject (reply 401 (msg msg_session_expired))
           | Err (Jwt.JsonWebTokenError _) => Reject (reply 401 (msg msg_invalid))
           end
  end.

Definition msg_auth_error : string := "Authentication error. Please try again.".

(** The whole middleware, outer [try] included (lines 5-6, 39-44), on the
    [req.cookies] the application provides: [None] when no cookie parser
    ran, so that reading [req.cookies.token] throws a TypeError, which the
    outer [catch] answers with 500.  With a cookie parser it is
    [authMiddleware] on the parsed token. *)
Definition authMiddleware_raw (cfg : config) (cookies : option (option string)) (r : request)
  : outcome :=
  match cookies with
  | None => Reject (reply 500 (msg msg_auth_error))
  | Some t => authMiddleware cfg (mkReq t (authorization r) (params r) (body r) (now r) (now2 r))
  end.

(** ** Lemmas *)

(** Every answer of the middleware is an object with a message. *)
Lemma authMiddleware_raw_reject_typed cfg c r resp :
  authMiddleware_raw cfg c r = Reject resp -> resp_typed resp.
Proof.
  unfold authMiddleware_raw, authMiddleware.
  repeat case_match; intros; simplify_eq; resp_typed_leaf.
Qed.

Lemma authMiddleware_reject_typed cfg r resp :
  authMiddleware cfg r = Reject resp -> resp_typed resp.
Proof.
  intros H. apply (authMiddleware_raw_reject_typed cfg (Some (cookie_token r)) r).
  by destruct r.
Qed.


(** The header form [<scheme> <token>] yields the token. *)
Lemma header_token_bearer scheme t :
  has_char " "%char scheme = false -> has_char " "%char t = false ->
  header_token (Some (scheme ++ " " ++ t)%string) = Some t.
Proof.
  intros Hs Ht. unfold header_token. simpl.
  change (" " ++ t)%string with (String " "%char t).
  rewrite split_on_app_nosep, split_on_nosep by assumption. reflexivity.
Qed.

(** The token of a request that carries [tok] in its cookie, or no
    cookie and [Bearer tok] in its header. *)
Definition carries (r : request) (tok : string) : Prop :=
  (cookie_token r = Some tok) \/
  (cookie_token r = None /\ authorization r = Some ("Bearer " ++ tok)%string).

Lemma extract_carried r tok :
  tok <> ""%string -> has_char " "%char tok = false ->
  carries r tok -> extract_token r = Some tok.
Proof.
  intros Hne Hsp [Hc | [Hc Ha]]; unfold extract_token; rewrite Hc.
  - apply String.eqb_neq in Hne. by rewrite Hne.
  - rewrite Ha. apply (header_token_bearer "Bearer" tok); [reflexivity | exact Hsp].
Qed.

Lemma gate_verify cfg r tok :
  tok <> ""%string -> extract_token r = Some tok ->
  authMiddleware cfg r =
    match jwt_verify cfg tok (now r) with
    | Ok c =>
        if negb (Z.eqb (Jwt.exp c) 0) && (now2 r >=? Jwt.exp c * 1000)
        then Reject (reply 401 (msg msg_expired_check))
        else Next c
    | Err Jwt.TokenExpiredError => Reject (reply 401 (msg msg_session_expired))
    | Err (Jwt.JsonWebTokenError _) => Reject (reply 401 (msg msg_invalid))
    end.
Proof.
  intros Hne Hx. unfold authMiddleware. rewrite Hx.
  apply String.eqb_neq in Hne. by rewrite Hne.
Qed.

Lemma floor_lt_mul now e : now / 1000 < e -> now < e * 1000.
Proof. intros H. pose proof (Z.mul_div_le now 1000). pose proof (Z.mod_pos_bound now 1000).
  pose proof (Z.div_mod now 1000). lia. Qed.

Lemma jwt_verify_key cfg key tok now :
  jwt_secret cfg = Some key -> jwt_verify cfg tok now = Jwt.verify tok key now.
Proof. unfold jwt_verify. by intros ->. Qed.

Lemma carried_signed r key t0 i e u :
  carries r (Jwt.sign key t0 i e u) -> extract_token r = Some (Jwt.sign key t0 i e u).
Proof.
  destruct (Jwt.sign_no_space key t0 i e u) as [Hsp Hne].
  by apply extract_carried.
Qed.

Lemma verify_ok_now cfg tok now c : jwt_verify cfg tok now = Ok c -> now / 1000 < Jwt.exp c.
Proof.
  unfold jwt_verify. destruct (jwt_secret cfg); [apply Jwt.verify_ok_exp | discriminate].
Qed.

(** ** Properties of the gate *)

(** A token that [jwt.sign] made with the server's secret passes the gate
    while it has not expired, with the signed claims. *)
Lemma signed_token_accepted cfg r key t0 i e u :
  jwt_secret cfg = Some key -> Jwt.time_ok t0 ->
  carries r (Jwt.sign key t0 i e u) ->
  now r / 1000 < Jwt.exp (Jwt.claims_at t0 i e u) ->
  now2 r < Jwt.exp (Jwt.claims_at t0 i e u) * 1000 ->
  authMiddleware cfg r = Next (Jwt.claims_at t0 i e u).
Proof.
  intros Hk Ht Hc Hnow Hnow2.
  rewrite (gate_verify cfg r _ (proj2 (Jwt.sign_no_space key t0 i e u)) (carried_signed r key t0 i e u Hc)).
  rewrite (jwt_verify_key cfg key _ _ Hk), Jwt.verify_sign by exact Ht. cbv zeta.
  apply Z.ltb_lt in Hnow. rewrite Hnow.
  destruct (Z.geb_spec (now2 r) (Jwt.exp (Jwt.claims_at t0 i e u) * 1000)); [lia|].
  by rewrite andb_false_r.
Qed.

(** The window of a token made at [t0], in the two clock readings of a
    later request: both readings before the expiry second. *)
Lemma claims_at_window t0 i e u t t2 :
  t <= t2 -> t2 + 1000 <= t0 + Jwt.seven_days * 1000 ->
  t / 1000 < Jwt.exp (Jwt.claims_at t0 i e u) /\ t2 < Jwt.exp (Jwt.claims_at t0 i e u) * 1000.
Proof.
  intros H1 H2. unfold Jwt.claims_at. simpl.
  pose proof (Z.mul_div_le t0 1000). pose proof (Z.mul_div_le t 1000).
  pose proof (Z.mod_pos_bound t0 1000). pose proof (Z.div_mod t0 1000).
  split; [|nia]. apply Z.div_lt_upper_bound; lia.
Qed.

(** C2: a token that [jwt.sign] made at time [t0] with the server's
    secret, presented in the [token] cookie or as [Authorization: Bearer
    <token>], is accepted by every request whose clock readings fall at
    least a second before the end of the seven days, and the route
    receives exactly the claims signed at login. *)
Theorem gate_accepts_signed_token cfg r key t0 i e u :
  jwt_secret cfg = Some key -> Jwt.time_ok t0 ->
  carries r (Jwt.sign key t0 i e u) ->
  now r <= now2 r -> now2 r + 1000 <= t0 + Jwt.seven_days * 1000 ->
  authMiddleware cfg r = Next (Jwt.claims_at t0 i e u).
Proof.
  intros Hk Ht Hc H1 H2. destruct (claims_at_window t0 i e u _ _ H1 H2).
  by apply (signed_token_accepted cfg r key).
Qed.

(** C3: the same token presented after its expiry second is rejected with
    401 and the expiry message, distinct from the invalid-token message. *)
Theorem gate_rejects_expired_token cfg r key t0 i e u :
  jwt_secret cfg = Some key -> Jwt.time_ok t0 ->
  carries r (Jwt.sign key t0 i e u) ->
  Jwt.exp (Jwt.claims_at t0 i e u) <= now r / 1000 ->
  authMiddleware cfg r = Reject (reply 401 (msg msg_session_expired)).
Proof.
  intros Hk Ht Hc Hnow.
  rewrite (gate_verify cfg r _ (proj2 (Jwt.sign_no_space key t0 i e u)) (carried_signed r key t0 i e u Hc)).
  rewrite (jwt_verify_key cfg key _ _ Hk), Jwt.verify_sign by exact Ht. cbv zeta.
  destruct (Z.ltb_spec (now r / 1000) (Jwt.exp (Jwt.claims_at t0 i e u))); [lia | done].
Qed.

(** C4: a token signed with another secret is rejected with 401 and the
    invalid-token message. *)
Theorem gate_rejects_foreign_token cfg r key key' t0 i e u :
  jwt_secret cfg = Some key' -> key <> key' ->
  carries r (Jwt.sign key t0 i e u) ->
  authMiddleware cfg r = Reject (reply 401 (msg msg_invalid)).
Proof.
  intros Hk Hne Hc.
  rewrite (gate_verify cfg r _ (proj2 (Jwt.sign_no_space key t0 i e u)) (carried_signed r key t0 i e u Hc)).
  rewrite (jwt_verify_key cfg key' _ _ Hk).
  destruct (Jwt.verify_other_key key key' t0 (now r) i e u Hne) as [m ->]. done.
Qed.

(** C17: the middleware's own expiry re-check answers only when the clock
    crossed the expiry second between [jwt.verify] and the re-check: when
    both readings fall in the same second it never answers. *)
Theorem gate_recheck_needs_later_second cfg r :
  now2 r / 1000 <= now r / 1000 ->
  authMiddleware cfg r <> Reject (reply 401 (msg msg_expired_check)).
Proof.
  intros Hsec. unfold authMiddleware.
  destruct (extract_token r) as [t|]; [|discriminate].
  destruct (String.eqb t ""); [discriminate|].
  destruct (jwt_verify cfg t (now r)) as [c|[|m]] eqn:Ev; try discriminate.
  apply verify_ok_now in Ev.
  assert (now2 r < Jwt.exp c * 1000) by (apply floor_lt_mul; lia).
  destruct (Z.geb_spec (now2 r) (Jwt.exp c * 1000)); [lia|].
  rewrite andb_false_r. discriminate.
Qed.

(** C18: a non-empty [token] cookie takes precedence: the
    [Authorization] header is then not read. *)
Theorem gate_cookie_precedence cfg r t h :
  cookie_token r = Some t -> t <> ""%string ->
  authMiddleware cfg r =
    authMiddleware cfg (mkReq (cookie_token r) h (params r) (body r) (now r) (now2 r)).
Proof.
  intros Hc Hne. unfold authMiddleware, extract_token. simpl. rewrite Hc.
  apply String.eqb_neq in Hne. by rewrite Hne.
Qed.

(** C33: the Authorization header's scheme word is not checked: a
    request without a cookie carrying [<scheme> <token>], for any scheme
    word, gets exactly the answer [Bearer <token>] gets. *)
Theorem gate_any_scheme cfg r scheme tok :
  cookie_token r = None -> has_char " "%char scheme = false -> has_char " "%char tok = false ->
  authorization r = Some (scheme ++ " " ++ tok)%string ->
  authMiddleware cfg r
  = authMiddleware cfg (mkReq None (Some ("Bearer " ++ tok)%string) (params r) (body r) (now r) (now2 r)).
Proof.
  intros Hc Hs Ht Ha.
  assert (extract_token r = Some tok) as E1
    by (unfold extract_token; rewrite Hc, Ha; by apply header_token_bearer).
  assert (extract_token (mkReq None (Some ("Bearer " ++ tok)%string) (params r) (body r) (now r)
            (now2 r)) = Some tok) as E2 by (apply (header_token_bearer "Bearer"); done).
  unfold authMiddleware. rewrite E1, E2. reflexivity.
Qed.

End Gate.

(** ** Witnesses, with the [hs_jwt] instance of the token library *)

#[local] Existing Instance Jwt.hs_jwt.

Definition wcfg : config := mkConfig (Some "s3cret"%string) false.
Definition wt0 : Z := 1700000000000.
Definition wid : string := "000000000000000000000001".
Definition wtok : string := Jwt.hs_sign "s3cret" wt0 wid "ann@gmail.com" "ann".
Definition wreq (tok : option string) (hdr : option string) (t t2 : Z) : request :=
  mkReq tok hdr ∅ ∅ t t2.

Lemma gate_accepts_signed_token_witness :
  authMiddleware wcfg (wreq None (Some ("Bearer " ++ wtok)%string) (wt0 + 5000) (wt0 + 5001))
  = Next (Jwt.claims_at wt0 wid "ann@gmail.com" "ann").
Proof.
  apply (gate_accepts_signed_token wcfg _ "s3cret" wt0 wid "ann@gmail.com" "ann"); try reflexivity.
  - unfold Jwt.time_ok, wt0. lia.
  - right. split; reflexivity.
  - simpl. lia.
  - unfold Jwt.seven_days. simpl. lia.
Defined.

Lemma gate_rejects_expired_token_witness :
  authMiddleware wcfg (wreq (Some wtok) None (wt0 + 8 * 86400000) (wt0 + 8 * 86400000))
  = Reject (reply 401 (msg msg_session_expired)).
Proof.
  apply (gate_rejects_expired_token wcfg _ "s3cret" wt0 wid "ann@gmail.com" "ann"); try reflexivity.
  - unfold Jwt.time_ok, wt0. lia.
  - left. reflexivity.
  - vm_compute. discriminate.
Defined.

Lemma gate_rejects_foreign_token_witness :
  authMiddleware (mkConfig (Some "other"%string) false) (wreq (Some wtok) None wt0 wt0)
  = Reject (reply 401 (msg msg_invalid)).
Proof.
  apply (gate_rejects_foreign_token _ _ "s3cret" "other" wt0 wid "ann@gmail.com" "ann"); try reflexivity.
  - discriminate.
  - left. reflexivity.
Defined.

Lemma gate_recheck_needs_later_second_witness :
  authMiddleware wcfg (wreq (Some wtok) None wt0 (wt0 + 999))
  <> Reject (reply 401 (msg msg_expired_check)).
Proof.
  apply gate_recheck_needs_later_second. vm_compute. discriminate.
Defined.

Lemma gate_cookie_precedence_witness :
  authMiddleware wcfg (wreq (Some wtok) (Some "Bearer garbage"%string) wt0 wt0)
  = authMiddleware wcfg (wreq (Some wtok) None wt0 wt0).
Proof.
  apply (gate_cookie_precedence wcfg (wreq (Some wtok) (Some "Bearer garbage"%string) wt0 wt0) wtok None);
    [reflexivity | discriminate].
Defined.

(** The re-check does answer when the second reading falls on the expiry
    second itself: [jwt.verify] saw the last millisecond before [exp]. *)
Example gate_recheck_reachable :
  let e := Jwt.exp (Jwt.claims_at wt0 wid "ann@gmail.com" "ann") in
  authMiddleware wcfg (wreq (Some wtok) None (e * 1000 - 1) (e * 1000))
  = Reject (reply 401 (msg msg_expired_check)).
Proof. vm_compute. reflexivity. Qed.

Lemma gate_any_scheme_witness :
  authMiddleware wcfg (wreq None (Some ("Basic " ++ wtok)%string) wt0 wt0)
  = authMiddleware wcfg (mkReq None (Some ("Bearer " ++ wtok)%string) ∅ ∅ wt0 wt0).
Proof.
  apply (gate_any_scheme wcfg (wreq None (Some ("Basic " ++ wtok)%string) wt0 wt0) "Basic" wtok);
    vm_compute; reflexivity.
Defined.

End AuthMiddleware.
