(* ===== verification/AuthRoutes.v ===== *)
(** * The authentication routes (src/routes/authRoutes.js)

    Each handler is a computation of [Store.M] ending in a response, with
    the source's guards and early returns and the [try]/[catch] that turns a
    thrown error into a 500.  The handlers are proved against the two
    library interfaces, [Jwt.JwtLib] and [Bcrypt.BcryptLib]; the salt that
    [bcrypt.genSalt(10)] draws is an argument of [signup].

    - [signup]         POST /signup       (lines 10-41)
    - [login]          POST /login        (lines 44-91)
    - [getUser]        GET /user          (lines 94-107)
    - [logout]         POST /logout       (lines 110-113)
    - [updateProfile]  PUT /user/update   (lines 116-152)
    - [verifyUser]     GET /user/verify   (lines 155-174)

    A loaded user is validated again by [user.save()]; Mongoose runs the
    validators of the modified and the required paths, which on a stored
    user that passed validation is the same as running them all, as
    [User.errors] does. *)

From stdpp Require Import base gmap strings list.
From Stdlib Require Import String Ascii ZArith NArith DecimalString Lia.
From S2P Require Import Prelude JsString JsValue Models Store Jwt Bcrypt Http AuthMiddleware.
Import JsValue Models Store Http.

Local Open Scope blog_scope.

Module AuthRoutes.

Section Routes.
Context `{J : Jwt.JwtLib} `{B : Bcrypt.BcryptLib}.

(** ** Library calls *)

(** [bcrypt.hash(password, salt)]: the library throws unless the password
    is a string. *)
Definition bcrypt_hash (password : jsval) (salt : string) : M string :=
  match password with
  | JStr p => st_ret (Bcrypt.hash p salt)
  | _ => st_throw (TypeError "data and salt arguments required")
  end.

(** [bcrypt.compare(password, hash)] *)
Definition bcrypt_compare (password : jsval) (h : string) : M bool :=
  match password with
  | JStr p => st_ret (Bcrypt.compare p h)
  | _ => st_throw (TypeError "data and hash arguments required")
  end.

(** [jwt.sign({ id, email, username }, process.env.JWT_SECRET, { expiresIn: "7d" })] *)
Definition jwt_sign (cfg : config) (now : Z) (i e u : string) : M string :=
  match jwt_secret cfg with
  | None => st_throw (SignError "secretOrPrivateKey must have a value")
  | Some k => st_ret (Jwt.sign k now i e u)
  end.

(** ** Documents *)

(** [new User({ username, email, password, profileImage })] at time [now]:
    [username] is trimmed by its setter, [profileImage] takes its default
    when undefined, and both timestamps are [now] (the default and the
    pre-save hook). *)
Definition new_user (username : jsval) (email hashed : string) (profileImage : jsval) (now : Z)
  : User.t :=
  User.mk (default "" (JsString.trim <$> cast_string username)) email hashed
          (match profileImage with
           | JUndefined => Some User.default_profileImage
           | v => cast_string v
           end)
          None None None None None None None None None now now.

(** [doc.save()] of a new user: the validators, then the insert with its
    unique indexes. *)
Definition save_new_user (u : User.t) : M N :=
  match User.errors u with
  | [] => insert_user u
  | paths => st_throw (ValidationError "User" paths)
  end.

Definition opt_str (k : string) (v : option string) : list (string * json) :=
  match v with Some s => [(k, JsonStr s)] | None => [] end.

(** The JSON of a user document; [select("-password")] leaves the hash out. *)
Definition user_json (o : N) (u : User.t) (with_password : bool) : json :=
  JsonObj ([("_id", JsonStr (oid_toString o)); ("username", JsonStr (User.username u));
            ("email", JsonStr (User.email u))]
           ++ (if with_password then [("password", JsonStr (User.password u))] else [])
           ++ [("profileImage", match User.profileImage u with
                                | Some s => JsonStr s | None => JsonNull end)]
           ++ opt_str "firstName" (User.firstName u) ++ opt_str "lastName" (User.lastName u)
           ++ (match User.age u with Some a => [("age", JsonNum a)] | None => [] end)
           ++ opt_str "gender" (User.gender u) ++ opt_str "phone" (User.phone u)
           ++ opt_str "country" (User.country u) ++ opt_str "city" (User.city u)
           ++ opt_str "address" (User.address u) ++ opt_str "qualification" (User.qualification u)
           ++ [("createdAt", JsonNum (User.createdAt u)); ("updatedAt", JsonNum (User.updatedAt u))]).

(** [User.findById(id)] with the id it was found under. *)
Definition find_user_doc (s : string) : M (option (N * User.t)) :=
  match cast_oid s with
  | None => st_throw (CastError "User" "_id" s)
  | Some o => fun d => (d, Ok ((fun u => (o, u)) <$> users d !! o))
  end.

(** [User.findOne({ email })]: the value is cast to a String path; an
    absent value matches no user (every stored user has an email). *)
Definition find_user_by_value (v : jsval) : M (option (N * User.t)) :=
  match cast_string v with
  | None => st_ret None
  | Some e => find_user_by_email e
  end.

(** ** POST /signup *)
Definition signup (salt : string) (r : request) : M response :=
  st_catch
    (let username := field (body r) "username" in
     let email := field (body r) "email" in
     let password := field (body r) "password" in
     let profileImage := field (body r) "profileImage" in
     match email with
     | JStr e =>
         let lowerCaseEmail := JsString.toLowerCase e in
         if negb (JsString.endsWith lowerCaseEmail User.gmail_suffix) then
           st_ret (reply 400 (msg "Only @gmail.com emails are allowed!"))
         else
           let* existingUser := find_user_by_email lowerCaseEmail in
           match existingUser with
           | Some _ => st_ret (reply 400 (msg "Email already registered. Please log in!"))
           | None =>
               let* hashedPassword := bcrypt_hash password salt in
               save_new_user (new_user username lowerCaseEmail hashedPassword profileImage (now r)) ;;;
               st_ret (reply 201 (JsonObj [("success", JsonBool true);
                                           ("message", JsonStr "User registered successfully!")]))
           end
     | _ => st_throw (TypeError "email.toLowerCase is not a function")
     end)
    (fun _ => st_ret (reply 500 (msg "Internal Server Error"))).

(** ** POST /login *)

(** [cookieOptions] *)
Definition cookieOptions (cfg : config) : cookie_options :=
  mkCookieOptions true (node_env_production cfg) "strict" (7 * 24 * 60 * 60 * 1000).

Definition login_json (o : N) (u : User.t) (token : string) : json :=
  JsonObj [("success", JsonBool true); ("message", JsonStr "Login successful");
           ("user", JsonObj [("id", JsonStr (oid_toString o)); ("username", JsonStr (User.username u));
                             ("email", JsonStr (User.email u));
                             ("profileImage", match User.profileImage u with
                                              | Some s => JsonStr s | None => JsonNull end)]);
           ("token", JsonStr token)].

Definition login (cfg : config) (r : request) : M response :=
  st_catch
    (let email := field (body r) "email" in
     let password := field (body r) "password" in
     let* user := find_user_by_value email in
     match user with
     | None => st_ret (reply 400 (msg "Invalid credentials"))
     | Some (o, u) =>
         let* isMatch := bcrypt_compare password (User.password u) in
         if negb isMatch then st_ret (reply 400 (msg "Invalid credentials"))
         else
           let* token := jwt_sign cfg (now r) (oid_toString o) (User.email u) (User.username u) in
           st_ret (mkResp 200 (login_json o u token) [SetCookie "token" token (cookieOptions cfg)])
     end)
    (fun _ => st_ret (reply 500 (msg "Server error"))).

(** ** GET /user *)
Definition getUser (user : Jwt.claims) (r : request) : M response :=
  st_catch
    (let* found := find_user_doc (Jwt.id user) in
     match found with
     | None => st_ret (reply 404 (msg "User not found!"))
     | Some (o, u) => st_ret (reply 200 (user_json o u false))
     end)
    (fun _ => st_ret (reply 500 (msg "Internal Server Error"))).

(** ** POST /logout *)
Definition logout (r : request) : M response :=
  st_ret (mkResp 200 (msg "Logout successful!") [ClearCookie "token"]).

(** ** PUT /user/update *)

Definition digit_val (c : ascii) : option Z :=
  let n := nat_of_ascii c in
  if ((48 <=? n) && (n <=? 57))%nat then Some (Z.of_nat (n - 48)) else None.

Fixpoint parse_digits (acc : Z) (l : list ascii) : option Z :=
  match l with
  | [] => Some acc
  | c :: l' => d ← digit_val c; parse_digits (acc * 10 + d) l'
  end.

(** [Number(s)] on a string of decimal digits with an optional sign and
    surrounding white space; a blank string is [0].  Other numerals
    (fractions, exponents, hexadecimal) are not modelled and fail the
    cast. *)
Definition parse_decimal (s : string) : option Z :=
  match list_ascii_of_string (JsString.trim s) with
  | [] => Some 0%Z
  | c :: l =>
      if Ascii.eqb c "-"%char then (match l with [] => None | _ => Z.opp <$> parse_digits 0 l end)
      else if Ascii.eqb c "+"%char then (match l with [] => None | _ => parse_digits 0 l end)
      else parse_digits 0 (c :: l)
  end.

(** Mongoose's cast of a value to a Number path. *)
Definition cast_number (v : jsval) : option Z :=
  match v with
  | JNum z => Some z
  | JBool b => Some (if b then 1%Z else 0%Z)
  | JStr s => if String.eqb s "" then None else parse_decimal s
  | JUndefined | JNull => None
  end.

(** [if (v) user.k = v] on a String path, with its [trim] setter when the
    path has one. *)
Definition assign_str (v : jsval) (trims : bool) (old : option string) : option string :=
  if truthy v then (if trims then JsString.trim <$> cast_string v else cast_string v) else old.

(** The nine assignments of lines 136-144; a value that does not cast to
    a Number makes the later [save()] fail on [age]. *)
Definition apply_updates (b : JsValue.body) (u : User.t) : result User.t (list string) :=
  let f k := field b k in
  let age := if truthy (f "age") then cast_number (f "age") else User.age u in
  if truthy (f "age") && bool_decide (age = None) then Err ["age"]
  else Ok (User.mk (User.username u) (User.email u) (User.password u) (User.profileImage u)
                   (assign_str (f "firstName") true (User.firstName u))
                   (assign_str (f "lastName") true (User.lastName u))
                   age
                   (assign_str (f "gender") false (User.gender u))
                   (assign_str (f "phone") true (User.phone u))
                   (assign_str (f "country") true (User.country u))
                   (assign_str (f "city") true (User.city u))
                   (assign_str (f "address") true (User.address u))
                   (assign_str (f "qualification") true (User.qualification u))
                   (User.createdAt u) (User.updatedAt u)).

(** The pre-save hook. *)
Definition touch (now : Z) (u : User.t) : User.t :=
  User.mk (User.username u) (User.email u) (User.password u) (User.profileImage u)
          (User.firstName u) (User.lastName u) (User.age u) (User.gender u) (User.phone u)
          (User.country u) (User.city u) (User.address u) (User.qualification u)
          (User.createdAt u) now.

(** [user.save()] of a loaded user. *)
Definition save_loaded_user (o : N) (u : User.t) : M unit :=
  match User.errors u with
  | [] => save_user o u
  | paths => st_throw (ValidationError "User" paths)
  end.

Definition updateProfile (user : Jwt.claims) (r : request) : M response :=
  st_catch
    (let* found := find_user_doc (Jwt.id user) in
     match found with
     | None => st_ret (reply 404 (msg "User not found!"))
     | Some (o, u) =>
         match apply_updates (body r) u with
         | Err paths => st_throw (ValidationError "User" paths)
         | Ok u1 =>
             let u2 := touch (now r) u1 in
             save_loaded_user o u2 ;;;
             st_ret (reply 200 (JsonObj [("message", JsonStr "Profile updated successfully!");
                                         ("user", user_json o u2 true)]))
         end
     end)
    (fun _ => st_ret (reply 500 (msg "Internal Server Error"))).

(** ** GET /user/verify *)
Definition verifyUser (user : Jwt.claims) (r : request) : M response :=
  st_catch
    (let* found := find_user_doc (Jwt.id user) in
     match found with
     | None => st_ret (reply 404 (msg "User not found"))
     | Some (o, u) =>
         st_ret (reply 200 (JsonObj
           [("success", JsonBool true);
            ("user", JsonObj [("_id", JsonStr (oid_toString o)); ("username", JsonStr (User.username u));
                              ("email", JsonStr (User.email u));
                              ("profileImage", match User.profileImage u with
                                               | Some s => JsonStr s | None => JsonNull end)])]))
     end)
    (fun _ => st_ret (reply 500 (msg "Server error"))).

(** ** Running the handlers *)

Definition signup_ok : response :=
  reply 201 (JsonObj [("success", JsonBool true); ("message", JsonStr "User registered successfully!")]).

(** The user document a signup with email [e] and password [p] builds. *)
Definition signup_user (salt : string) (r : request) (e p : string) : User.t :=
  new_user (field (body r) "username") (JsString.toLowerCase e) (Bcrypt.hash p salt)
           (field (body r) "profileImage") (now r).

Lemma signup_run salt r d e p :
  field (body r) "email" = JStr e -> field (body r) "password" = JStr p ->
  User.errors (signup_user salt r e p) = [] ->
  email_taken d (JsString.toLowerCase e) = false -> users d !! next_id d = None ->
  signup salt r d = (added_user d (signup_user salt r e p), Ok signup_ok).
Proof.
  intros He Hp Hv Ht Hf. unfold signup. rewrite He, Hp.
  pose proof (email_match_endsWith _ (errors_nil_email _ Hv)) as Hend. simpl in Hend.
  rewrite Hend. simpl.
  rewrite <- (JsString.toLowerCase_idem e) in Ht.
  unfold st_catch, st_bind. rewrite (find_user_by_email_none _ _ Ht).
  rewrite JsString.toLowerCase_idem in Ht. simpl.
  unfold save_new_user. fold (signup_user salt r e p). rewrite Hv.
  by rewrite insert_user_run.
Qed.

(** The response of a successful login: the token of the user's claims,
    in the cookie and in the body. *)
Definition login_reply (cfg : config) (key : string) (now : Z) (o : N) (u : User.t) : response :=
  let token := Jwt.sign key now (oid_toString o) (User.email u) (User.username u) in
  mkResp 200 (login_json o u token) [SetCookie "token" token (cookieOptions cfg)].

Lemma login_run cfg key r d e q o u :
  jwt_secret cfg = Some key ->
  field (body r) "email" = JStr e -> field (body r) "password" = JStr q ->
  find_user_by_email e d = (d, Ok (Some (o, u))) -> Bcrypt.compare q (User.password u) = true ->
  login cfg r d = (d, Ok (login_reply cfg key (now r) o u)).
Proof.
  intros Hk He Hq Hf Hc. unfold login, st_catch, st_bind.
  rewrite He, Hq. change (find_user_by_value (JStr e)) with (find_user_by_email e).
  rewrite Hf. cbn -[find_user_by_email]. rewrite Hc. simpl.
  unfold jwt_sign. by rewrite Hk.
Qed.

(** Every answer of [login]: the store is unchanged, and the answer is the
    success of some stored user whose password matched, or one of two
    generic failures without a cookie. *)
Lemma login_cases cfg r d :
  (login cfg r d).1 = d /\
  ((exists key o u q, jwt_secret cfg = Some key /\ users d !! o = Some u /\
      field (body r) "password" = JStr q /\ Bcrypt.compare q (User.password u) = true /\
      (login cfg r d).2 = Ok (login_reply cfg key (now r) o u))
   \/ (login cfg r d).2 = Ok (reply 400 (msg "Invalid credentials"))
   \/ (login cfg r d).2 = Ok (reply 500 (msg "Server error"))).
Proof.
  unfold login, st_catch, st_bind, st_ret.
  destruct (cast_string (field (body r) "email")) as [e|] eqn:Ece.
  2: { unfold find_user_by_value. rewrite Ece. simpl. auto. }
  replace (find_user_by_value _) with (find_user_by_email e)
    by (unfold find_user_by_value; by rewrite Ece).
  destruct (find_user_by_email e d) as [d1 [[[o u]|]|]] eqn:Ef.
  3: { unfold find_user_by_email in Ef. simplify_eq. }
  2: { unfold find_user_by_email in Ef. simplify_eq. simpl. auto. }
  apply find_user_by_email_some in Ef as (-> & Hu & _).
  unfold bcrypt_compare. destruct (field (body r) "password") as [| | | |q] eqn:Eq; simpl; auto.
  destruct (Bcrypt.compare q (User.password u)) eqn:Ec; simpl; auto.
  unfold jwt_sign. destruct (jwt_secret cfg) as [key|] eqn:Ek; simpl; auto.
  split; [done|]. left. exists key, o, u, q. auto.
Qed.

(** Every run of [signup]: the insert of the built user, or an answer
    that is not 201 and leaves the users as they were. *)
Lemma signup_cases salt r d :
  (exists e p, field (body r) "email" = JStr e /\ field (body r) "password" = JStr p /\
     User.errors (signup_user salt r e p) = [] /\ email_taken d (JsString.toLowerCase e) = false /\
     users d !! next_id d = None /\
     signup salt r d = (added_user d (signup_user salt r e p), Ok signup_ok))
  \/ (exists resp, (signup salt r d).2 = Ok resp /\ status resp <> 201%Z /\
        users (signup salt r d).1 = users d).
Proof.
  destruct (field (body r) "email") as [| | | |e] eqn:He;
    try (right; unfold signup; rewrite He; eexists; split; [reflexivity | done]).
  destruct (JsString.endsWith (JsString.toLowerCase e) User.gmail_suffix) eqn:Hend;
    [|right; unfold signup; rewrite He, Hend; eexists; split; [reflexivity | done]].
  destruct (email_taken d (JsString.toLowerCase e)) eqn:Ht.
  { right. rewrite <- (JsString.toLowerCase_idem e) in Ht.
    destruct (find_user_by_email_taken _ _ Ht) as (o & u & Hf).
    unfold signup, st_catch, st_bind. rewrite He, Hend. cbn -[find_user_by_email]. rewrite Hf.
    eexists. split; [reflexivity | done]. }
  destruct (field (body r) "password") as [| | | |p] eqn:Hp;
    try (right; unfold signup, st_catch, st_bind; rewrite He, Hend, Hp; cbn -[find_user_by_email];
         rewrite <- (JsString.toLowerCase_idem e) in Ht; rewrite (find_user_by_email_none _ _ Ht);
         eexists; split; [reflexivity | done]).
  destruct (User.errors (signup_user salt r e p)) as [|x xs] eqn:Hv.
  2: { right. unfold signup, st_catch, st_bind. rewrite He, Hend, Hp. cbn -[find_user_by_email].
       rewrite <- (JsString.toLowerCase_idem e) in Ht. rewrite (find_user_by_email_none _ _ Ht).
       simpl. unfold save_new_user. fold (signup_user salt r e p). rewrite Hv.
       eexists. split; [reflexivity | done]. }
  destruct (users d !! next_id d) as [v|] eqn:Hf.
  - right. unfold signup, st_catch, st_bind. rewrite He, Hend, Hp. cbn -[find_user_by_email].
    rewrite <- (JsString.toLowerCase_idem e) in Ht. rewrite (find_user_by_email_none _ _ Ht).
    simpl. unfold save_new_user. fold (signup_user salt r e p). rewrite Hv.
    unfold insert_user, new_id, st_bind, email_taken in *. simpl in *.
    rewrite JsString.toLowerCase_idem in Ht. rewrite Ht, Hf.
    eexists. split; [reflexivity | done].
  - left. exists e, p. do 5 (split; [done|]). by apply signup_run.
Qed.

(** The assignments of [updateProfile] leave the identity of a user alone. *)
Lemma apply_updates_identity b u u1 :
  apply_updates b u = Ok u1 ->
  User.username u1 = User.username u /\ User.email u1 = User.email u /\
  User.password u1 = User.password u /\ User.profileImage u1 = User.profileImage u /\
  User.createdAt u1 = User.createdAt u.
Proof. unfold apply_updates. cbv zeta. destruct (_ && _); intros H; simplify_eq. done. Qed.

Definition profile_ok (o : N) (u : User.t) (r : request) (u1 : User.t) : response :=
  reply 200 (JsonObj [("message", JsonStr "Profile updated successfully!");
                      ("user", user_json o (touch (now r) u1) true)]).

(** Every run of [updateProfile]: the save of the updated user, or an
    answer that is not 200 and leaves the store as it was. *)
Lemma updateProfile_cases c r d :
  (exists o u u1, cast_oid (Jwt.id c) = Some o /\ users d !! o = Some u /\
     apply_updates (body r) u = Ok u1 /\ User.errors (touch (now r) u1) = [] /\
     updateProfile c r d = (set_users d (<[o := touch (now r) u1]> (users d)), Ok (profile_ok o u r u1)))
  \/ ((updateProfile c r d).1 = d /\
      exists resp, (updateProfile c r d).2 = Ok resp /\ status resp <> 200%Z).
Proof.
  unfold updateProfile, find_user_doc, st_catch, st_bind.
  destruct (cast_oid (Jwt.id c)) as [o|] eqn:Ec; simpl; [|right; eauto].
  destruct (users d !! o) as [u|] eqn:Eu; simpl; [|right; eauto].
  destruct (apply_updates (body r) u) as [u1|paths] eqn:Ea; simpl; [|right; eauto].
  unfold save_loaded_user.
  destruct (User.errors (touch (now r) u1)) as [|x xs] eqn:Ev; simpl; [|right; eauto].
  left. exists o, u, u1. auto.
Qed.

Lemma find_user_doc_found s o u d :
  cast_oid s = Some o -> users d !! o = Some u -> find_user_doc s d = (d, Ok (Some (o, u))).
Proof. unfold find_user_doc. intros -> Hu. by rewrite Hu. Qed.

Lemma getUser_found c r d o u :
  cast_oid (Jwt.id c) = Some o -> users d !! o = Some u ->
  getUser c r d = (d, Ok (reply 200 (user_json o u false))).
Proof.
  intros Ec Hu. unfold getUser, st_catch, st_bind. by rewrite (find_user_doc_found _ _ _ _ Ec Hu).
Qed.

Lemma opt_str_hides k k' v :
  k <> k' -> Forall (fun kv => kv.1 <> k' /\ json_has_key k' kv.2 = false) (opt_str k v).
Proof. intros Hk. destruct v; repeat constructor; done. Qed.

(** Without [with_password] the JSON of a user has no [password] key, at
    any depth. *)
Lemma user_json_no_password o u : json_has_key "password" (user_json o u false) = false.
Proof.
  apply json_has_key_obj. unfold user_json.
  destruct (User.profileImage u), (User.age u); rewrite !Forall_app;
    repeat split; first [apply opt_str_hides; done | repeat constructor; done].
Qed.

(** ** What the authentication routes leave alone: the blogs and the
    comments *)

Lemma auth_routes_keep R `{!Frame R} cfg salt c r :
  R = keeps_blogs \/ R = keeps_comments ->
  preserves R (signup salt r) /\ preserves R (login cfg r) /\ preserves R (getUser c r) /\
  preserves R (logout r) /\ preserves R (updateProfile c r) /\ preserves R (verifyUser c r).
Proof.
  intros HR.
  unfold signup, login, getUser, logout, updateProfile, verifyUser, bcrypt_hash, bcrypt_compare,
    jwt_sign, save_new_user, find_user_doc, find_user_by_value, save_loaded_user.
  repeat split; solve_preserves; destruct HR as [->| ->]; solve_preserves.
Qed.

(** ** The user invariant *)

(** Every stored user passed the schema's validators and has a lower-case
    email, and no two users share an email. *)
Definition users_ok (d : db) : Prop :=
  (forall o u, users d !! o = Some u ->
     User.errors u = [] /\ JsString.toLowerCase (User.email u) = User.email u) /\
  (forall o1 o2 u1 u2, users d !! o1 = Some u1 -> users d !! o2 = Some u2 ->
     User.email u1 = User.email u2 -> o1 = o2).

Lemma email_taken_false d e o u :
  email_taken d e = false -> users d !! o = Some u -> User.email u <> e.
Proof. unfold email_taken. intros Ht Hu He. apply bool_decide_eq_false in Ht. eauto. Qed.

Lemma users_ok_added d u :
  users_ok d -> User.errors u = [] -> JsString.toLowerCase (User.email u) = User.email u ->
  email_taken d (User.email u) = false -> users_ok (added_user d u).
Proof.
  intros [Hv Hu] He Hl Ht. split; simpl.
  - intros o v. rewrite lookup_insert. case_decide; [intros [= <-]; auto | apply Hv].
  - intros o1 o2 u1 u2. rewrite !lookup_insert.
    case_decide as E1; case_decide as E2; intros H1 H2 Heq; simplify_eq; try done.
    + exfalso. by apply (email_taken_false _ _ _ _ Ht H2).
    + exfalso. by apply (email_taken_false _ _ _ _ Ht H1).
    + eauto.
Qed.

Lemma users_ok_save d o u u' :
  users_ok d -> users d !! o = Some u -> User.errors u' = [] -> User.email u' = User.email u ->
  users_ok (set_users d (<[o := u']> (users d))).
Proof.
  intros [Hv Hu] Ho He Hm. pose proof (proj2 (Hv o u Ho)) as Hl. split; simpl.
  - intros k v. rewrite lookup_insert. case_decide; [intros [= <-]; rewrite Hm; auto | apply Hv].
  - intros o1 o2 u1 u2. rewrite !lookup_insert.
    case_decide; case_decide; intros H1 H2 Heq; simplify_eq; try done; eauto.
    + rewrite Hm in Heq. eauto.
    + rewrite Hm in Heq. symmetry. eauto.
Qed.

(** What [updateProfile] may do to the user stored under [o]: keep it
    absent, or keep its identity (username, email, password hash,
    profile image, creation time), and leave it unchanged unless [o] is
    the caller's id. *)
Definition profile_kept (c : Jwt.claims) (o : N) (before after : option User.t) : Prop :=
  match before, after with
  | None, None => True
  | Some u, Some u' =>
      User.username u' = User.username u /\ User.email u' = User.email u /\
      User.password u' = User.password u /\ User.profileImage u' = User.profileImage u /\
      User.createdAt u' = User.createdAt u /\ (cast_oid (Jwt.id c) <> Some o -> u' = u)
  | _, _ => False
  end.

Lemma profile_kept_refl c o ou : profile_kept c o ou ou.
Proof. destruct ou; simpl; auto 7. Qed.

(** ** Properties of the authentication routes *)

(** C11: a signup with an unused Gmail address followed by a login with
    the same email (in any letter case) and the same password, or any
    password with the same first 72 bytes, succeeds: the user is stored
    under a fresh id and the login answers 200 with a token of that id in
    the cookie and the body. *)
Theorem signup_then_login cfg key salt r1 r2 d e p e2 q :
  jwt_secret cfg = Some key ->
  field (body r1) "email" = JStr e -> field (body r1) "password" = JStr p ->
  User.errors (signup_user salt r1 e p) = [] ->
  email_taken d (JsString.toLowerCase e) = false -> users d !! next_id d = None ->
  field (body r2) "email" = JStr e2 -> JsString.toLowerCase e2 = JsString.toLowerCase e ->
  field (body r2) "password" = JStr q -> Bcrypt.truncate72 q = Bcrypt.truncate72 p ->
  signup salt r1 d = (added_user d (signup_user salt r1 e p), Ok signup_ok) /\
  login cfg r2 (added_user d (signup_user salt r1 e p)) =
    (added_user d (signup_user salt r1 e p),
     Ok (login_reply cfg key (now r2) (next_id d) (signup_user salt r1 e p))).
Proof.
  intros Hk He Hp Hv Ht Hf He2 Hlow Hq Htr. split; [by apply signup_run|].
  apply (login_run cfg key r2 _ e2 q); auto.
  - apply find_user_by_email_unique; [apply lookup_insert_eq | exact (eq_sym Hlow)|].
    intros k v Hk' Hv'. simpl in Hk'. rewrite lookup_insert in Hk'. case_decide; [done|].
    exfalso. rewrite Hlow in Hv'. by apply (email_taken_false _ _ _ _ Ht Hk').
  - apply Bcrypt.compare_hash. exact Htr.
Qed.

(** C12: every token [login] issues opens the gate as the user it was
    issued for, for seven days: a later request carrying the cookie's
    token is let through with that user's claims, and [GET /user] then
    answers 200 with that user's profile. *)
Theorem login_token_authenticates cfg r d resp r3 tok opts :
  (forall o u, users d !! o = Some u -> (o < oid_bound)%N) -> Jwt.time_ok (now r) ->
  (login cfg r d).2 = Ok resp -> SetCookie "token" tok opts ∈ cookies resp ->
  AuthMiddleware.carries r3 tok -> (now r3 <= now2 r3)%Z ->
  (now2 r3 + 1000 <= now r + Jwt.seven_days * 1000)%Z ->
  exists o u, users d !! o = Some u /\
    let c := Jwt.claims_at (now r) (oid_toString o) (User.email u) (User.username u) in
    AuthMiddleware.authMiddleware cfg r3 = AuthMiddleware.Next c /\
    getUser c r3 d = (d, Ok (reply 200 (user_json o u false))).
Proof.
  intros Hids Ht Hl Hin Hc H1 H2.
  destruct (login_cases cfg r d) as [_ [(key & o & u & q & Hk & Hu & _ & _ & Hres) | [Hres|Hres]]];
    rewrite Hres in Hl; injection Hl as <-; simpl in Hin; [|set_solver..].
  apply list_elem_of_singleton in Hin. injection Hin as -> _.
  exists o, u. split; [done|]. cbv zeta.
  destruct (AuthMiddleware.claims_at_window (now r) (oid_toString o) (User.email u) (User.username u) _ _ H1 H2).
  split; [by apply (AuthMiddleware.signed_token_accepted cfg r3 key)|].
  apply getUser_found; [|done]. apply cast_oid_toString. eauto.
Qed.

(** C16: a login with an unknown email and a login with a wrong password
    get the same answer, 400 Invalid credentials, and change nothing. *)
Theorem login_failures_identical cfg r d e q :
  field (body r) "email" = JStr e -> field (body r) "password" = JStr q ->
  (email_taken d (JsString.toLowerCase e) = false \/
   exists o u, users d !! o = Some u /\ User.email u = JsString.toLowerCase e /\
               Bcrypt.compare q (User.password u) = false) ->
  (forall o1 o2 u1 u2, users d !! o1 = Some u1 -> users d !! o2 = Some u2 ->
     User.email u1 = User.email u2 -> o1 = o2) ->
  login cfg r d = (d, Ok (reply 400 (msg "Invalid credentials"))).
Proof.
  intros He Hq Hcase Huniq. unfold login, st_catch, st_bind. rewrite He, Hq.
  change (find_user_by_value (JStr e)) with (find_user_by_email e).
  destruct Hcase as [Ht | (o & u & Hu & Hue & Hc)].
  - by rewrite find_user_by_email_none.
  - rewrite (find_user_by_email_unique e d o u Hu Hue); [|intros k v Hk Hv; apply (Huniq k o v u Hk Hu); congruence].
    cbn -[find_user_by_email]. by rewrite Hc.
Qed.

(** C25: a signup whose email, in lower case, is already registered is
    answered 400 and changes nothing, whatever the letter case it is
    written in. *)
Theorem signup_rejects_taken_email salt r d e :
  field (body r) "email" = JStr e ->
  JsString.endsWith (JsString.toLowerCase e) User.gmail_suffix = true ->
  email_taken d (JsString.toLowerCase e) = true ->
  signup salt r d = (d, Ok (reply 400 (msg "Email already registered. Please log in!"))).
Proof.
  intros He Hend Ht. rewrite <- (JsString.toLowerCase_idem e) in Ht.
  destruct (find_user_by_email_taken _ _ Ht) as (o & u & Hf).
  unfold signup, st_catch, st_bind. rewrite He, Hend. cbn -[find_user_by_email]. by rewrite Hf.
Qed.

(** C26: a signup stores the bcrypt hash of the password, never the
    password, under the lower-cased email, as one new user. *)
Theorem signup_stores_hash salt r d e p resp :
  field (body r) "email" = JStr e -> field (body r) "password" = JStr p ->
  (signup salt r d).2 = Ok resp -> status resp = 201%Z ->
  exists o u, users (signup salt r d).1 = <[o := u]> (users d) /\ users d !! o = None /\
    User.password u = Bcrypt.hash p salt /\ User.email u = JsString.toLowerCase e.
Proof.
  intros He Hp Hres Hs.
  destruct (signup_cases salt r d) as [(e' & p' & He' & Hp' & _ & _ & Hf & Hrun) | (resp' & Hres' & Hs' & _)].
  - rewrite He in He'. rewrite Hp in Hp'. simplify_eq. rewrite Hrun.
    exists (next_id d), (signup_user salt r e' p'). auto.
  - rewrite Hres in Hres'. simplify_eq.
Qed.

(** Signup keeps the user invariant: every stored user passes the
    schema's validators, has a lower-case email, and no two users share
    an email. *)
Lemma signup_users_ok salt r d : users_ok d -> users_ok (signup salt r d).1.
Proof.
  intros Hok.
  destruct (signup_cases salt r d) as [(e & p & _ & _ & Hv & Ht & _ & ->) | (_ & _ & _ & Hu)].
  - apply users_ok_added; [done..| |].
    + apply JsString.toLowerCase_idem.
    + exact Ht.
  - unfold users_ok. rewrite Hu. exact Hok.
Qed.

(** So does a profile update: it keeps the email and validates the
    document before saving it. *)
Lemma updateProfile_users_ok c r d : users_ok d -> users_ok (updateProfile c r d).1.
Proof.
  intros Hok.
  destruct (updateProfile_cases c r d) as [(o & u & u1 & _ & Hu & Ha & Hv & ->) | [-> _]]; [|done].
  apply (users_ok_save d o u); [done..|]. apply (apply_updates_identity _ _ _ Ha).
Qed.

(** C15: [GET /user] and [GET /user/verify] never put the password hash
    in their JSON: no [password] key occurs in the response at any depth,
    the nested [user] object of [/user/verify] included. *)
Theorem user_routes_hide_password c r d resp :
  ((getUser c r d).2 = Ok resp \/ (verifyUser c r d).2 = Ok resp) ->
  json_has_key "password" (rjson resp) = false.
Proof.
  unfold getUser, verifyUser, find_user_doc, st_catch, st_bind.
  destruct (cast_oid (Jwt.id c)) as [o|]; cbn -[user_json];
    [destruct (users d !! o) as [u|]; cbn -[user_json]|];
    intros [[= <-]|[= <-]]; cbn -[user_json];
    first [apply user_json_no_password | destruct (User.profileImage _); reflexivity | reflexivity].
Qed.

(** C28: a successful [PUT /user/update] answers with the whole stored
    document, its password hash included. *)
Theorem updateProfile_echoes_hash c r d resp :
  (updateProfile c r d).2 = Ok resp -> status resp = 200%Z ->
  exists o u, users (updateProfile c r d).1 !! o = Some u /\
    rjson resp = JsonObj [("message", JsonStr "Profile updated successfully!");
                          ("user", user_json o u true)] /\
    ("password", JsonStr (User.password u)) ∈
      (match user_json o u true with JsonObj fs => fs | _ => [] end).
Proof.
  intros Hres Hs.
  destruct (updateProfile_cases c r d) as [(o & u & u1 & _ & _ & _ & _ & Hrun) | [_ (resp' & Hres' & Hs')]].
  - rewrite Hrun in Hres |- *. simpl in Hres. injection Hres as <-.
    exists o, (touch (now r) u1). simpl. rewrite lookup_insert_eq. split; [done|]. split; [done|].
    set_solver.
  - rewrite Hres in Hres'. simplify_eq.
Qed.

(** C27: a profile update changes only the caller's own user, and never
    its username, email, password hash, profile image or creation time;
    it adds and removes no user. *)
Theorem updateProfile_keeps_identity c r d o :
  profile_kept c o (users d !! o) (users (updateProfile c r d).1 !! o).
Proof.
  destruct (updateProfile_cases c r d) as [(o' & u & u1 & Ec & Hu & Ha & _ & ->) | [-> _]];
    [|apply profile_kept_refl].
  simpl. rewrite lookup_insert. case_decide as E; [|apply profile_kept_refl].
  subst o'. rewrite Hu. destruct (apply_updates_identity _ _ _ Ha) as (? & ? & ? & ? & ?).
  simpl. repeat split; try done; congruence.
Qed.

(** C29: the schema's [minlength: 5] and [maxlength: 100] on [password]
    never reject a signup: [User.errors] is checked on the stored bcrypt
    hash, 60 characters whatever the password, so no signup's user has an
    error on [password], even for a password of 1 or 500 characters. *)
Theorem password_length_check_vacuous salt r e p :
  "password"%string ∉ User.errors (signup_user salt r e p).
Proof.
  intros Hin. unfold User.errors in Hin. rewrite !elem_of_app in Hin.
  repeat match goal with H : _ \/ _ |- _ => destruct H as [H|H] end;
    apply elem_of_check in Hin as [Hp Hok]; try discriminate Hp.
  revert Hok. cbn [signup_user new_user User.password]. unfold required_str, len_between.
  rewrite Bcrypt.hash_length.
  destruct (String.eqb_spec (Bcrypt.hash p salt) ""%string) as [E|]; [|done].
  apply (f_equal String.length) in E. rewrite Bcrypt.hash_length in E. discriminate.
Qed.

End Routes.
(** ** Witnesses, with the [hs_jwt] and [toy_bcrypt] instances *)

#[local] Existing Instance Jwt.hs_jwt.
#[local] Existing Instance Bcrypt.toy_bcrypt.

Definition a_cfg : config := mkConfig (Some "s3cret"%string) false.
Definition a_salt : string := "abcdefghijklmnopqrstuv".
Definition a_req (fs : list (string * jsval)) (t : Z) : request :=
  mkReq None None ∅ (list_to_map fs) t t.
Definition a_t0 : Z := 1700000000000.
Definition a_signup : request :=
  a_req [("username", JStr "ann"); ("email", JStr "Ann@Gmail.com"); ("password", JStr "secret1")] a_t0.
Definition a_login : request :=
  a_req [("email", JStr "ann@gmail.com"); ("password", JStr "secret1")] (a_t0 + 60000).
Definition a_user : User.t := signup_user a_salt a_signup "Ann@Gmail.com" "secret1".
Definition a_db : db := added_user empty_db a_user.

Lemma signup_then_login_witness :
  signup a_salt a_signup empty_db = (a_db, Ok signup_ok) /\
  login a_cfg a_login a_db = (a_db, Ok (login_reply a_cfg "s3cret" (a_t0 + 60000) 0 a_user)).
Proof.
  apply (signup_then_login a_cfg "s3cret" a_salt a_signup a_login empty_db
           "Ann@Gmail.com" "secret1" "ann@gmail.com" "secret1"); vm_compute; reflexivity.
Defined.

Definition a_claims : Jwt.claims :=
  Jwt.claims_at (a_t0 + 60000) (oid_toString 0) (User.email a_user) (User.username a_user).
Definition a_token : string :=
  Jwt.sign "s3cret" (a_t0 + 60000) (oid_toString 0) (User.email a_user) (User.username a_user).
Definition a_next_day : request := mkReq (Some a_token) None ∅ ∅ (a_t0 + 86400000) (a_t0 + 86400000).

Lemma a_db_ids o u : users a_db !! o = Some u -> (o < oid_bound)%N.
Proof.
  simpl. rewrite lookup_insert. case_decide as E; [intros _; subst; reflexivity|].
  by rewrite lookup_empty.
Qed.

Lemma a_db_unique o1 o2 u1 u2 :
  users a_db !! o1 = Some u1 -> users a_db !! o2 = Some u2 -> User.email u1 = User.email u2 -> o1 = o2.
Proof.
  simpl. rewrite !lookup_insert, !lookup_empty.
  case_decide; case_decide; intros; simplify_eq; congruence.
Qed.

Lemma login_token_authenticates_witness :
  exists o u, users a_db !! o = Some u /\
    let c := Jwt.claims_at (a_t0 + 60000) (oid_toString o) (User.email u) (User.username u) in
    AuthMiddleware.authMiddleware a_cfg a_next_day = AuthMiddleware.Next c /\
    getUser c a_next_day a_db = (a_db, Ok (reply 200 (user_json o u false))).
Proof.
  apply (login_token_authenticates a_cfg a_login a_db
           (login_reply a_cfg "s3cret" (a_t0 + 60000) 0 a_user) a_next_day a_token (cookieOptions a_cfg)).
  - apply a_db_ids.
  - unfold Jwt.time_ok, a_login, a_req, a_t0. simpl. lia.
  - vm_compute. reflexivity.
  - simpl. set_solver.
  - left. reflexivity.
  - simpl. lia.
  - unfold Jwt.seven_days. simpl. lia.
Defined.

Lemma login_failures_identical_witness :
  login a_cfg (a_req [("email", JStr "ann@gmail.com"); ("password", JStr "wrong")] a_t0) a_db
  = (a_db, Ok (reply 400 (msg "Invalid credentials"))).
Proof.
  apply (login_failures_identical _ _ _ "ann@gmail.com" "wrong"); [reflexivity | reflexivity | |].
  - right. exists 0%N, a_user. split; [reflexivity|]. split; vm_compute; reflexivity.
  - apply a_db_unique.
Defined.

Lemma signup_rejects_taken_email_witness :
  signup a_salt (a_req [("username", JStr "bob"); ("email", JStr "ANN@gmail.com");
                        ("password", JStr "pw")] a_t0) a_db
  = (a_db, Ok (reply 400 (msg "Email already registered. Please log in!"))).
Proof. apply (signup_rejects_taken_email _ _ _ "ANN@gmail.com"); vm_compute; reflexivity. Defined.

Lemma signup_stores_hash_witness :
  exists o u, users (signup a_salt a_signup empty_db).1 = <[o := u]> (users empty_db) /\
    users empty_db !! o = None /\ User.password u = Bcrypt.hash "secret1" a_salt /\
    User.email u = JsString.toLowerCase "Ann@Gmail.com".
Proof.
  apply (signup_stores_hash a_salt a_signup empty_db "Ann@Gmail.com" "secret1" signup_ok);
    vm_compute; reflexivity.
Defined.

Lemma empty_users_ok : users_ok empty_db.
Proof. split; simpl; intros *; rewrite lookup_empty; discriminate. Qed.

Lemma user_routes_hide_password_witness :
  json_has_key "password" (rjson (reply 200 (user_json 0 a_user false))) = false.
Proof. apply (user_routes_hide_password a_claims a_login a_db). left. vm_compute. reflexivity. Defined.

Definition a_update : request := a_req [("firstName", JStr "  Ann "); ("age", JStr "30")] (a_t0 + 120000).
Definition a_user1 : User.t :=
  match apply_updates (body a_update) a_user with Ok u => u | Err _ => a_user end.

Lemma updateProfile_echoes_hash_witness :
  exists o u, users (updateProfile a_claims a_update a_db).1 !! o = Some u /\
    rjson (profile_ok 0 a_user a_update a_user1)
    = JsonObj [("message", JsonStr "Profile updated successfully!"); ("user", user_json o u true)] /\
    ("password", JsonStr (User.password u)) ∈
      (match user_json o u true with JsonObj fs => fs | _ => [] end).
Proof.
  apply (updateProfile_echoes_hash a_claims a_update a_db); vm_compute; reflexivity.
Defined.

End AuthRoutes.
