(* ===== verification/BlogRoutes.v ===== *)
(** * The blog routes (src/routes/blogRoutes.js)

    Each handler is a computation of [Store.M] that ends in a response,
    written as the source writes it: the body's fields destructured as
    JavaScript values, the validation [if]s with their early returns, the
    awaited Mongoose calls, and the [try]/[catch] that turns a thrown error
    into a 500 response carrying [err.message].  The authenticated user is
    the [Jwt.claims] the gate put in [req.user].

    - [createBlog]  POST /blogs         (lines 8-44)
    - [getBlogs]    GET /blogs          (lines 47-58)
    - [myBlogs]     GET /blogs/my-blogs (lines 62-74)
    - [deleteBlog]  DELETE /blogs/:id   (lines 77-97)
    - [updateBlog]  PUT /blogs/:id      (lines 100-140) *)

From stdpp Require Import base gmap strings list sorting.
From Stdlib Require Import String ZArith NArith Lia.
From S2P Require Import Prelude JsString JsValue Models Store Jwt Http.
Import JsValue Models Store Http.

Local Open Scope blog_scope.

Module BlogRoutes.

(** ** Responses *)

(** [populate("author", fields)]: the author's [_id] and the selected
    fields, or [null] when the user is gone. *)
Definition author_json (d : db) (o : N) (with_image : bool) : json :=
  match users d !! o with
  | None => JsonNull
  | Some u =>
      JsonObj ([("_id", JsonStr (oid_toString o)); ("username", JsonStr (User.username u));
                ("email", JsonStr (User.email u))]
               ++ if with_image then [("profileImage", match User.profileImage u with
                                                        | Some s => JsonStr s | None => JsonNull end)]
                  else [])
  end.

Definition blog_json (d : db) (o : N) (b : Blog.t) (with_image : bool) : json :=
  JsonObj [("_id", JsonStr (oid_toString o)); ("title", JsonStr (Blog.title b));
           ("description", JsonStr (Blog.description b));
           ("category", JsonStr (Blog.category_name (Blog.category b)));
           ("image", JsonStr (Blog.image b)); ("author", author_json d (Blog.author b) with_image);
           ("createdAt", JsonNum (Blog.createdAt b))].

(** [Blog.findById(o).populate(...)] as JSON ([null] when absent). *)
Definition find_populated (o : N) (with_image : bool) : M json :=
  fun d => (d, Ok (match blogs d !! o with
                   | Some b => blog_json d o b with_image
                   | None => JsonNull
                   end)).

Definition error_reply (m : string) (e : exn) : response :=
  reply 500 (JsonObj [("message", JsonStr m); ("error", JsonStr (exn_message e))]).

Definition validCategories : list string :=
  ["Business"; "Study"; "Technology"; "Food"; "Travel"; "Others"].

(** [validCategories.includes(category)] *)
Definition includes_category (v : jsval) : bool :=
  match v with JStr s => JsString.includes validCategories s | _ => false end.

(** [new Blog({...}).save()] *)
Definition save_new_blog (title description image category : jsval) (userId : string) (now : Z)
  : M N :=
  match Blog.validate (cast_string title) (cast_string description) (cast_string image)
                      (cast_string category) (cast_oid userId) now with
  | Err paths => st_throw (ValidationError "Blog" paths)
  | Ok b => insert_blog b
  end.

(** ** POST /blogs *)
Definition createBlog (user : Jwt.claims) (r : request) : M response :=
  st_catch
    (let title := field (body r) "title" in
     let description := field (body r) "description" in
     let image := field (body r) "image" in
     let category := field (body r) "category" in
     let userId := Jwt.id user in
     if negb (truthy title) || negb (truthy description) then
       st_ret (reply 400 (msg "Title and description are required"))
     else if negb (includes_category category) then
       st_ret (reply 400 (msg "Invalid category selected"))
     else
       let* o := save_new_blog title description image category userId (now r) in
       let* pb := find_populated o false in
       st_ret (reply 201 (JsonObj [("message", JsonStr "Blog posted successfully!"); ("blog", pb)])))
    (fun e => st_ret (error_reply "Error posting blog" e)).

(** ** GET /blogs and GET /blogs/my-blogs *)

(** [.sort({ createdAt: -1 })]: newest first; blogs of the same time keep
    the order the collection lists them in. *)
Definition newer (x y : N * Blog.t) : Prop := (Blog.createdAt y.2 <= Blog.createdAt x.2)%Z.

#[export] Instance newer_dec : RelDecision newer.
Proof. intros x y. unfold newer. apply _. Defined.

#[export] Instance newer_total : Total newer.
Proof. intros x y. unfold newer. lia. Qed.

#[export] Instance newer_trans : Transitive newer.
Proof. intros x y z. unfold newer. lia. Qed.

Definition sort_newest (l : list (N * Blog.t)) : list (N * Blog.t) := merge_sort newer l.

Definition blogs_json (d : db) (l : list (N * Blog.t)) : json :=
  JsonArr (map (fun '(o, b) => blog_json d o b true) (sort_newest l)).

Definition getBlogs (r : request) : M response :=
  st_catch
    (fun d => (d, Ok (reply 200 (JsonObj [("blogs", blogs_json d (map_to_list (blogs d)))]))))
    (fun e => st_ret (error_reply "Error fetching blogs" e)).

(** [Blog.find({ author: userId })]: the filter value is cast to an
    ObjectId. *)
Definition myBlogs (user : Jwt.claims) (r : request) : M response :=
  st_catch
    (match cast_oid (Jwt.id user) with
     | None => st_throw (CastError "Blog" "author" (Jwt.id user))
     | Some a =>
         fun d => (d, Ok (reply 200 (JsonObj [("blogs", blogs_json d
                     (filter (fun ob => Blog.author ob.2 = a) (map_to_list (blogs d))))])))
     end)
    (fun e => st_ret (error_reply "Error fetching user blogs" e)).

(** ** DELETE /blogs/:id *)
Definition deleteBlog (user : Jwt.claims) (r : request) : M response :=
  st_catch
    (let blogId := param r "id" in
     let userId := Jwt.id user in
     let* blog := find_blog blogId in
     match blog with
     | None => st_ret (reply 404 (msg "Blog not found"))
     | Some b =>
         if negb (String.eqb (oid_toString (Blog.author b)) userId) then
           st_ret (reply 403 (msg "You are not authorized to delete this blog"))
         else
           delete_blog blogId ;;;
           st_ret (reply 200 (msg "Blog deleted successfully"))
     end)
    (fun e => st_ret (error_reply "Error deleting blog" e)).

(** ** PUT /blogs/:id *)

(** [v || old] cast to a String path; [old] is a non-empty string, so the
    cast always has a value. *)
Definition cast_or_keep (v : jsval) (old : string) : string :=
  default old (cast_string (js_or v (JStr old))).

(** [category || blog.category]; a truthy category reached this point only
    when it is one of the enum's strings. *)
Definition category_or_keep (v : jsval) (old : Blog.Category) : Blog.Category :=
  default old (cast_string (js_or v (JStr (Blog.category_name old))) ≫= Blog.parse_category).

(** The update document of [findByIdAndUpdate]: [updatedAt] is not a path
    of the Blog schema, so strict mode drops it; validators do not run. *)
Definition updated_blog (b : Blog.t) (title description image category : jsval) : Blog.t :=
  Blog.mk (cast_or_keep title (Blog.title b)) (cast_or_keep description (Blog.description b))
          (category_or_keep category (Blog.category b)) (cast_or_keep image (Blog.image b))
          (Blog.author b) (Blog.createdAt b).

(** [Blog.findByIdAndUpdate(id, update, { new: true }).populate(...)] *)
Definition find_and_update_blog (s : string) (f : Blog.t -> Blog.t) : M json :=
  match cast_oid s with
  | None => st_throw (CastError "Blog" "_id" s)
  | Some o =>
      fun d => match blogs d !! o with
               | None => (d, Ok JsonNull)
               | Some b =>
                   let d' := set_blogs d (<[o := f b]> (blogs d)) in
                   (d', Ok (blog_json d' o (f b) true))
               end
  end.

Definition updateBlog (user : Jwt.claims) (r : request) : M response :=
  st_catch
    (let id := param r "id" in
     let title := field (body r) "title" in
     let description := field (body r) "description" in
     let image := field (body r) "image" in
     let category := field (body r) "category" in
     let userId := Jwt.id user in
     let* blog := find_blog id in
     match blog with
     | None => st_ret (reply 404 (msg "Blog not found"))
     | Some b =>
         if negb (String.eqb (oid_toString (Blog.author b)) userId) then
           st_ret (reply 403 (msg "Unauthorized: You can only edit your own blog"))
         else if truthy category && negb (includes_category category) then
           st_ret (reply 400 (msg "Invalid category selected"))
         else
           let* ub := find_and_update_blog id (fun b0 => updated_blog b0 title description image category) in
           st_ret (reply 200 (JsonObj [("message", JsonStr "Blog updated successfully"); ("blog", ub)]))
     end)
    (fun e => st_ret (error_reply "Error updating blog" e)).

(** ** Running the store calls *)

Lemma find_blog_cast s o d :
  cast_oid s = Some o -> find_blog s d = (d, Ok (blogs d !! o)).
Proof. unfold find_blog, findById. by intros ->. Qed.

Lemma find_blog_bad s d :
  cast_oid s = None -> find_blog s d = (d, Err (CastError "Blog" "_id" s)).
Proof. unfold find_blog, findById. by intros ->. Qed.

Lemma delete_blog_cast s o d :
  cast_oid s = Some o -> delete_blog s d = (set_blogs d (delete o (blogs d)), Ok tt).
Proof. unfold delete_blog. by intros ->. Qed.

Lemma find_and_update_cast s o d f :
  cast_oid s = Some o ->
  find_and_update_blog s f d =
    match blogs d !! o with
    | None => (d, Ok JsonNull)
    | Some b => (set_blogs d (<[o := f b]> (blogs d)),
                 Ok (blog_json (set_blogs d (<[o := f b]> (blogs d))) o (f b) true))
    end.
Proof. unfold find_and_update_blog. by intros ->. Qed.

(** The branches of [deleteBlog] once the id is cast. *)
Lemma deleteBlog_run user r d o :
  cast_oid (param r "id") = Some o ->
  deleteBlog user r d =
    match blogs d !! o with
    | None => (d, Ok (reply 404 (msg "Blog not found")))
    | Some b =>
        if String.eqb (oid_toString (Blog.author b)) (Jwt.id user)
        then (set_blogs d (delete o (blogs d)), Ok (reply 200 (msg "Blog deleted successfully")))
        else (d, Ok (reply 403 (msg "You are not authorized to delete this blog")))
    end.
Proof.
  intros Ec. unfold deleteBlog. st_unfold. rewrite (find_blog_cast _ o d Ec).
  destruct (blogs d !! o) as [b|]; [|done].
  destruct (String.eqb _ _); simpl; [|done]. by rewrite (delete_blog_cast _ o d Ec).
Qed.

Lemma deleteBlog_bad_id user r d :
  cast_oid (param r "id") = None ->
  deleteBlog user r d = (d, Ok (error_reply "Error deleting blog" (CastError "Blog" "_id" (param r "id")))).
Proof. intros Ec. unfold deleteBlog. st_unfold. by rewrite (find_blog_bad _ d Ec). Qed.

(** ** Properties of the blog routes *)

(** C1: a user can never delete a blog somebody else wrote: whatever the
    request, a blog whose author is not the authenticated user is still
    in the store after [DELETE /blogs/:id]. *)
Theorem deleteBlog_owner_only user r d o b :
  blogs d !! o = Some b -> oid_toString (Blog.author b) <> Jwt.id user ->
  blogs (deleteBlog user r d).1 !! o = Some b.
Proof.
  intros Hb Hne. destruct (cast_oid (param r "id")) as [o'|] eqn:Ec.
  - rewrite (deleteBlog_run user r d o' Ec).
    destruct (blogs d !! o') as [b'|] eqn:Eb'; [|exact Hb].
    destruct (String.eqb_spec (oid_toString (Blog.author b')) (Jwt.id user)); [|exact Hb].
    simpl. rewrite lookup_delete_ne; [exact Hb|]. intros ->. congruence.
  - by rewrite (deleteBlog_bad_id user r d Ec).
Qed.

(** The branches of [updateBlog] once the id is cast. *)
Lemma updateBlog_run user r d o :
  cast_oid (param r "id") = Some o ->
  let ti := field (body r) "title" in let de := field (body r) "description" in
  let im := field (body r) "image" in let ca := field (body r) "category" in
  updateBlog user r d =
    match blogs d !! o with
    | None => (d, Ok (reply 404 (msg "Blog not found")))
    | Some b =>
        if String.eqb (oid_toString (Blog.author b)) (Jwt.id user) then
          if truthy ca && negb (includes_category ca) then
            (d, Ok (reply 400 (msg "Invalid category selected")))
          else
            let d' := set_blogs d (<[o := updated_blog b ti de im ca]> (blogs d)) in
            (d', Ok (reply 200 (JsonObj [("message", JsonStr "Blog updated successfully");
                                         ("blog", blog_json d' o (updated_blog b ti de im ca) true)])))
        else (d, Ok (reply 403 (msg "Unauthorized: You can only edit your own blog")))
    end.
Proof.
  intros Ec. unfold updateBlog. st_unfold. rewrite (find_blog_cast _ o d Ec).
  destruct (blogs d !! o) as [b|] eqn:Eb; [|done].
  destruct (String.eqb _ _); simpl; [|done].
  destruct (_ && _); [done|]. by rewrite (find_and_update_cast _ o d _ Ec), Eb.
Qed.

Lemma updateBlog_bad_id user r d :
  cast_oid (param r "id") = None ->
  updateBlog user r d = (d, Ok (error_reply "Error updating blog" (CastError "Blog" "_id" (param r "id")))).
Proof. intros Ec. unfold updateBlog. st_unfold. by rewrite (find_blog_bad _ d Ec). Qed.

(** What an update may do to the blog stored under one id: keep it absent,
    or keep it present with its author, and unchanged unless [user]
    wrote it. *)
Definition blog_kept (user : Jwt.claims) (before after : option Blog.t) : Prop :=
  match before, after with
  | None, None => True
  | Some b, Some b' =>
      Blog.author b' = Blog.author b /\
      (oid_toString (Blog.author b) <> Jwt.id user -> b' = b)
  | _, _ => False
  end.

Lemma blog_kept_refl user ob : blog_kept user ob ob.
Proof. destruct ob; simpl; auto. Qed.

(** C13: [PUT /blogs/:id] never changes a blog of another author, never
    changes the author of any blog, and neither adds nor removes blogs. *)
Theorem updateBlog_owner_only user r d (o : N) :
  blog_kept user (blogs d !! o) (blogs (updateBlog user r d).1 !! o).
Proof.
  destruct (cast_oid (param r "id")) as [o'|] eqn:Ec.
  2: { rewrite (updateBlog_bad_id user r d Ec). apply blog_kept_refl. }
  rewrite (updateBlog_run user r d o' Ec). cbv zeta.
  destruct (blogs d !! o') as [b'|] eqn:Eb'; [|apply blog_kept_refl].
  destruct (String.eqb_spec (oid_toString (Blog.author b')) (Jwt.id user)) as [Hown|];
    [|apply blog_kept_refl].
  destruct (_ && _); simpl; [apply blog_kept_refl|].
  destruct (decide (o = o')) as [->|Hne].
  - rewrite lookup_insert_eq, Eb'. simpl. split; [done|]. congruence.
  - rewrite lookup_insert_ne by congruence. apply blog_kept_refl.
Qed.

(** C19: existence is checked before ownership: deleting or updating an id
    that casts but names no blog answers 404 and changes nothing, whoever
    asks. *)
Theorem missing_blog_is_404 user r d o :
  cast_oid (param r "id") = Some o -> blogs d !! o = None ->
  deleteBlog user r d = (d, Ok (reply 404 (msg "Blog not found"))) /\
  updateBlog user r d = (d, Ok (reply 404 (msg "Blog not found"))).
Proof.
  intros Ec Hb. rewrite (deleteBlog_run user r d o Ec), (updateBlog_run user r d o Ec), Hb.
  done.
Qed.

(** C20: the author of a blog deletes it: the answer is 200 and the blog
    is gone. *)
Theorem deleteBlog_by_owner user r d o b :
  cast_oid (param r "id") = Some o -> blogs d !! o = Some b ->
  oid_toString (Blog.author b) = Jwt.id user ->
  (deleteBlog user r d).2 = Ok (reply 200 (msg "Blog deleted successfully")) /\
  blogs (deleteBlog user r d).1 !! o = None.
Proof.
  intros Ec Hb Hown. rewrite (deleteBlog_run user r d o Ec), Hb, Hown, String.eqb_refl.
  split; [done|]. apply lookup_delete_eq.
Qed.

(** The branches of [createBlog] after its two validation guards. *)
Lemma createBlog_run user r d :
  let ti := field (body r) "title" in let de := field (body r) "description" in
  let im := field (body r) "image" in let ca := field (body r) "category" in
  truthy ti = true -> truthy de = true -> includes_category ca = true ->
  createBlog user r d =
    match Blog.validate (cast_string ti) (cast_string de) (cast_string im) (cast_string ca)
                        (cast_oid (Jwt.id user)) (now r) with
    | Err paths => (d, Ok (error_reply "Error posting blog" (ValidationError "Blog" paths)))
    | Ok b =>
        let d1 := mkDb (users d) (blogs d) (comments d) ((next_id d + 1) mod oid_bound) in
        match blogs d !! next_id d with
        | Some _ => (d1, Ok (error_reply "Error posting blog" (DuplicateKey "blogs" "_id")))
        | None =>
            let d2 := set_blogs d1 (<[next_id d := b]> (blogs d)) in
            (d2, Ok (reply 201 (JsonObj [("message", JsonStr "Blog posted successfully!");
                                         ("blog", blog_json d2 (next_id d) b false)])))
        end
    end.
Proof.
  cbv zeta. intros Ht Hd Hc. unfold createBlog. st_unfold.
  rewrite Ht, Hd, Hc. simpl. unfold save_new_blog.
  destruct (Blog.validate _ _ _ _ _ _) as [b|paths]; [|done].
  unfold insert_blog, new_id. st_unfold. simpl.
  destruct (blogs d !! next_id d); [done|]. simpl. by rewrite lookup_insert_eq.
Qed.

(** C22: a blog [POST /blogs] adds is built from the request as the
    handler says: its author is the authenticated user (never a value of
    the body), its title, description, image and category are the body's
    fields cast to strings, and its [createdAt] is the request time. *)
Theorem createBlog_stamps_owner user r d o b :
  blogs d !! o = None -> blogs (createBlog user r d).1 !! o = Some b ->
  cast_oid (Jwt.id user) = Some (Blog.author b) /\
  cast_string (field (body r) "title") = Some (Blog.title b) /\
  cast_string (field (body r) "description") = Some (Blog.description b) /\
  cast_string (field (body r) "image") = Some (Blog.image b) /\
  cast_string (field (body r) "category") = Some (Blog.category_name (Blog.category b)) /\
  Blog.createdAt b = now r.
Proof.
  intros Hnone Hsome.
  destruct (truthy (field (body r) "title")) eqn:Ht;
    [|unfold createBlog in Hsome; st_unfold; rewrite Ht in Hsome; simpl in Hsome; congruence].
  destruct (truthy (field (body r) "description")) eqn:Hd;
    [|unfold createBlog in Hsome; st_unfold; rewrite Ht, Hd in Hsome; simpl in Hsome; congruence].
  destruct (includes_category (field (body r) "category")) eqn:Hc;
    [|unfold createBlog in Hsome; st_unfold; rewrite Ht, Hd, Hc in Hsome; simpl in Hsome; congruence].
  rewrite (createBlog_run user r d Ht Hd Hc) in Hsome.
  destruct (Blog.validate _ _ _ _ _ _) as [b0|paths] eqn:Ev; simpl in Hsome; [|congruence].
  destruct (blogs d !! next_id d); simpl in Hsome; [congruence|].
  destruct (decide (o = next_id d)) as [->|Hne].
  - rewrite lookup_insert_eq in Hsome. injection Hsome as <-.
    destruct (blog_validate_ok _ _ _ _ _ _ _ Ev) as (_ & Hti & Hde & Him & Hau & Hca & Hnow).
    repeat split; congruence.
  - rewrite lookup_insert_ne in Hsome by congruence. congruence.
Qed.

(** C24: a category outside the six of the enum is rejected with 400
    before anything is written. *)
Theorem createBlog_rejects_category user r d :
  truthy (field (body r) "title") = true -> truthy (field (body r) "description") = true ->
  JsString.includes validCategories
    (default EmptyString (cast_string (field (body r) "category"))) = false ->
  createBlog user r d = (d, Ok (reply 400 (msg "Invalid category selected"))).
Proof.
  intros Ht Hd Hc. unfold createBlog. st_unfold. rewrite Ht, Hd. simpl.
  destruct (field (body r) "category") as [| |[]|z|c] eqn:E; simpl; try reflexivity.
  simpl in Hc. by rewrite Hc.
Qed.

(** ** The store invariant: every stored blog is well formed *)

Definition blogs_wf (d : db) : Prop := forall o b, blogs d !! o = Some b -> Blog.wf b.

Lemma cast_or_keep_nonempty v old : old <> ""%string -> cast_or_keep v old <> ""%string.
Proof.
  intros Hold. unfold cast_or_keep, js_or. destruct (truthy v) eqn:Ev.
  - destruct (cast_string_truthy v Ev) as [s [-> Hs]]. exact Hs.
  - exact Hold.
Qed.

Lemma updated_blog_wf b ti de im ca : Blog.wf b -> Blog.wf (updated_blog b ti de im ca).
Proof.
  intros (H1 & H2 & H3). unfold Blog.wf, updated_blog. simpl.
  split; [|split]; by apply cast_or_keep_nonempty.
Qed.

Lemma blogs_wf_insert d o b : blogs_wf d -> Blog.wf b -> forall m,
  blogs_wf (mkDb (users d) (<[o := b]> (blogs d)) (comments d) m).
Proof.
  intros Hd Hb m o' b'. simpl. destruct (decide (o' = o)) as [->|Hne].
  - rewrite lookup_insert_eq. by intros [= <-].
  - rewrite lookup_insert_ne by congruence. apply Hd.
Qed.

(** Every blog route keeps every stored blog well formed (non-empty
    title, description and image), although [findByIdAndUpdate] runs no
    validator: the handler's [||] fallbacks keep the old values. *)
Lemma blog_routes_preserve_wf user r d :
  blogs_wf d ->
  blogs_wf (createBlog user r d).1 /\ blogs_wf (updateBlog user r d).1 /\
  blogs_wf (deleteBlog user r d).1.
Proof.
  intros Hd. split; [|split].
  - unfold createBlog. st_unfold. case_ifs; simpl; try exact Hd.
    unfold save_new_blog. destruct (Blog.validate _ _ _ _ _ _) as [b|paths] eqn:Ev; [|exact Hd].
    unfold insert_blog, new_id. st_unfold. simpl.
    destruct (blogs d !! next_id d); simpl; [intros o b'; simpl; apply Hd|].
    apply (blogs_wf_insert d); [exact Hd|]. exact (proj1 (blog_validate_ok _ _ _ _ _ _ _ Ev)).
  - destruct (cast_oid (param r "id")) as [o|] eqn:Ec.
    2: { by rewrite (updateBlog_bad_id user r d Ec). }
    rewrite (updateBlog_run user r d o Ec). cbv zeta.
    destruct (blogs d !! o) as [b|] eqn:Eb; [|exact Hd].
    case_ifs; simpl; try exact Hd.
    apply blogs_wf_insert; [exact Hd|]. apply updated_blog_wf, (Hd o b Eb).
  - destruct (cast_oid (param r "id")) as [o|] eqn:Ec.
    2: { by rewrite (deleteBlog_bad_id user r d Ec). }
    rewrite (deleteBlog_run user r d o Ec).
    destruct (blogs d !! o) as [b|]; [|exact Hd].
    case_ifs; simpl; [|exact Hd].
    intros o' b'. simpl. destruct (decide (o' = o)) as [->|Hne].
    + by rewrite lookup_delete_eq.
    + rewrite lookup_delete_ne by congruence. apply Hd.
Qed.

(** ** What the blog routes leave alone: the users and the comments *)

Lemma blog_routes_keep_users user r :
  preserves keeps_users (createBlog user r) /\ preserves keeps_users (getBlogs r) /\
  preserves keeps_users (myBlogs user r) /\ preserves keeps_users (deleteBlog user r) /\
  preserves keeps_users (updateBlog user r).
Proof.
  unfold createBlog, getBlogs, myBlogs, deleteBlog, updateBlog, save_new_blog, find_populated,
    find_and_update_blog.
  repeat split; solve_preserves.
Qed.

Lemma blog_routes_keep_comments user r :
  preserves keeps_comments (createBlog user r) /\ preserves keeps_comments (getBlogs r) /\
  preserves keeps_comments (myBlogs user r) /\ preserves keeps_comments (deleteBlog user r) /\
  preserves keeps_comments (updateBlog user r).
Proof.
  unfold createBlog, getBlogs, myBlogs, deleteBlog, updateBlog, save_new_blog, find_populated,
    find_and_update_blog.
  repeat split; solve_preserves.
Qed.

(** C30: deleting a blog leaves its comments in the store: [DELETE
    /blogs/:id] never touches the comments collection. *)
Theorem deleteBlog_keeps_comments user r d :
  comments (deleteBlog user r d).1 = comments d.
Proof.
  destruct (cast_oid (param r "id")) as [o|] eqn:Ec.
  - rewrite (deleteBlog_run user r d o Ec).
    destruct (blogs d !! o); [|done]. by case_ifs.
  - by rewrite (deleteBlog_bad_id user r d Ec).
Qed.

(** C21: [GET /blogs] lists every stored blog exactly once, newest first:
    the listing is a permutation of the collection in which no blog comes
    after an older one, and it changes nothing. *)
Theorem getBlogs_lists_all_newest_first r d :
  exists l, getBlogs r d = (d, Ok (reply 200 (JsonObj [("blogs",
                JsonArr (map (fun '(o, b) => blog_json d o b true) l))]))) /\
    l ≡ₚ map_to_list (blogs d) /\ StronglySorted newer l.
Proof.
  exists (sort_newest (map_to_list (blogs d))). split; [reflexivity|]. split.
  - apply merge_sort_Permutation.
  - apply StronglySorted_merge_sort; exact _.
Qed.

(** ** Witnesses: Ann (id 1) wrote blog 3; Bob (id 2) is logged in *)

Definition w_user (name email : string) : User.t :=
  User.mk name email "$2b$10$hash" None None None None None None None None None None 0 0.
Definition w_blog : Blog.t := Blog.mk "Trip" "Notes" Blog.Travel "img.png" 1 100.
Definition w_db : db :=
  mkDb (<[1%N := w_user "ann" "ann@gmail.com"]> {[2%N := w_user "bob" "bob@gmail.com"]})
       {[3%N := w_blog]} ∅ 4.
Definition w_claims (o : N) : Jwt.claims := Jwt.mkClaims (oid_toString o) "x@gmail.com" "x" 0 604800.
Definition w_req (id : string) (b : list (string * jsval)) : request :=
  mkReq None None {["id" := id]} (list_to_map b) 1000 1000.

Lemma deleteBlog_owner_only_witness :
  blogs (deleteBlog (w_claims 2) (w_req (oid_toString 3) []) w_db).1 !! 3%N = Some w_blog.
Proof.
  apply deleteBlog_owner_only; [reflexivity|].
  intros H. vm_compute in H. discriminate H.
Defined.

Lemma missing_blog_is_404_witness :
  deleteBlog (w_claims 2) (w_req (oid_toString 7) []) w_db = (w_db, Ok (reply 404 (msg "Blog not found"))) /\
  updateBlog (w_claims 2) (w_req (oid_toString 7) []) w_db = (w_db, Ok (reply 404 (msg "Blog not found"))).
Proof. apply (missing_blog_is_404 _ _ _ 7%N); vm_compute; reflexivity. Defined.

Lemma deleteBlog_by_owner_witness :
  (deleteBlog (w_claims 1) (w_req (oid_toString 3) []) w_db).2
    = Ok (reply 200 (msg "Blog deleted successfully")) /\
  blogs (deleteBlog (w_claims 1) (w_req (oid_toString 3) []) w_db).1 !! 3%N = None.
Proof. apply (deleteBlog_by_owner _ _ _ 3%N w_blog); vm_compute; reflexivity. Defined.

Definition w_post : list (string * jsval) :=
  [("title", JStr "Food tour"); ("description", JStr "Lahore"); ("image", JStr "a.png");
   ("category", JStr "Food"); ("author", JStr (oid_toString 1))].

Lemma createBlog_stamps_owner_witness :
  cast_oid (Jwt.id (w_claims 2)) = Some 2%N /\
  cast_string (field (body (w_req "" w_post)) "title") = Some "Food tour" /\
  cast_string (field (body (w_req "" w_post)) "description") = Some "Lahore" /\
  cast_string (field (body (w_req "" w_post)) "image") = Some "a.png" /\
  cast_string (field (body (w_req "" w_post)) "category") = Some "Food" /\
  1000%Z = now (w_req "" w_post).
Proof.
  apply (createBlog_stamps_owner (w_claims 2) (w_req "" w_post) w_db 4%N
           (Blog.mk "Food tour" "Lahore" Blog.Food "a.png" 2 1000)); vm_compute; reflexivity.
Defined.

Lemma createBlog_rejects_category_witness :
  createBlog (w_claims 2) (w_req "" [("title", JStr "t"); ("description", JStr "d");
                                    ("category", JStr "Sports")]) w_db
  = (w_db, Ok (reply 400 (msg "Invalid category selected"))).
Proof. apply createBlog_rejects_category; vm_compute; reflexivity. Defined.

Lemma w_db_wf : blogs_wf w_db.
Proof.
  intros o b Hb. simpl in Hb. apply lookup_singleton_Some in Hb as [_ <-].
  repeat split; discriminate.
Qed.

(** A crafted [author] field in the body is ignored: Bob's post is his. *)
Example createBlog_ignores_body_author :
  (blogs (createBlog (w_claims 2) (w_req "" w_post) w_db).1 !! 4%N) ≫= (fun b => Some (Blog.author b))
  = Some 2%N.
Proof. vm_compute. reflexivity. Qed.



(** C31: an id that is not 24 hex digits makes [findById] throw a
    CastError: DELETE and PUT /blogs/:id answer 500 with the cast error's
    message, not 404, and leave the store unchanged. *)
Theorem deleteBlog_malformed_id user r d :
  cast_oid (param r "id") = None ->
  deleteBlog user r d
    = (d, Ok (error_reply "Error deleting blog" (CastError "Blog" "_id" (param r "id")))) /\
  updateBlog user r d
    = (d, Ok (error_reply "Error updating blog" (CastError "Blog" "_id" (param r "id")))).
Proof. intros Ec. split; [apply deleteBlog_bad_id | apply updateBlog_bad_id]; exact Ec. Qed.

Lemma deleteBlog_malformed_id_witness :
  deleteBlog (w_claims 2) (w_req "42" []) w_db
    = (w_db, Ok (error_reply "Error deleting blog" (CastError "Blog" "_id" "42"))) /\
  updateBlog (w_claims 2) (w_req "42" []) w_db
    = (w_db, Ok (error_reply "Error updating blog" (CastError "Blog" "_id" "42"))).
Proof. apply (deleteBlog_malformed_id (w_claims 2) (w_req "42" []) w_db). reflexivity. Defined.

(** C32: a blog posted with truthy title and description and a listed
    category but no usable image passes the handler's own checks and
    fails the schema's [required] on save: the answer is 500 with the
    ValidationError of [image], not 400, and nothing is stored. *)
Theorem createBlog_missing_image user r d :
  truthy (field (body r) "title") = true -> truthy (field (body r) "description") = true ->
  includes_category (field (body r) "category") = true ->
  required_str (cast_string (field (body r) "image")) = false ->
  cast_oid (Jwt.id user) <> None ->
  createBlog user r d = (d, Ok (error_reply "Error posting blog" (ValidationError "Blog" ["image"]))).
Proof.
  intros Ht Hd Hc Hi Hu. rewrite (createBlog_run user r d Ht Hd Hc).
  destruct (cast_string_truthy _ Ht) as (ti & Eti & Hti).
  destruct (cast_string_truthy _ Hd) as (de & Ede & Hde).
  destruct (field (body r) "category") as [| |[]|z|ca]; try discriminate.
  assert (is_Some (Blog.parse_category ca)) as [c Ec] by (apply parse_category_enum; exact Hc).
  destruct (cast_oid (Jwt.id user)) as [au|]; [|done].
  rewrite Eti, Ede. unfold Blog.validate. simpl. rewrite Ec.
  apply String.eqb_neq in Hti, Hde.
  destruct (cast_string (field (body r) "image")) as [im|]; simpl in Hi |- *; rewrite ?Hti, ?Hde, ?Hi;
    reflexivity.
Qed.

Lemma createBlog_missing_image_witness :
  createBlog (w_claims 2) (w_req "" [("title", JStr "t"); ("description", JStr "d");
                                    ("category", JStr "Food")]) w_db
  = (w_db, Ok (error_reply "Error posting blog" (ValidationError "Blog" ["image"]))).
Proof. apply createBlog_missing_image; vm_compute; first [reflexivity | discriminate]. Defined.

End BlogRoutes.
