(* ===== verification/CommentRoutes.v ===== *)
(** * The comment routes (src/routes/commentRoutes.js)

    Each handler is a computation of [Store.M] ending in a response, with
    the source's guards and early returns; the [catch] of every handler
    but the listing answers 400 with [err.message], whatever was thrown.

    - [getComments]    GET /comments/blog/:blogId  (lines 7-17)
    - [addComment]     POST /comments              (lines 20-52)
    - [updateComment]  PUT /comments/:id           (lines 55-91)
    - [deleteComment]  DELETE /comments/:id        (lines 94-119)

    [req.body.content.trim()] is a call on the body's value: on a value
    that is not a string it throws a [TypeError]. *)

From stdpp Require Import base gmap strings list sorting.
From Stdlib Require Import String ZArith NArith Lia.
From S2P Require Import Prelude JsString JsValue Models Store Jwt Http BlogRoutes.
Import JsValue Models Store Http.

Local Open Scope blog_scope.

Module CommentRoutes.

(** ** Responses *)

(** A comment with its [user] populated ([username email profileImage]). *)
Definition comment_json (d : db) (o : N) (c : Comment.t) : json :=
  JsonObj [("_id", JsonStr (oid_toString o)); ("content", JsonStr (Comment.content c));
           ("blog", JsonStr (oid_toString (Comment.blog c)));
           ("user", BlogRoutes.author_json d (Comment.user c) true);
           ("createdAt", JsonNum (Comment.createdAt c)); ("updatedAt", JsonNum (Comment.updatedAt c))].

(** [Comment.findById(o).populate("user", ...)] as JSON ([null] when absent). *)
Definition find_comment_populated (o : N) : M json :=
  fun d => (d, Ok (match comments d !! o with
                   | Some c => comment_json d o c
                   | None => JsonNull
                   end)).

(** The [catch] of the writing routes. *)
Definition comment_error (m : string) (e : exn) : response :=
  reply 400 (JsonObj [("message", JsonStr m); ("error", JsonStr (exn_message e))]).

(** [req.body.content.trim()] *)
Definition content_trim (v : jsval) : M string :=
  match v with
  | JStr s => st_ret (JsString.trim s)
  | _ => st_throw (TypeError "req.body.content.trim is not a function")
  end.

(** [!req.body.content || !req.body.content.trim()], evaluated left to
    right: [true] when the route must answer 400. *)
Definition content_missing (v : jsval) : M bool :=
  if negb (truthy v) then st_ret true
  else let* t := content_trim v in st_ret (String.eqb t "").

(** [Comment.findById(s)] with the id it was found under. *)
Definition find_comment_doc (s : string) : M (option (N * Comment.t)) :=
  match cast_oid s with
  | None => st_throw (CastError "Comment" "_id" s)
  | Some o => fun d => (d, Ok ((fun c => (o, c)) <$> comments d !! o))
  end.

(** ** GET /comments/blog/:blogId *)

Definition comment_newer (x y : N * Comment.t) : Prop :=
  (Comment.createdAt y.2 <= Comment.createdAt x.2)%Z.

#[export] Instance comment_newer_dec : RelDecision comment_newer.
Proof. intros x y. unfold comment_newer. apply _. Defined.

(** [Comment.find({ blog: blogId }).populate(...).sort({ createdAt: -1 })];
    the filter value is cast to an ObjectId. *)
Definition getComments (r : request) : M response :=
  st_catch
    (let blogId := param r "blogId" in
     match cast_oid blogId with
     | None => st_throw (CastError "Comment" "blog" blogId)
     | Some b =>
         fun d => (d, Ok (reply 200 (JsonArr
           (map (fun '(o, c) => comment_json d o c)
                (merge_sort comment_newer
                   (filter (fun oc => Comment.blog oc.2 = b) (map_to_list (comments d))))))))
     end)
    (fun _ => st_ret (reply 500 (msg "Error fetching comments"))).

(** ** POST /comments *)

(** [new Comment({ content, blog, user }).save()]: [blog] and [user] are
    cast to ObjectIds, [content] goes through its [trim] setter, and the
    validators run before the insert. *)
Definition save_new_comment (content : string) (blogId : jsval) (userId : string) (now : Z) : M N :=
  match Comment.validate (Some content) (cast_string blogId ≫= cast_oid) (cast_oid userId) now with
  | Err paths => st_throw (ValidationError "Comment" paths)
  | Ok c => insert_comment c
  end.

Definition addComment (user : Jwt.claims) (r : request) : M response :=
  st_catch
    (let content := field (body r) "content" in
     let blogId := field (body r) "blogId" in
     let* missing := content_missing content in
     if missing then st_ret (reply 400 (msg "Comment content is required"))
     else if negb (truthy blogId) then st_ret (reply 400 (msg "Blog ID is required"))
     else
       let* t := content_trim content in
       let* o := save_new_comment t blogId (Jwt.id user) (now r) in
       let* pc := find_comment_populated o in
       st_ret (reply 201 (JsonObj [("message", JsonStr "Comment added successfully"); ("comment", pc)])))
    (fun e => st_ret (comment_error "Error creating comment" e)).

(** ** PUT /comments/:id *)

(** [comment.content = t; comment.updatedAt = Date.now(); comment.save()]:
    the setter trims, the validators check [content], the pre-save hook
    stamps [updatedAt]. *)
Definition save_edited_comment (o : N) (c : Comment.t) (t : string) (now : Z) : M unit :=
  let content := JsString.trim t in
  if String.eqb content "" then st_throw (ValidationError "Comment" ["content"])
  else save_comment o (Comment.mk content (Comment.blog c) (Comment.user c) (Comment.createdAt c) now).

Definition updateComment (user : Jwt.claims) (r : request) : M response :=
  st_catch
    (let content := field (body r) "content" in
     let* missing := content_missing content in
     if missing then st_ret (reply 400 (msg "Comment content is required"))
     else
       let* comment := find_comment_doc (param r "id") in
       match comment with
       | None => st_ret (reply 404 (msg "Comment not found"))
       | Some (o, c) =>
           if negb (String.eqb (oid_toString (Comment.user c)) (Jwt.id user)) then
             st_ret (reply 403 (msg "Not authorized to edit this comment"))
           else
             let* t := content_trim content in
             save_edited_comment o c t (now r) ;;;
             let* uc := find_comment_populated o in
             st_ret (reply 200 (JsonObj [("message", JsonStr "Comment updated successfully");
                                         ("comment", uc)]))
       end)
    (fun e => st_ret (comment_error "Error updating comment" e)).

(** ** DELETE /comments/:id *)
Definition deleteComment (user : Jwt.claims) (r : request) : M response :=
  st_catch
    (let* comment := find_comment_doc (param r "id") in
     match comment with
     | None => st_ret (reply 404 (msg "Comment not found"))
     | Some (o, c) =>
         if negb (String.eqb (oid_toString (Comment.user c)) (Jwt.id user)) then
           st_ret (reply 403 (msg "Not authorized to delete this comment"))
         else
           delete_comment (param r "id") ;;;
           st_ret (reply 200 (JsonObj [("message", JsonStr "Comment deleted successfully");
                                       ("commentId", JsonStr (param r "id"))]))
     end)
    (fun e => st_ret (comment_error "Error deleting comment" e)).

(** ** Running the handlers *)

Lemma content_missing_cases v d :
  content_missing v d = (d, Ok true) \/
  (exists s, v = JStr s /\ JsString.trim s <> ""%string /\ content_missing v d = (d, Ok false)) \/
  (exists e, content_missing v d = (d, Err e)).
Proof.
  unfold content_missing, content_trim, st_bind, st_ret, st_throw.
  destruct (truthy v) eqn:Hv; simpl; [|auto].
  destruct v as [| | | |s]; simpl; eauto.
  destruct (String.eqb_spec (JsString.trim s) ""); simpl; [auto|].
  right. left. eauto.
Qed.

Lemma find_comment_doc_cast s o d :
  cast_oid s = Some o -> find_comment_doc s d = (d, Ok ((fun c => (o, c)) <$> comments d !! o)).
Proof. unfold find_comment_doc. by intros ->. Qed.

Lemma delete_comment_cast s o d :
  cast_oid s = Some o -> delete_comment s d = (set_comments d (delete o (comments d)), Ok tt).
Proof. unfold delete_comment. by intros ->. Qed.

(** A comment as the edit of [updateComment] leaves it. *)
Definition edited (c : Comment.t) (s : string) (now : Z) : Comment.t :=
  Comment.mk (JsString.trim s) (Comment.blog c) (Comment.user c) (Comment.createdAt c) now.

(** Every run of [updateComment]: the owner's edit of the comment, or no
    change to the store. *)
Lemma updateComment_cases user r d :
  (updateComment user r d).1 = d \/
  exists o c s, cast_oid (param r "id") = Some o /\ comments d !! o = Some c /\
    oid_toString (Comment.user c) = Jwt.id user /\ field (body r) "content" = JStr s /\
    JsString.trim s <> ""%string /\
    (updateComment user r d).1 = set_comments d (<[o := edited c s (now r)]> (comments d)).
Proof.
  unfold updateComment, st_catch, st_bind.
  destruct (content_missing_cases (field (body r) "content") d) as [H|[(s & Hs & Ht & H)|(e & H)]];
    rewrite H; st_red; [by left| |by left].
  destruct (cast_oid (param r "id")) as [o|] eqn:Ec.
  2: { left. unfold find_comment_doc. rewrite Ec. reflexivity. }
  rewrite (find_comment_doc_cast _ o d Ec).
  destruct (comments d !! o) as [c|] eqn:Eo; st_red; [|by left].
  destruct (String.eqb_spec (oid_toString (Comment.user c)) (Jwt.id user)) as [Hown|]; st_red;
    [|by left].
  rewrite Hs. unfold content_trim, save_edited_comment. st_red. rewrite JsString.trim_idem.
  destruct (String.eqb_spec (JsString.trim s) ""); [done|].
  unfold save_comment, find_comment_populated. st_red.
  right. exists o, c, s. repeat split; auto.
Qed.

Lemma deleteComment_cases user r d :
  (deleteComment user r d).1 = d \/
  exists o c, cast_oid (param r "id") = Some o /\ comments d !! o = Some c /\
    oid_toString (Comment.user c) = Jwt.id user /\
    (deleteComment user r d).1 = set_comments d (delete o (comments d)).
Proof.
  unfold deleteComment, st_catch, st_bind.
  destruct (cast_oid (param r "id")) as [o|] eqn:Ec.
  2: { left. unfold find_comment_doc. rewrite Ec. reflexivity. }
  rewrite (find_comment_doc_cast _ o d Ec).
  destruct (comments d !! o) as [c|] eqn:Eo; st_red; [|by left].
  destruct (String.eqb_spec (oid_toString (Comment.user c)) (Jwt.id user)) as [Hown|]; st_red;
    [|by left].
  rewrite (delete_comment_cast _ o d Ec). st_red. right. exists o, c. auto.
Qed.

(** Every run of [addComment]: the insert of a validated comment under a
    fresh id, or an answer that is not 201 and no change to the comments. *)
Lemma addComment_cases user r d :
  (exists s c, field (body r) "content" = JStr s /\
     Comment.validate (Some (JsString.trim s)) (cast_string (field (body r) "blogId") ≫= cast_oid)
                      (cast_oid (Jwt.id user)) (now r) = Ok c /\
     comments d !! next_id d = None /\
     comments (addComment user r d).1 = <[next_id d := c]> (comments d) /\
     exists resp, (addComment user r d).2 = Ok resp /\ status resp = 201%Z)
  \/ (exists resp, (addComment user r d).2 = Ok resp /\ status resp <> 201%Z /\
        comments (addComment user r d).1 = comments d).
Proof.
  unfold addComment, st_catch, st_bind.
  destruct (content_missing_cases (field (body r) "content") d) as [H|[(s & Hs & Ht & H)|(e & H)]];
    rewrite H; db_red; [right; eexists; split; [reflexivity|done]| |right; eexists; split; [reflexivity|done]].
  destruct (truthy (field (body r) "blogId")); db_red; [|right; eexists; split; [reflexivity|done]].
  rewrite Hs. unfold content_trim, save_new_comment. db_red.
  destruct (Comment.validate _ _ _ _) as [c|paths] eqn:Ev; db_red;
    [|right; eexists; split; [reflexivity|done]].
  unfold insert_comment, new_id. db_red.
  destruct (comments d !! next_id d) eqn:Ef; db_red; [right; eexists; split; [reflexivity|done]|].
  unfold find_comment_populated. db_red.
  left. exists s, c. do 4 (split; [done|]). eexists. split; [reflexivity|done].
Qed.

(** ** What the comment routes leave alone: the users and the blogs *)

Lemma comment_routes_keep R `{!Frame R} user r :
  R = keeps_users \/ R = keeps_blogs ->
  preserves R (getComments r) /\ preserves R (addComment user r) /\
  preserves R (updateComment user r) /\ preserves R (deleteComment user r).
Proof.
  intros HR.
  unfold getComments, addComment, updateComment, deleteComment, content_missing, content_trim,
    find_comment_doc, save_new_comment, save_edited_comment, find_comment_populated.
  repeat split; solve_preserves; destruct HR as [->| ->]; solve_preserves.
Qed.

(** ** The store invariant: every stored comment is well formed *)

Definition comments_wf (d : db) : Prop := forall o c, comments d !! o = Some c -> Comment.wf c.

Lemma comments_wf_insert (m : gmap N Comment.t) o c : (forall o' c', m !! o' = Some c' -> Comment.wf c') -> Comment.wf c ->
  forall o' c', <[o := c]> m !! o' = Some c' -> Comment.wf c'.
Proof.
  intros Hm Hc o' c'. rewrite lookup_insert. case_decide; [intros [= <-]; exact Hc | apply Hm].
Qed.

Lemma edited_wf c s now : JsString.trim s <> ""%string -> Comment.wf (edited c s now).
Proof. intros Hs. split; [exact Hs | apply JsString.trim_idem]. Qed.

(** ** Properties of the comment routes *)

(** C14: a user can never edit or delete a comment somebody else wrote:
    whatever the request, such a comment is still stored, unchanged,
    after [PUT] or [DELETE /comments/:id]. *)
Theorem comment_owner_only user r d o c :
  comments d !! o = Some c -> oid_toString (Comment.user c) <> Jwt.id user ->
  comments (updateComment user r d).1 !! o = Some c /\
  comments (deleteComment user r d).1 !! o = Some c.
Proof.
  intros Hc Hne. split.
  - destruct (updateComment_cases user r d) as [-> | (o' & c' & s & _ & Hc' & Hown & _ & _ & ->)];
      [exact Hc|].
    simpl. rewrite lookup_insert_ne; [exact Hc|]. intros ->. congruence.
  - destruct (deleteComment_cases user r d) as [-> | (o' & c' & _ & Hc' & Hown & ->)]; [exact Hc|].
    simpl. rewrite lookup_delete_ne; [exact Hc|]. intros ->. congruence.
Qed.

(** Adding, editing and deleting comments keep every stored comment
    well formed: its content is non-empty and trimmed. *)
Lemma comment_routes_preserve_wf user r d :
  comments_wf d ->
  comments_wf (addComment user r d).1 /\ comments_wf (updateComment user r d).1 /\
  comments_wf (deleteComment user r d).1.
Proof.
  intros Hd. split; [|split].
  - destruct (addComment_cases user r d) as [(s & c & _ & Ev & _ & Hm & _) | (_ & _ & _ & Hm)];
      intros o' c'; rewrite Hm; [|apply Hd].
    apply comments_wf_insert; [exact Hd|]. exact (proj1 (comment_validate_ok _ _ _ _ _ Ev)).
  - destruct (updateComment_cases user r d) as [-> | (o & c & s & _ & _ & _ & _ & Ht & ->)]; [exact Hd|].
    intros o' c'. simpl. apply comments_wf_insert; [exact Hd|]. by apply edited_wf.
  - destruct (deleteComment_cases user r d) as [-> | (o & c & _ & _ & _ & ->)]; [exact Hd|].
    intros o' c'. simpl. rewrite lookup_delete. case_decide; [discriminate | apply Hd].
Qed.

(** C23: a comment that [POST /comments] stores belongs to the
    authenticated user, whatever the body says, and holds the body's
    content trimmed. *)
Theorem addComment_stamps_owner user r d resp :
  (addComment user r d).2 = Ok resp -> status resp = 201%Z ->
  exists o c s, comments (addComment user r d).1 = <[o := c]> (comments d) /\
    comments d !! o = None /\ field (body r) "content" = JStr s /\
    Comment.content c = JsString.trim s /\ Some (Comment.user c) = cast_oid (Jwt.id user).
Proof.
  intros Hres Hs.
  destruct (addComment_cases user r d) as [(s & c & Hs' & Ev & Hf & Hm & _) | (resp' & Hres' & Hs' & _)].
  - destruct (comment_validate_ok _ _ _ _ _ Ev) as (_ & Hco & _ & Hu).
    exists (next_id d), c, s. repeat split; auto.
    simpl in Hco. injection Hco as ->. by rewrite JsString.trim_idem.
  - rewrite Hres in Hres'. simplify_eq.
Qed.

(** ** POST /comments never reads the blogs

    [blind_to_blogs m]: running [m] on a store whose blogs are replaced
    gives the same result and the same store, with the same blogs
    replaced: the computation neither reads nor writes the blogs. *)

Definition blind_to_blogs {A} (m : M A) : Prop :=
  forall d bs, m (set_blogs d bs) = (set_blogs (m d).1 bs, (m d).2).

Lemma blind_ret {A} (a : A) : blind_to_blogs (st_ret a).
Proof. intros d bs. reflexivity. Qed.

Lemma blind_throw {A} e : blind_to_blogs (st_throw (A:=A) e).
Proof. intros d bs. reflexivity. Qed.

Lemma blind_bind {A B} (m : M A) (k : A -> M B) :
  blind_to_blogs m -> (forall a, blind_to_blogs (k a)) -> blind_to_blogs (st_bind m k).
Proof.
  intros Hm Hk d bs. unfold st_bind. rewrite Hm.
  destruct (m d) as [d' [a|e]]; [apply Hk | reflexivity].
Qed.

Lemma blind_catch {A} (m : M A) h :
  blind_to_blogs m -> (forall e, blind_to_blogs (h e)) -> blind_to_blogs (st_catch m h).
Proof.
  intros Hm Hh d bs. unfold st_catch. rewrite Hm.
  destruct (m d) as [d' [a|e]]; [reflexivity | apply Hh].
Qed.

Lemma blind_insert_comment c : blind_to_blogs (insert_comment c).
Proof.
  apply blind_bind; [intros d bs; reflexivity|].
  intros o d bs. cbn. destruct (comments d !! o); reflexivity.
Qed.

Lemma blind_find_comment_populated o : blind_to_blogs (find_comment_populated o).
Proof. intros d bs. reflexivity. Qed.

Ltac solve_blind :=
  repeat match goal with
  | |- forall _, blind_to_blogs _ => intro
  | |- blind_to_blogs (st_catch _ _) => apply blind_catch
  | |- blind_to_blogs (st_bind _ _) => apply blind_bind
  | |- blind_to_blogs (st_ret _) => apply blind_ret
  | |- blind_to_blogs (st_throw _) => apply blind_throw
  | |- blind_to_blogs (insert_comment _) => apply blind_insert_comment
  | |- blind_to_blogs (find_comment_populated _) => apply blind_find_comment_populated
  | |- blind_to_blogs (let _ := _ in _) => progress cbv zeta
  | |- blind_to_blogs (if ?b then _ else _) => destruct b
  | |- blind_to_blogs (match ?x with _ => _ end) => progress destruct x
  end.

(** C34: [POST /comments] never reads the blogs collection: whatever blogs
    are stored, in particular when [blogId] names no blog, it stores the
    same comment under the same id and gives the same answer; the route
    checks only that [blogId] is truthy and casts to an ObjectId. *)
Theorem addComment_unknown_blog user r d bs :
  addComment user r (set_blogs d bs) = (set_blogs (addComment user r d).1 bs, (addComment user r d).2).
Proof.
  revert d bs. change (blind_to_blogs (addComment user r)).
  unfold addComment, content_missing, content_trim, save_new_comment. solve_blind.
Qed.

(** ** Witnesses: Ann (id 1) wrote comment 5 on blog 3; Bob (id 2) is
    logged in *)

Definition c_comment : Comment.t := Comment.mk "Nice trip" 3 1 100 100.
Definition c_db : db := set_comments BlogRoutes.w_db {[5%N := c_comment]}.
Definition c_req (id : string) (b : list (string * jsval)) : request :=
  mkReq None None {["id" := id]} (list_to_map b) 1000 1000.

Lemma comment_owner_only_witness :
  comments (updateComment (BlogRoutes.w_claims 2) (c_req (oid_toString 5) [("content", JStr "spam")]) c_db).1
    !! 5%N = Some c_comment /\
  comments (deleteComment (BlogRoutes.w_claims 2) (c_req (oid_toString 5) [("content", JStr "spam")]) c_db).1
    !! 5%N = Some c_comment.
Proof. apply comment_owner_only; [reflexivity | vm_compute; discriminate]. Defined.

Lemma c_db_wf : comments_wf c_db.
Proof.
  intros o c. simpl. rewrite lookup_singleton_Some. intros [_ <-].
  split; [discriminate | vm_compute; reflexivity].
Qed.

Definition c_post : request :=
  c_req "" [("content", JStr "  Lovely  "); ("blogId", JStr (oid_toString 3))].

Definition c_post_resp : response :=
  match (addComment (BlogRoutes.w_claims 2) c_post c_db).2 with Ok resp => resp | Err _ => reply 0 JsonNull end.

Lemma addComment_stamps_owner_witness :
  exists o c s, comments (addComment (BlogRoutes.w_claims 2) c_post c_db).1 = <[o := c]> (comments c_db) /\
    comments c_db !! o = None /\ field (body c_post) "content" = JStr s /\
    Comment.content c = JsString.trim s /\ Some (Comment.user c) = cast_oid (Jwt.id (BlogRoutes.w_claims 2)).
Proof.
  apply (addComment_stamps_owner _ _ _ c_post_resp); vm_compute; reflexivity.
Defined.

(** A malformed comment id is answered 400 with the cast error's message,
    like a client error, not 404. *)
Example updateComment_malformed_id :
  updateComment (BlogRoutes.w_claims 1) (c_req "xyz" [("content", JStr "Edit")]) c_db
  = (c_db, Ok (comment_error "Error updating comment" (CastError "Comment" "_id" "xyz"))).
Proof. vm_compute. reflexivity. Qed.

End CommentRoutes.
