(* ===== verification/Server.v ===== *)
(** * The server: the route table, the gate per route, the fallbacks
    (src/server.js)

    [serve] is one HTTP request through the Express application of
    src/server.js: [express.json()] parses the body (a malformed body goes
    to the error-handling middleware), the routers are tried in the order
    they are mounted ([/api] auth routes, [/api] blog routes,
    [/api/comments] comment routes) and, within a router, in the order of
    their definitions; a protected route runs [authMiddleware] first; a
    request no route matches gets the 404 handler.  The salt of
    [bcrypt.genSalt] is an argument of the request.

    Express matches literal path segments without regard to case, a
    trailing slash is optional, and a parameter matches one non-empty
    segment.  Percent-decoding of parameters, [HEAD] requests and the
    [OPTIONS] answers of the CORS middleware are not modelled. *)

From stdpp Require Import base gmap strings list relations.
From Stdlib Require Import String Ascii ZArith NArith Lia.
From S2P Require Import Prelude JsString JsValue Models Store Jwt Bcrypt Http AuthMiddleware BlogRoutes AuthRoutes CommentRoutes.
Import JsValue Models Store Http.

Local Open Scope blog_scope.

Module Server.

Inductive method : Type := GET | POST | PUT | DELETE | OTHER (m : string).

#[export] Instance method_eq_dec : EqDecision method.
Proof. solve_decision. Defined.

(** ** Paths *)

Inductive seg : Type :=
| Lit (s : string)
| Param (name : string).

(** The segments of a URL path: the empty segment before the leading
    slash and the one after a trailing slash are dropped (Express routes
    are not strict about a trailing slash); an empty segment inside the
    path stays, and matches no literal or parameter. *)
Definition path_segments (p : string) : list string :=
  let segs := match JsString.split_on "/"%char p with EmptyString :: rest => rest | l => l end in
  match rev segs with EmptyString :: rest => rev rest | _ => segs end.

Fixpoint match_path (pat : list seg) (p : list string) : option (gmap string string) :=
  match pat, p with
  | [], [] => Some ∅
  | Lit l :: pat', s :: p' =>
      if String.eqb (JsString.toLowerCase s) l then match_path pat' p' else None
  | Param n :: pat', s :: p' =>
      if String.eqb s "" then None else insert n s <$> match_path pat' p'
  | _, _ => None
  end.

(** ** The error-handling middleware (lines 45-62) *)

Record http_error : Type := mkHttpError {
  err_name : string;
  err_status : option Z;
  err_message : string;
  err_errors : list string
}.

Definition error_handler (e : http_error) : response :=
  if String.eqb (err_name e) "ValidationError" then
    reply 400 (JsonObj [("message", JsonStr "Validation Error");
                        ("errors", JsonArr (map JsonStr (err_errors e)))])
  else if String.eqb (err_name e) "UnauthorizedError" then reply 401 (msg "Unauthorized")
  else reply (match err_status e with Some s => if Z.eqb s 0 then 500%Z else s | None => 500%Z end)
             (msg (if String.eqb (err_message e) "" then "Internal Server Error" else err_message e)).

(** ** Requests *)

Record http_request : Type := mkHttpRequest {
  hmethod : method;
  hpath : string;
  hcookie_token : option string;
  hauthorization : option string;
  (** what [express.json()] made of the body: the object, or its error *)
  hbody : result JsValue.body http_error;
  hnow : Z;
  hnow2 : Z
}.

Section App.
Context `{J : Jwt.JwtLib} `{B : Bcrypt.BcryptLib}.

Inductive handler : Type :=
| Public (h : request -> M response)
| Protected (h : Jwt.claims -> request -> M response).

Record route : Type := mkRoute {
  r_method : method;
  r_path : list seg;
  r_handler : handler
}.

(** The routes, in the order [server.js] mounts the routers and each
    router defines them. *)
Definition routes (cfg : config) (salt : string) : list route :=
  [ (* app.use("/api", authRoutes) *)
    mkRoute POST [Lit "api"; Lit "signup"] (Public (AuthRoutes.signup salt));
    mkRoute POST [Lit "api"; Lit "login"] (Public (AuthRoutes.login cfg));
    mkRoute GET [Lit "api"; Lit "user"] (Protected AuthRoutes.getUser);
    mkRoute POST [Lit "api"; Lit "logout"] (Public AuthRoutes.logout);
    mkRoute PUT [Lit "api"; Lit "user"; Lit "update"] (Protected AuthRoutes.updateProfile);
    mkRoute GET [Lit "api"; Lit "user"; Lit "verify"] (Protected AuthRoutes.verifyUser);
    (* app.use("/api", blogRoutes) *)
    mkRoute POST [Lit "api"; Lit "blogs"] (Protected BlogRoutes.createBlog);
    mkRoute GET [Lit "api"; Lit "blogs"] (Public BlogRoutes.getBlogs);
    mkRoute GET [Lit "api"; Lit "blogs"; Lit "my-blogs"] (Protected BlogRoutes.myBlogs);
    mkRoute DELETE [Lit "api"; Lit "blogs"; Param "id"] (Protected BlogRoutes.deleteBlog);
    mkRoute PUT [Lit "api"; Lit "blogs"; Param "id"] (Protected BlogRoutes.updateBlog);
    (* app.use('/api/comments', commentRoutes) *)
    mkRoute GET [Lit "api"; Lit "comments"; Lit "blog"; Param "blogId"] (Public CommentRoutes.getComments);
    mkRoute POST [Lit "api"; Lit "comments"] (Protected CommentRoutes.addComment);
    mkRoute PUT [Lit "api"; Lit "comments"; Param "id"] (Protected CommentRoutes.updateComment);
    mkRoute DELETE [Lit "api"; Lit "comments"; Param "id"] (Protected CommentRoutes.deleteComment) ].

(** The first route of the method whose path matches, with the values of
    its parameters. *)
Fixpoint find_route (rs : list route) (m : method) (p : list string)
  : option (handler * gmap string string) :=
  match rs with
  | [] => None
  | rt :: rs' =>
      if decide (r_method rt = m) then
        match match_path (r_path rt) p with
        | Some ps => Some (r_handler rt, ps)
        | None => find_route rs' m p
        end
      else find_route rs' m p
  end.

(** [router.<method>(path, authMiddleware, handler)] *)
Definition run_handler (cfg : config) (h : handler) (r : request) : M response :=
  match h with
  | Public f => f r
  | Protected f =>
      match AuthMiddleware.authMiddleware cfg r with
      | AuthMiddleware.Reject resp => st_ret resp
      | AuthMiddleware.Next c => f c r
      end
  end.

Definition serve (cfg : config) (salt : string) (q : http_request) : M response :=
  match hbody q with
  | Err e => st_ret (error_handler e)
  | Ok b =>
      match find_route (routes cfg salt) (hmethod q) (path_segments (hpath q)) with
      | None => st_ret (reply 404 (msg "Route not found"))
      | Some (h, ps) =>
          run_handler cfg h (mkReq (hcookie_token q) (hauthorization q) ps b (hnow q) (hnow2 q))
      end
  end.

(** One request served: the store before and after. *)
Inductive server_step (cfg : config) : db -> db -> Prop :=
| step_serve d salt q : server_step cfg d (serve cfg salt q d).1.

End App.

(** One goal per route of the table. *)
Ltac each_route :=
  let rt := fresh "rt" in let Hin := fresh "Hin" in
  apply Forall_forall; intros rt Hin;
  repeat (apply elem_of_cons in Hin as [->|Hin]); [..|by apply not_elem_of_nil in Hin].


Ltac public_frame :=
  intros ps b; cbn [run_handler r_handler];
  unfold AuthRoutes.signup, AuthRoutes.login, AuthRoutes.logout, BlogRoutes.getBlogs,
    CommentRoutes.getComments, AuthRoutes.bcrypt_hash, AuthRoutes.bcrypt_compare,
    AuthRoutes.jwt_sign, AuthRoutes.save_new_user, AuthRoutes.find_user_by_value;
  solve_preserves.


Ltac handler_frame :=
  unfold AuthRoutes.signup, AuthRoutes.login, AuthRoutes.logout, AuthRoutes.getUser,
    AuthRoutes.updateProfile, AuthRoutes.verifyUser, AuthRoutes.bcrypt_hash,
    AuthRoutes.bcrypt_compare, AuthRoutes.jwt_sign, AuthRoutes.save_new_user,
    AuthRoutes.find_user_doc, AuthRoutes.find_user_by_value, AuthRoutes.save_loaded_user,
    BlogRoutes.createBlog, BlogRoutes.getBlogs, BlogRoutes.myBlogs, BlogRoutes.deleteBlog,
    BlogRoutes.updateBlog, BlogRoutes.save_new_blog, BlogRoutes.find_populated,
    BlogRoutes.find_and_update_blog, CommentRoutes.getComments, CommentRoutes.addComment,
    CommentRoutes.updateComment, CommentRoutes.deleteComment, CommentRoutes.content_missing,
    CommentRoutes.content_trim, CommentRoutes.find_comment_doc, CommentRoutes.save_new_comment,
    CommentRoutes.save_edited_comment, CommentRoutes.find_comment_populated;
  solve [solve_preserves].


(** Each part of [inv] is kept by the handlers that write its collection. *)
Ltac inv_part :=
  intros d Hd;
  first [ exact (proj1 (BlogRoutes.blog_routes_preserve_wf _ _ d Hd))
        | exact (proj1 (proj2 (BlogRoutes.blog_routes_preserve_wf _ _ d Hd)))
        | exact (proj2 (proj2 (BlogRoutes.blog_routes_preserve_wf _ _ d Hd)))
        | exact (proj1 (CommentRoutes.comment_routes_preserve_wf _ _ d Hd))
        | exact (proj1 (proj2 (CommentRoutes.comment_routes_preserve_wf _ _ d Hd)))
        | exact (proj2 (proj2 (CommentRoutes.comment_routes_preserve_wf _ _ d Hd)))
        | exact (AuthRoutes.signup_users_ok _ _ d Hd)
        | exact (AuthRoutes.updateProfile_users_ok _ _ d Hd) ].


Section Proofs.
Context `{J : Jwt.JwtLib} `{B : Bcrypt.BcryptLib}.

(** ** The gate reads only the credentials and the clock *)

Definition gate (cfg : config) (q : http_request) : AuthMiddleware.outcome :=
  AuthMiddleware.authMiddleware cfg (mkReq (hcookie_token q) (hauthorization q) ∅ ∅ (hnow q) (hnow2 q)).

Lemma gate_request cfg q ps b :
  AuthMiddleware.authMiddleware cfg (mkReq (hcookie_token q) (hauthorization q) ps b (hnow q) (hnow2 q))
  = gate cfg q.
Proof. reflexivity. Qed.

Lemma find_route_in rs m p h ps :
  find_route rs m p = Some (h, ps) -> exists rt, rt ∈ rs /\ r_handler rt = h.
Proof.
  induction rs as [|rt rs IH]; simpl; [discriminate|].
  intros Hf. destruct (decide _); [destruct (match_path _ _) eqn:Em|].
  - injection Hf as <- _. exists rt. split; [left | done].
  - destruct (IH Hf) as (rt' & ? & ?). exists rt'. split; [right|]; done.
  - destruct (IH Hf) as (rt' & ? & ?). exists rt'. split; [right|]; done.
Qed.

(** ** Frame conditions of a served request *)

Section Frames.
Context (R : db -> db -> Prop) `{!Frame R}.

Lemma run_protected cfg f r :
  (forall c, preserves R (f c r)) -> preserves R (run_handler cfg (Protected f) r).
Proof. intros Hf. simpl. case_match; [apply Hf | intros d; apply frame_refl]. Qed.

(** A request preserves [R] when the handler of every route does, on the
    requests the request can be routed as. *)
Lemma serve_preserves cfg salt q :
  Forall (fun rt => forall ps b, preserves R (run_handler cfg (r_handler rt)
            (mkReq (hcookie_token q) (hauthorization q) ps b (hnow q) (hnow2 q))))
         (routes cfg salt) ->
  preserves R (serve cfg salt q).
Proof.
  intros Hrt. unfold serve. case_match; [|intros d; apply frame_refl].
  destruct (find_route _ _ _) as [[h ps]|] eqn:Ef; [|intros d; apply frame_refl].
  destruct (find_route_in _ _ _ _ _ Ef) as (rt & Hin & <-).
  rewrite Forall_forall in Hrt. by apply Hrt.
Qed.
End Frames.

(** ** Requests without credentials *)

(** A protected route behind a gate that refuses the request changes
    nothing. *)
Lemma run_refused R `{!Frame R} cfg q f ps b :
  (forall c, gate cfg q <> AuthMiddleware.Next c) ->
  preserves R (run_handler cfg (Protected f) (mkReq (hcookie_token q) (hauthorization q) ps b (hnow q) (hnow2 q))).
Proof.
  intros Hg. simpl. rewrite gate_request.
  destruct (gate cfg q) as [c|resp] eqn:G; [by destruct (Hg c) | intros d; apply frame_refl].
Qed.

(** C7: a request the gate does not let through (no token, or a token it
    refuses) never changes a blog or a comment, whichever route it is
    sent to. *)
Theorem serve_anonymous_keeps_content cfg salt q d :
  (forall c, gate cfg q <> AuthMiddleware.Next c) ->
  blogs (serve cfg salt q d).1 = blogs d /\ comments (serve cfg salt q d).1 = comments d.
Proof.
  intros Hg. split; [apply (serve_preserves keeps_blogs) | apply (serve_preserves keeps_comments)];
    each_route; first [intros ps b; cbn [r_handler]; apply (run_refused _ _ _ _ _ _ Hg) | solve [public_frame]].
Qed.

(** ** The store invariant over every run of the server *)

(** Every stored blog and comment is well formed and the users satisfy
    [users_ok] (valid, lower-case and unique emails). *)
Definition inv (d : db) : Prop :=
  BlogRoutes.blogs_wf d /\ CommentRoutes.comments_wf d /\ AuthRoutes.users_ok d.

Definition inv_kept (d d' : db) : Prop := inv d -> inv d'.

#[export] Instance inv_kept_frame : Frame inv_kept.
Proof. split; unfold inv_kept; auto. Qed.

(** A handler that writes one collection keeps [inv] when it keeps that
    collection's part and leaves the two others alone. *)
Lemma inv_blogs_writer {A} (m : M A) :
  (forall d, BlogRoutes.blogs_wf d -> BlogRoutes.blogs_wf (m d).1) ->
  preserves keeps_comments m -> preserves keeps_users m -> preserves inv_kept m.
Proof.
  intros Hb Hc Hu d (H1 & H2 & H3). split; [by apply Hb|].
  unfold CommentRoutes.comments_wf, AuthRoutes.users_ok. rewrite (Hc d), (Hu d). done.
Qed.

Lemma inv_comments_writer {A} (m : M A) :
  (forall d, CommentRoutes.comments_wf d -> CommentRoutes.comments_wf (m d).1) ->
  preserves keeps_blogs m -> preserves keeps_users m -> preserves inv_kept m.
Proof.
  intros Hc Hb Hu d (H1 & H2 & H3). split; [|split]; [..|by apply Hc|].
  - unfold BlogRoutes.blogs_wf. by rewrite (Hb d).
  - unfold AuthRoutes.users_ok. by rewrite (Hu d).
Qed.

Lemma inv_users_writer {A} (m : M A) :
  (forall d, AuthRoutes.users_ok d -> AuthRoutes.users_ok (m d).1) ->
  preserves keeps_blogs m -> preserves keeps_comments m -> preserves inv_kept m.
Proof.
  intros Hu Hb Hc d (H1 & H2 & H3). split; [|split]; [| |by apply Hu].
  - unfold BlogRoutes.blogs_wf. by rewrite (Hb d).
  - unfold CommentRoutes.comments_wf. by rewrite (Hc d).
Qed.

Lemma inv_reader {A} (m : M A) :
  preserves keeps_blogs m -> preserves keeps_comments m -> preserves keeps_users m ->
  preserves inv_kept m.
Proof.
  intros Hb Hc Hu. apply inv_blogs_writer; [|done..].
  intros d. unfold BlogRoutes.blogs_wf. by rewrite (Hb d).
Qed.

Lemma run_protected_inv cfg f r :
  (forall c, preserves inv_kept (f c r)) -> preserves inv_kept (run_handler cfg (Protected f) r).
Proof. apply run_protected. exact _. Qed.

Lemma routes_keep_inv cfg salt q :
  Forall (fun rt => forall ps b, preserves inv_kept (run_handler cfg (r_handler rt)
            (mkReq (hcookie_token q) (hauthorization q) ps b (hnow q) (hnow2 q))))
         (routes cfg salt).
Proof.
  each_route; intros ps b; cbn [r_handler]; try (apply run_protected_inv; intros c); cbn [run_handler];
    first [ apply inv_reader; handler_frame
          | apply inv_blogs_writer; [inv_part | handler_frame | handler_frame]
          | apply inv_comments_writer; [inv_part | handler_frame | handler_frame]
          | apply inv_users_writer; [inv_part | handler_frame | handler_frame] ].
Qed.

Lemma serve_keeps_inv cfg salt q : preserves inv_kept (serve cfg salt q).
Proof. apply serve_preserves; [exact _ | apply routes_keep_inv]. Qed.

(** C6: every store the server reaches from a store satisfying [inv], by
    any sequence of requests with any credentials, bodies, salts and
    clock readings, satisfies [inv]: well-formed blogs and comments, and
    valid users with unique lower-case emails. *)
Theorem reachable_inv cfg d d' :
  inv d -> rtc (server_step cfg) d d' -> inv d'.
Proof.
  intros Hd Hrtc. induction Hrtc as [d|d d1 d2 Hstep _ IH]; [exact Hd|].
  apply IH. destruct Hstep as [d salt q]. exact (serve_keeps_inv cfg salt q d Hd).
Qed.

(** ** Every request is answered *)

(** The route [find_route] returned ([Ef]), case by case, with its
    handler's body unfolded (the middleware's answer still to case on). *)
Ltac case_route Ef :=
  let rt := fresh "rt" in let Hin := fresh "Hin" in
  destruct (find_route_in _ _ _ _ _ Ef) as (rt & Hin & <-);
  repeat (apply elem_of_cons in Hin as [->|Hin]); [..|by apply not_elem_of_nil in Hin];
  cbn [r_handler run_handler].

Ltac unfold_handlers :=
  unfold AuthRoutes.signup, AuthRoutes.login, AuthRoutes.logout, AuthRoutes.getUser,
      AuthRoutes.updateProfile, AuthRoutes.verifyUser, BlogRoutes.createBlog, BlogRoutes.getBlogs,
      BlogRoutes.myBlogs, BlogRoutes.deleteBlog, BlogRoutes.updateBlog, CommentRoutes.getComments,
      CommentRoutes.addComment, CommentRoutes.updateComment, CommentRoutes.deleteComment.

(** A handler written as [try { ... } catch (e) { res.status(..).json(..) }]. *)
Ltac answered :=
  first [ apply st_catch_total; intros; eexists; reflexivity | eexists; reflexivity ].

(** C8: the server answers every request with a response: no handler and
    no route lets an error escape to Express (the [catch] of each handler
    answers), whatever the body, credentials and store. *)
Theorem serve_always_answers cfg salt q d : exists resp, (serve cfg salt q d).2 = Ok resp.
Proof.
  unfold serve. destruct (hbody q) as [b|e]; [|eexists; reflexivity].
  destruct (find_route _ _ _) as [[h ps]|] eqn:Ef; [|eexists; reflexivity].
  case_route Ef;
    try (destruct (AuthMiddleware.authMiddleware _ _) as [c|resp]; [|eexists; reflexivity]);
    unfold_handlers; answered.
Qed.

(** C10: every error response the server sends has the API's shape: when
    its status is 400 or more, its body is a JSON object carrying the
    explanation as a string [message], whichever route, middleware answer,
    [catch] or error handler produced it. *)
Theorem serve_responses_typed cfg salt q : answers resp_typed (serve cfg salt q).
Proof.
  unfold serve. destruct (hbody q) as [b|e].
  2:{ apply answers_ret. unfold error_handler. case_ifs; resp_typed_leaf. }
  destruct (find_route _ _ _) as [[h ps]|] eqn:Ef; [|apply answers_ret; resp_typed_leaf].
  case_route Ef;
    try (destruct (AuthMiddleware.authMiddleware _ _) as [c|resp] eqn:Ea;
         [|apply answers_ret; by eapply AuthMiddleware.authMiddleware_reject_typed]);
    unfold_handlers; solve_answers resp_typed_leaf.
Qed.

End Proofs.

(** ** Witnesses, with the [hs_jwt] and [toy_bcrypt] instances: the store
    of CommentRoutes.v (users 1 and 2, blog 3 by user 1, comment 5 by
    user 1 on blog 3) *)

#[local] Existing Instance Jwt.hs_jwt.
#[local] Existing Instance Bcrypt.toy_bcrypt.

Definition s_cfg : config := mkConfig (Some "s3cret"%string) true.

Definition s_req (m : method) (p : string) (tok : option string) (fs : list (string * jsval))
  : http_request := mkHttpRequest m p tok None (Ok (list_to_map fs)) 1000 1000.

(** A forged request: [DELETE /api/blogs/<blog 3>] without a token. *)
Definition s_anon_delete : http_request :=
  s_req DELETE ("/api/blogs/" ++ oid_toString 3) None [].

Lemma serve_anonymous_keeps_content_witness :
  blogs (serve s_cfg "salt" s_anon_delete CommentRoutes.c_db).1 = blogs CommentRoutes.c_db /\
  comments (serve s_cfg "salt" s_anon_delete CommentRoutes.c_db).1 = comments CommentRoutes.c_db.
Proof. apply serve_anonymous_keeps_content. intros c. vm_compute. discriminate. Defined.

Lemma c_db_users_ok : AuthRoutes.users_ok CommentRoutes.c_db.
Proof.
  assert (forall o u, users CommentRoutes.c_db !! o = Some u ->
            (o = 1%N /\ u = BlogRoutes.w_user "ann" "ann@gmail.com") \/
            (o = 2%N /\ u = BlogRoutes.w_user "bob" "bob@gmail.com")) as Hu.
  { intros o u. unfold CommentRoutes.c_db, BlogRoutes.w_db. cbn [users set_comments].
    rewrite lookup_insert. case_decide; [intros [= <-]; auto|].
    rewrite lookup_singleton_Some. intros [<- <-]. auto. }
  split.
  - intros o u Ho. destruct (Hu o u Ho) as [[-> ->]|[-> ->]]; split; vm_compute; reflexivity.
  - intros o1 o2 u1 u2 H1 H2.
    destruct (Hu _ _ H1) as [[-> ->]|[-> ->]], (Hu _ _ H2) as [[-> ->]|[-> ->]];
      try done; vm_compute; discriminate.
Qed.

Lemma c_db_inv : inv CommentRoutes.c_db.
Proof.
  split; [|split]; [exact BlogRoutes.w_db_wf | exact CommentRoutes.c_db_wf | exact c_db_users_ok].
Qed.

(** Carol signs up: one step from the witness store. *)
Definition s_signup : http_request :=
  s_req POST "/api/signup" None
        [("username", JStr "carol"); ("email", JStr "Carol@gmail.com"); ("password", JStr "pw123")].

Lemma reachable_inv_witness :
  inv (serve s_cfg "abcdefghijklmnopqrstuv" s_signup CommentRoutes.c_db).1.
Proof.
  apply (reachable_inv s_cfg CommentRoutes.c_db); [exact c_db_inv|].
  eapply rtc_l; [apply step_serve | apply rtc_refl].
Defined.

End Server.
