(* ===== verification/Express.v ===== *)
(** * The Express application: start-up and dispatch
    (src/server.js, src/index.js)

    The two entry points are programs of straight-line statements: they
    [require] modules, call [dotenv.config()], register middleware with
    [app.use], start the database connection and call [app.listen].
    [start] runs such a program on a module table: a [require] of a module
    that does not exist throws [MODULE_NOT_FOUND] and ends the program.
    Running it builds the application's middleware stack, a list of
    [layer]s.

    [dispatch] is Express 4's handling of one request by that stack: the
    layers are tried in order; a body-parser error skips every ordinary
    layer up to the next error-handling one; a mounted router tries its
    routes, and falls through to the next layer when none matches; the
    [cors] middleware answers a preflight [OPTIONS] request itself; when
    the stack runs out, Express's own final handler answers (404 without
    an error, the error's status otherwise).  Async handlers whose promise
    rejects are not caught by Express 4: the rejection stays an [Err] and
    the request gets no answer.

    The main results: the stack src/server.js builds answers every request
    other than a preflight exactly as [Server.serve] does; src/index.js
    cannot start, since it requires ./routes/userRoutes, which the
    repository does not have; and even given a router for it, the
    application index.js builds has no cookie parser, so every protected
    blog route answers 500. *)

From stdpp Require Import base gmap strings list.
From Stdlib Require Import String ZArith.
From S2P Require Import Prelude JsValue Models Store Jwt Bcrypt Http AuthMiddleware BlogRoutes AuthRoutes CommentRoutes Server.
Import JsValue Models Store Http Server.

Local Open Scope blog_scope.

Module Express.

(** ** CORS options *)

Record cors_options : Type := mkCorsOptions {
  origin : option string;
  credentials : bool;
  methods : list string;
  allowed_headers : list string
}.

(** [corsOptions] (src/server.js lines 17-22) *)
Definition corsOptions : cors_options :=
  mkCorsOptions (Some "https://hassanahmedblog.vercel.app") true
    ["GET"; "POST"; "PUT"; "DELETE"; "OPTIONS"] ["Content-Type"; "Authorization"].

(** [cors()] without options: any origin, the library's default methods. *)
Definition cors_defaults : cors_options :=
  mkCorsOptions None false ["GET"; "HEAD"; "PUT"; "PATCH"; "POST"; "DELETE"] [].

Section Express.
Context `{J : Jwt.JwtLib} `{B : Bcrypt.BcryptLib}.

(** ** Routers

    What the route files export: the routes in the order of their
    [router.<method>] calls, with paths relative to the mount point.  A
    router is a function of the salt [bcrypt.genSalt] draws for the
    request. *)

Definition router : Type := string -> list route.

Definition auth_router (cfg : config) : router := fun salt =>
  [ mkRoute POST [Lit "signup"] (Public (AuthRoutes.signup salt));
    mkRoute POST [Lit "login"] (Public (AuthRoutes.login cfg));
    mkRoute GET [Lit "user"] (Protected AuthRoutes.getUser);
    mkRoute POST [Lit "logout"] (Public AuthRoutes.logout);
    mkRoute PUT [Lit "user"; Lit "update"] (Protected AuthRoutes.updateProfile);
    mkRoute GET [Lit "user"; Lit "verify"] (Protected AuthRoutes.verifyUser) ].

Definition blog_router : router := fun _ =>
  [ mkRoute POST [Lit "blogs"] (Protected BlogRoutes.createBlog);
    mkRoute GET [Lit "blogs"] (Public BlogRoutes.getBlogs);
    mkRoute GET [Lit "blogs"; Lit "my-blogs"] (Protected BlogRoutes.myBlogs);
    mkRoute DELETE [Lit "blogs"; Param "id"] (Protected BlogRoutes.deleteBlog);
    mkRoute PUT [Lit "blogs"; Param "id"] (Protected BlogRoutes.updateBlog) ].

Definition comment_router : router := fun _ =>
  [ mkRoute GET [Lit "blog"; Param "blogId"] (Public CommentRoutes.getComments);
    mkRoute POST [] (Protected CommentRoutes.addComment);
    mkRoute PUT [Param "id"] (Protected CommentRoutes.updateComment);
    mkRoute DELETE [Param "id"] (Protected CommentRoutes.deleteComment) ].

(** [app.use(prefix, router)]: the router's routes under the prefix. *)
Definition mount (prefix : list string) (rs : list route) : list route :=
  map (fun rt => mkRoute (r_method rt) (map Lit prefix ++ r_path rt) (r_handler rt)) rs.

(** ** The middleware stack *)

Inductive layer : Type :=
| JsonParser                              (** [express.json()] *)
| CookieParser                            (** [cookieParser()] *)
| Cors (o : cors_options)                 (** [cors(o)] *)
| Mount (prefix : list string) (r : router)
| NotFound                                (** the 404 handler *)
| ErrorHandler.                           (** the error-handling middleware *)

(** What the client gets: a response of the application, the [cors]
    answer to a preflight, or the answer of Express's final handler. *)
Inductive answer : Type :=
| Sent (r : response)
| Preflight (o : cors_options)
| Fallback (status : Z).

(** The status Express's final handler gives an error: its [status] when
    it is an error status (400 to 599), 500 otherwise. *)
Definition final_status (e : http_error) : Z :=
  match err_status e with
  | Some s => if (400 <=? s)%Z && (s <? 600)%Z then s else 500%Z
  | None => 500%Z
  end.

(** A route's handler behind [authMiddleware], on the [req.cookies] the
    stack provides. *)
Definition run_route (cfg : config) (cookies : option (option string)) (h : handler)
    (r : request) : M response :=
  match h with
  | Public f => f r
  | Protected f =>
      match AuthMiddleware.authMiddleware_raw cfg cookies r with
      | AuthMiddleware.Reject resp => st_ret resp
      | AuthMiddleware.Next c => f c r
      end
  end.

(** Express's [next()] loop over the stack, with the pending error, the
    parsed cookies and the parsed body.  The body handed to a route is the
    parsed one; both entry points install [express.json()] before their
    routers, so a route never sees the [undefined] body of a stack
    without it. *)
Fixpoint dispatch (cfg : config) (salt : string) (q : http_request) (st : list layer)
    (err : option http_error) (cookies : option (option string)) (b : option JsValue.body)
    : M answer :=
  match st with
  | [] => st_ret (Fallback (match err with None => 404%Z | Some e => final_status e end))
  | l :: st' =>
      match err, l with
      | Some e, ErrorHandler => st_ret (Sent (error_handler e))
      | Some _, _ => dispatch cfg salt q st' err cookies b
      | None, JsonParser =>
          match hbody q with
          | Ok v => dispatch cfg salt q st' None cookies (Some v)
          | Err e => dispatch cfg salt q st' (Some e) cookies b
          end
      | None, CookieParser => dispatch cfg salt q st' None (Some (hcookie_token q)) b
      | None, Cors o =>
          if decide (hmethod q = OTHER "OPTIONS") then st_ret (Preflight o)
          else dispatch cfg salt q st' None cookies b
      | None, Mount pre r =>
          match find_route (mount pre (r salt)) (hmethod q) (path_segments (hpath q)) with
          | Some (h, ps) =>
              let* resp := run_route cfg cookies h
                (mkReq (mjoin cookies) (hauthorization q) ps (default ∅ b) (hnow q) (hnow2 q)) in
              st_ret (Sent resp)
          | None => dispatch cfg salt q st' None cookies b
          end
      | None, NotFound => st_ret (Sent (reply 404 (msg "Route not found")))
      | None, ErrorHandler => dispatch cfg salt q st' None cookies b
      end
  end.

(** A request from the start of the stack. *)
Definition handle (cfg : config) (salt : string) (st : list layer) (q : http_request) : M answer :=
  dispatch cfg salt q st None None None.

(** ** Start-up *)

(** What [require] returns: a library of node_modules, or the router a
    route file exports. *)
Inductive module : Type :=
| Library (name : string)
| RouterModule (r : router).

(** The argument of an [app.use] call, the router by the name of the
    constant it was bound to. *)
Inductive use_arg : Type :=
| UseJson
| UseCookieParser
| UseCors (o : cors_options)
| UseRouter (prefix : list string) (var : string)
| UseNotFound
| UseErrorHandler.

Inductive stmt : Type :=
| Require (var path : string)   (** [const var = require(path)] *)
| DotenvConfig                  (** [dotenv.config()] *)
| Use (u : use_arg)             (** [app.use(...)] *)
| Connect                       (** [mongoose.connect(...)], not awaited *)
| Listen (port : Z).            (** [app.listen(port, ...)] *)

Record app : Type := mkApp {
  bindings : list (string * module);
  stack : list layer;
  env_loaded : bool;
  connecting : bool;
  listening : option Z
}.

Definition empty_app : app := mkApp [] [] false false None.

Inductive startup_error : Type :=
| ModuleNotFound (path : string)
| NotARouter (var : string).

(** The module a constant is bound to: the latest binding. *)
Fixpoint binding (v : string) (bs : list (string * module)) : option module :=
  match bs with
  | [] => None
  | (x, m) :: bs' => if String.eqb x v then Some m else binding v bs'
  end.

Definition push (a : app) (l : layer) : app :=
  mkApp (bindings a) (stack a ++ [l]) (env_loaded a) (connecting a) (listening a).

Definition use_layer (a : app) (u : use_arg) : result layer startup_error :=
  match u with
  | UseJson => Ok JsonParser
  | UseCookieParser => Ok CookieParser
  | UseCors o => Ok (Cors o)
  | UseRouter pre v =>
      match binding v (bindings a) with
      | Some (RouterModule r) => Ok (Mount pre r)
      | _ => Err (NotARouter v)
      end
  | UseNotFound => Ok NotFound
  | UseErrorHandler => Ok ErrorHandler
  end.

Definition run_stmt (modules : string -> option module) (s : stmt) (a : app)
    : result app startup_error :=
  match s with
  | Require v p =>
      match modules p with
      | Some m => Ok (mkApp ((v, m) :: bindings a) (stack a) (env_loaded a) (connecting a) (listening a))
      | None => Err (ModuleNotFound p)
      end
  | DotenvConfig => Ok (mkApp (bindings a) (stack a) true (connecting a) (listening a))
  | Use u =>
      match use_layer a u with
      | Ok l => Ok (push a l)
      | Err e => Err e
      end
  | Connect => Ok (mkApp (bindings a) (stack a) (env_loaded a) true (listening a))
  | Listen n => Ok (mkApp (bindings a) (stack a) (env_loaded a) (connecting a) (Some n))
  end.

(** A module's top level runs statement after statement; the first
    exception ends it. *)
Fixpoint start (modules : string -> option module) (prog : list stmt) (a : app)
    : result app startup_error :=
  match prog with
  | [] => Ok a
  | s :: prog' =>
      match run_stmt modules s a with
      | Ok a' => start modules prog' a'
      | Err e => Err e
      end
  end.

(** The modules the sources require: the packages (assumed installed,
    the repository has no package.json) and the files of src/. *)
Definition npm_packages : list string :=
  ["express"; "mongoose"; "cors"; "dotenv"; "cookie-parser"; "jsonwebtoken"; "bcrypt"].

Definition repo_modules (cfg : config) (p : string) : option module :=
  if existsb (String.eqb p) npm_packages then Some (Library p)
  else if String.eqb p "./routes/authRoutes" then Some (RouterModule (auth_router cfg))
  else if String.eqb p "./routes/blogRoutes" then Some (RouterModule blog_router)
  else if String.eqb p "./routes/commentRoutes" then Some (RouterModule comment_router)
  else None.

(** src/server.js; [port] is [process.env.PORT]. *)
Definition server_js (port : option Z) : list stmt :=
  [ Require "express" "express"; Require "mongoose" "mongoose"; Require "cors" "cors";
    Require "dotenv" "dotenv"; Require "cookieParser" "cookie-parser";
    Require "authRoutes" "./routes/authRoutes"; Require "blogRoutes" "./routes/blogRoutes";
    Require "commentRoutes" "./routes/commentRoutes";
    DotenvConfig;
    Use UseJson; Use UseCookieParser; Use (UseCors corsOptions);
    Connect;
    Use (UseRouter ["api"] "authRoutes"); Use (UseRouter ["api"] "blogRoutes");
    Use (UseRouter ["api"; "comments"] "commentRoutes");
    Use UseNotFound; Use UseErrorHandler;
    Listen (default 5000%Z port) ].

(** src/index.js *)
Definition index_js : list stmt :=
  [ Require "express" "express"; Require "mongoose" "mongoose"; Require "cors" "cors";
    Require "blogRoutes" "./routes/blogRoutes"; Require "userRoutes" "./routes/userRoutes";
    Require "commentRoutes" "./routes/commentRoutes";
    Use (UseCors cors_defaults); Use UseJson;
    Use (UseRouter ["api"] "blogRoutes"); Use (UseRouter ["api"] "userRoutes");
    Use (UseRouter ["api"] "commentRoutes");
    Connect;
    Listen 5000 ].

(** The stack src/server.js builds. *)
Definition server_stack (cfg : config) : list layer :=
  [ JsonParser; CookieParser; Cors corsOptions;
    Mount ["api"] (auth_router cfg); Mount ["api"] blog_router; Mount ["api"; "comments"] comment_router;
    NotFound; ErrorHandler ].

(** The stack src/index.js builds once [userRoutes] is the router [u]. *)
Definition index_stack (u : router) : list layer :=
  [ Cors cors_defaults; JsonParser;
    Mount ["api"] blog_router; Mount ["api"] u; Mount ["api"] comment_router ].

(** A module table with one more module. *)
Definition with_module (p : string) (m : module) (modules : string -> option module)
    (p' : string) : option module :=
  if String.eqb p' p then Some m else modules p'.

End Express.

(** ** Lemmas *)

(** Run a start-up program: unfold the interpreter and the string
    comparisons, and nothing of the handlers the routers hold. *)
Ltac start_red :=
  cbv beta iota zeta delta [start run_stmt use_layer push binding repo_modules with_module
    server_js index_js empty_app npm_packages existsb String.eqb Ascii.eqb Bool.eqb
    bindings stack env_loaded connecting listening default orb andb Datatypes.app].

Section Proofs.
Context `{J : Jwt.JwtLib} `{B : Bcrypt.BcryptLib}.

(** The flat route table of [Server] is the three routers as server.js
    mounts them. *)
Lemma routes_mounted cfg salt :
  routes cfg salt = mount ["api"] (auth_router cfg salt) ++ mount ["api"] (blog_router salt)
                    ++ mount ["api"; "comments"] (comment_router salt).
Proof. reflexivity. Qed.

(** Routers tried one after the other act as one router with their
    routes concatenated. *)
Lemma find_route_app rs1 rs2 m p :
  find_route (rs1 ++ rs2) m p =
  match find_route rs1 m p with Some x => Some x | None => find_route rs2 m p end.
Proof.
  induction rs1 as [|rt rs1 IH]; [done|]. simpl.
  case_decide; [destruct (match_path _ _); [done|]|]; apply IH.
Qed.

(** With parsed cookies, a route runs as in [Server]. *)
Lemma run_route_parsed cfg h t a ps b n n2 :
  run_route cfg (Some t) h (mkReq t a ps b n n2) = run_handler cfg h (mkReq t a ps b n n2).
Proof. by destruct h. Qed.

(** Without a cookie parser every protected route answers 500. *)
Lemma run_route_no_cookies cfg f r :
  run_route cfg None (Protected f) r = st_ret (reply 500 (msg AuthMiddleware.msg_auth_error)).
Proof. reflexivity. Qed.

(** The stack [server_stack] answers every request that is not a CORS
    preflight exactly as [Server.serve] does. *)
Lemma server_stack_serves cfg salt q d :
  hmethod q <> OTHER "OPTIONS" ->
  handle cfg salt (server_stack cfg) q d = (let* r := serve cfg salt q in st_ret (Sent r)) d.
Proof.
  intros Hm. unfold handle, serve, server_stack. cbn [dispatch].
  destruct (hbody q) as [b|e]; [|reflexivity]. cbn [dispatch].
  rewrite decide_False by exact Hm.
  rewrite routes_mounted, !find_route_app.
  destruct (find_route (mount ["api"] (auth_router cfg salt)) _ _) as [[h ps]|];
    [by rewrite <- run_route_parsed|].
  destruct (find_route (mount ["api"] (blog_router salt)) _ _) as [[h ps]|];
    [by rewrite <- run_route_parsed|].
  destruct (find_route (mount ["api"; "comments"] (comment_router salt)) _ _) as [[h ps]|];
    [by rewrite <- run_route_parsed|].
  reflexivity.
Qed.

Lemma start_server_js cfg port :
  exists a, start (repo_modules cfg) (server_js port) empty_app = Ok a /\
    stack a = server_stack cfg /\ listening a = Some (default 5000%Z port).
Proof. start_red. eexists. split; [reflexivity|]. split; reflexivity. Qed.

Lemma start_index_js cfg u :
  exists a, start (with_module "./routes/userRoutes" (RouterModule u) (repo_modules cfg)) index_js
              empty_app = Ok a /\
    stack a = index_stack u /\ listening a = Some 5000%Z.
Proof. start_red. eexists. split; [reflexivity|]. split; reflexivity. Qed.

(** C9: src/server.js starts: it listens on [process.env.PORT], or 5000,
    and the application it builds answers every request that is not a
    CORS preflight exactly as [Server.serve] does, with the same store:
    body errors reach the error handler, the routers are tried in
    mounting order with the parsed cookie, unmatched requests get the 404
    handler. *)
Theorem server_js_serves cfg port :
  exists a, start (repo_modules cfg) (server_js port) empty_app = Ok a /\
    listening a = Some (default 5000%Z port) /\
    forall salt q d, hmethod q <> OTHER "OPTIONS" ->
      handle cfg salt (stack a) q d = (let* r := serve cfg salt q in st_ret (Sent r)) d.
Proof.
  destruct (start_server_js cfg port) as (a & Hs & Hst & Hl).
  exists a. split; [done|]. split; [done|]. rewrite Hst. apply server_stack_serves.
Qed.

(** One [require] of a start-up run: it succeeds, or the run stops
    with MODULE_NOT_FOUND for its specifier. *)
Ltac require_step :=
  cbn [start run_stmt];
  match goal with
  | |- context [match ?modules ?p with Some _ => _ | None => _ end] =>
      destruct (modules p); [|eexists; split; [|reflexivity]; set_solver]
  end.

(** C36: src/index.js cannot start in a repository without
    ./routes/userRoutes: whatever the other modules are, the run stops
    with MODULE_NOT_FOUND at one of its first five [require]s, before
    registering any middleware or listening, for nothing in index.js
    catches the error. *)
Theorem index_js_cannot_start modules :
  modules "./routes/userRoutes" = None ->
  exists p, p ∈ ["express"; "mongoose"; "cors"; "./routes/blogRoutes"; "./routes/userRoutes"] /\
    start modules index_js empty_app = Err (ModuleNotFound p).
Proof.
  intros Hu. unfold index_js. do 4 require_step.
  cbn [start run_stmt]. rewrite Hu. eexists. split; [|reflexivity]. set_solver.
Qed.

(** C37: even with a [userRoutes] router, the application src/index.js
    builds has no cookie parser: every request with a JSON body that
    reaches a protected route of the blog router answers 500
    Authentication error and changes nothing, whatever its credentials. *)
Theorem index_app_protected_500 cfg u salt q d f ps b :
  hmethod q <> OTHER "OPTIONS" -> hbody q = Ok b ->
  find_route (mount ["api"] (blog_router salt)) (hmethod q) (path_segments (hpath q))
    = Some (Protected f, ps) ->
  exists a, start (with_module "./routes/userRoutes" (RouterModule u) (repo_modules cfg)) index_js
              empty_app = Ok a /\
    handle cfg salt (stack a) q d = (d, Ok (Sent (reply 500 (msg AuthMiddleware.msg_auth_error)))).
Proof.
  intros Hm Hb Hf. destruct (start_index_js cfg u) as (a & Hs & Hst & _).
  exists a. split; [done|]. rewrite Hst. unfold handle, index_stack. cbn [dispatch].
  rewrite decide_False by exact Hm. rewrite Hb, Hf. reflexivity.
Qed.

(** C38: the application src/index.js builds has no error-handling
    middleware: a body [express.json()] cannot parse gets Express's own
    final handler, with the parser error's status (500 unless it is an
    error status) and no JSON message,
    whatever route it was sent to and whatever [userRoutes] holds. *)
Theorem index_app_body_error cfg u salt q d e :
  hmethod q <> OTHER "OPTIONS" -> hbody q = Err e ->
  handle cfg salt (index_stack u) q d = (d, Ok (Fallback (final_status e))).
Proof.
  intros Hm Hb. unfold handle, index_stack. cbn [dispatch].
  rewrite decide_False by exact Hm. rewrite Hb. reflexivity.
Qed.

End Proofs.

(** ** Witnesses *)

#[local] Existing Instance Jwt.hs_jwt.
#[local] Existing Instance Bcrypt.toy_bcrypt.

Lemma index_js_cannot_start_witness :
  exists p, p ∈ ["express"; "mongoose"; "cors"; "./routes/blogRoutes"; "./routes/userRoutes"] /\
    start (repo_modules s_cfg) index_js empty_app = Err (ModuleNotFound p).
Proof. apply index_js_cannot_start. reflexivity. Defined.

Lemma server_js_serves_witness :
  exists a, start (repo_modules s_cfg) (server_js None) empty_app = Ok a /\
    handle s_cfg "salt" (stack a) s_anon_delete CommentRoutes.c_db =
    (let* r := serve s_cfg "salt" s_anon_delete in st_ret (Sent r)) CommentRoutes.c_db.
Proof.
  destruct (server_js_serves s_cfg None) as (a & Hs & _ & H).
  exists a. split; [exact Hs|]. apply H. discriminate.
Defined.

(** [DELETE /api/blogs/<blog 3>] with Ann's valid token in the header. *)
Definition x_delete : http_request :=
  mkHttpRequest DELETE ("/api/blogs/" ++ oid_toString 3)%string None
    (Some ("Bearer " ++ AuthMiddleware.wtok)%string) (Ok ∅) AuthMiddleware.wt0 AuthMiddleware.wt0.

Lemma index_app_protected_500_witness :
  exists a, start (with_module "./routes/userRoutes" (RouterModule (fun _ => []))
                     (repo_modules s_cfg)) index_js empty_app = Ok a /\
    handle s_cfg "salt" (stack a) x_delete CommentRoutes.c_db =
    (CommentRoutes.c_db, Ok (Sent (reply 500 (msg AuthMiddleware.msg_auth_error)))).
Proof.
  apply (index_app_protected_500 s_cfg (fun _ => []) "salt" x_delete CommentRoutes.c_db
           BlogRoutes.deleteBlog (<["id" := oid_toString 3]> ∅) ∅);
    [discriminate | reflexivity | reflexivity].
Defined.

(** A body that is not JSON: [express.json()] answers status 400. *)
Definition x_bad_body : http_request :=
  mkHttpRequest POST "/api/blogs" None None
    (Err (mkHttpError "SyntaxError" (Some 400%Z) "Unexpected token } in JSON at position 9" []))
    AuthMiddleware.wt0 AuthMiddleware.wt0.

Lemma index_app_body_error_witness :
  handle s_cfg "salt" (index_stack (fun _ => [])) x_bad_body CommentRoutes.c_db =
  (CommentRoutes.c_db, Ok (Fallback 400%Z)).
Proof. apply (index_app_body_error _ _ _ _ _ (mkHttpError "SyntaxError" (Some 400%Z)
         "Unexpected token } in JSON at position 9" [])); [discriminate | reflexivity]. Defined.

End Express.
