(* ===== verification/Ownership.v ===== *)
(** * Ownership: the abstract contract of the blog and comment routes, and
    its refinement by the server

    What the API promises about who owns what (spec.md, "Given two users A
    and B, B can never update or delete a Blog or Comment authored by A"):
    seen through the abstraction [owners] (document id to author id), one
    request by the caller [u] leaves the map as it is, adds a fresh
    document owned by [u], or removes one document owned by [u].  Nothing
    else: no change of owner, no removal of another's document, nothing at
    all for a caller the gate refused.  [serve_refines_ownership] proves
    that every request through [Server.serve] is such a step, for the
    blogs and for the comments. *)

From stdpp Require Import base gmap strings list relations.
From Stdlib Require Import String ZArith NArith Lia.
From S2P Require Import Prelude JsString JsValue Models Store Jwt Bcrypt Http AuthMiddleware BlogRoutes AuthRoutes CommentRoutes Server.
Import JsValue Models Store Http.

Local Open Scope blog_scope.

Module Ownership.

(** ** The abstract contract *)

Inductive owned_step (u : option N) : gmap N N -> gmap N N -> Prop :=
| os_stay α : owned_step u α α
| os_create α k v : u = Some v -> α !! k = None -> owned_step u α (<[k := v]> α)
| os_delete α k v : u = Some v -> α !! k = Some v -> owned_step u α (delete k α).

(** ** The abstraction of the store *)

Definition blog_owners (d : db) : gmap N N := Blog.author <$> blogs d.
Definition comment_owners (d : db) : gmap N N := Comment.user <$> comments d.

(** The caller of a request: the ObjectId of the claims the gate accepts. *)
Definition caller `{Jwt.JwtLib} (cfg : config) (q : Server.http_request) : option N :=
  match Server.gate cfg q with
  | AuthMiddleware.Next c => cast_oid (Jwt.id c)
  | AuthMiddleware.Reject _ => None
  end.

(** Every stored author is an ObjectId (a value of [cast_oid]). *)
Definition owners_bounded (d : db) : Prop :=
  map_Forall (fun _ a => (a < oid_bound)%N) (blog_owners d) /\
  map_Forall (fun _ a => (a < oid_bound)%N) (comment_owners d).

(** ** Steps of the blog handlers *)

Lemma stay_blogs u d d' : blogs d' = blogs d -> owned_step u (blog_owners d) (blog_owners d').
Proof. unfold blog_owners. intros ->. constructor. Qed.

Lemma stay_comments u d d' :
  comments d' = comments d -> owned_step u (comment_owners d) (comment_owners d').
Proof. unfold comment_owners. intros ->. constructor. Qed.

Lemma author_match a s : (a < oid_bound)%N -> oid_toString a = s -> cast_oid s = Some a.
Proof. intros Ha <-. by apply cast_oid_toString. Qed.

Lemma createBlog_owned c r d :
  owned_step (cast_oid (Jwt.id c)) (blog_owners d) (blog_owners (BlogRoutes.createBlog c r d).1).
Proof.
  destruct (truthy (field (body r) "title")) eqn:Ht;
    [|apply stay_blogs; unfold BlogRoutes.createBlog; st_unfold; by rewrite Ht].
  destruct (truthy (field (body r) "description")) eqn:Hd;
    [|apply stay_blogs; unfold BlogRoutes.createBlog; st_unfold; rewrite Ht, Hd; reflexivity].
  destruct (BlogRoutes.includes_category (field (body r) "category")) eqn:Hc;
    [|apply stay_blogs; unfold BlogRoutes.createBlog; st_unfold; rewrite Ht, Hd, Hc; reflexivity].
  rewrite (BlogRoutes.createBlog_run c r d Ht Hd Hc).
  destruct (Blog.validate _ _ _ _ _ _) as [b|paths] eqn:Ev; [|constructor].
  destruct (blogs d !! next_id d) eqn:Ef; [by apply stay_blogs|].
  unfold blog_owners. simpl. rewrite fmap_insert.
  destruct (blog_validate_ok _ _ _ _ _ _ _ Ev) as (_ & _ & _ & _ & Hau & _).
  apply os_create; [done|]. by rewrite lookup_fmap, Ef.
Qed.

Lemma updateBlog_owned u c r d :
  owned_step u (blog_owners d) (blog_owners (BlogRoutes.updateBlog c r d).1).
Proof.
  destruct (cast_oid (param r "id")) as [o|] eqn:Ec;
    [|apply stay_blogs; by rewrite (BlogRoutes.updateBlog_bad_id c r d Ec)].
  rewrite (BlogRoutes.updateBlog_run c r d o Ec). cbv zeta.
  destruct (blogs d !! o) as [b|] eqn:Eb; [|constructor].
  case_ifs; try constructor.
  unfold blog_owners. simpl. rewrite fmap_insert. simpl.
  rewrite insert_id; [constructor|]. by rewrite lookup_fmap, Eb.
Qed.

Lemma deleteBlog_owned c r d :
  owners_bounded d ->
  owned_step (cast_oid (Jwt.id c)) (blog_owners d) (blog_owners (BlogRoutes.deleteBlog c r d).1).
Proof.
  intros [Hb _].
  destruct (cast_oid (param r "id")) as [o|] eqn:Ec;
    [|apply stay_blogs; by rewrite (BlogRoutes.deleteBlog_bad_id c r d Ec)].
  rewrite (BlogRoutes.deleteBlog_run c r d o Ec).
  destruct (blogs d !! o) as [b|] eqn:Eb; [|constructor].
  destruct (String.eqb_spec (oid_toString (Blog.author b)) (Jwt.id c)) as [Hown|]; [|constructor].
  assert (blog_owners d !! o = Some (Blog.author b)) as Ho by (unfold blog_owners; by rewrite lookup_fmap, Eb).
  unfold blog_owners at 2. simpl. rewrite fmap_delete.
  apply (os_delete _ _ _ (Blog.author b)); [|exact Ho]. apply author_match; [exact (Hb o _ Ho) | exact Hown].
Qed.

(** ** Steps of the comment handlers *)

Lemma addComment_owned c r d :
  owned_step (cast_oid (Jwt.id c)) (comment_owners d) (comment_owners (CommentRoutes.addComment c r d).1).
Proof.
  destruct (CommentRoutes.addComment_cases c r d) as [(s & cm & _ & Ev & Hf & Hm & _) | (_ & _ & _ & Hm)];
    [|by apply stay_comments].
  unfold comment_owners. rewrite Hm, fmap_insert.
  destruct (comment_validate_ok _ _ _ _ _ Ev) as (_ & _ & _ & Hu).
  apply os_create; [done|]. by rewrite lookup_fmap, Hf.
Qed.

Lemma updateComment_owned u c r d :
  owned_step u (comment_owners d) (comment_owners (CommentRoutes.updateComment c r d).1).
Proof.
  destruct (CommentRoutes.updateComment_cases c r d) as [-> | (o & cm & s & _ & Hc & _ & _ & _ & ->)];
    [constructor|].
  unfold comment_owners. simpl. rewrite fmap_insert. simpl.
  rewrite insert_id; [constructor|]. by rewrite lookup_fmap, Hc.
Qed.

Lemma deleteComment_owned c r d :
  owners_bounded d ->
  owned_step (cast_oid (Jwt.id c)) (comment_owners d) (comment_owners (CommentRoutes.deleteComment c r d).1).
Proof.
  intros [_ Hb].
  destruct (CommentRoutes.deleteComment_cases c r d) as [-> | (o & cm & _ & Hc & Hown & ->)];
    [constructor|].
  assert (comment_owners d !! o = Some (Comment.user cm)) as Ho
    by (unfold comment_owners; by rewrite lookup_fmap, Hc).
  unfold comment_owners at 2. simpl. rewrite fmap_delete.
  apply (os_delete _ _ _ (Comment.user cm)); [|exact Ho].
  apply author_match; [exact (Hb o _ Ho) | exact Hown].
Qed.

(** ** Every request is a step of the contract *)

Lemma preserved_blogs {A} (m : M A) d : preserves keeps_blogs m -> blogs (m d).1 = blogs d.
Proof. intros H. exact (H d). Qed.

Lemma preserved_comments {A} (m : M A) d : preserves keeps_comments m -> comments (m d).1 = comments d.
Proof. intros H. exact (H d). Qed.

Ltac owned_part :=
  first [ apply createBlog_owned | apply updateBlog_owned | apply deleteBlog_owned; assumption
        | apply addComment_owned | apply updateComment_owned | apply deleteComment_owned; assumption
        | apply stay_blogs, preserved_blogs; Server.handler_frame
        | apply stay_comments, preserved_comments; Server.handler_frame ].

Section Refinement.
Context `{J : Jwt.JwtLib} `{B : Bcrypt.BcryptLib}.

(** C5: every request served is a step of the ownership contract, for
    the blogs and for the comments: the owner map stays, gains one fresh
    document owned by the caller, or loses one document the caller owns;
    a request the gate refuses leaves both maps as they are. *)
Theorem serve_refines_ownership cfg salt q d :
  owners_bounded d ->
  owned_step (caller cfg q) (blog_owners d) (blog_owners (Server.serve cfg salt q d).1) /\
  owned_step (caller cfg q) (comment_owners d) (comment_owners (Server.serve cfg salt q d).1).
Proof.
  intros Hbd. unfold Server.serve.
  destruct (Server.hbody q) as [b|e]; [|split; constructor].
  destruct (Server.find_route _ _ _) as [[h ps]|] eqn:Ef; [|split; constructor].
  destruct (Server.find_route_in _ _ _ _ _ Ef) as (rt & Hin & <-).
  repeat (apply elem_of_cons in Hin as [->|Hin]); [..|by apply not_elem_of_nil in Hin];
    cbn [Server.r_handler Server.run_handler]; unfold caller; rewrite ?Server.gate_request;
    try (destruct (Server.gate cfg q) as [c|resp];
         [|split; [apply stay_blogs | apply stay_comments]; reflexivity]);
    split; owned_part.
Qed.

End Refinement.

(** ** Witness: Ann (user 1) deletes her blog 3 with a token of hers *)

#[local] Existing Instance Jwt.hs_jwt.
#[local] Existing Instance Bcrypt.toy_bcrypt.

Definition o_token : string := Jwt.hs_sign "s3cret" 500 (oid_toString 1) "ann@gmail.com" "ann".
Definition o_delete : Server.http_request :=
  Server.s_req Server.DELETE ("/api/blogs/" ++ oid_toString 3) (Some o_token) [].

Lemma c_db_bounded : owners_bounded CommentRoutes.c_db.
Proof.
  split; intros k a; unfold blog_owners, comment_owners; rewrite lookup_fmap;
    unfold CommentRoutes.c_db, BlogRoutes.w_db; cbn [blogs comments set_comments];
    rewrite fmap_Some; intros (b & Hb & ->); apply lookup_singleton_Some in Hb as [_ <-];
    vm_compute; reflexivity.
Qed.

Lemma serve_refines_ownership_witness :
  owned_step (caller Server.s_cfg o_delete) (blog_owners CommentRoutes.c_db)
    (blog_owners (Server.serve Server.s_cfg "salt" o_delete CommentRoutes.c_db).1) /\
  owned_step (caller Server.s_cfg o_delete) (comment_owners CommentRoutes.c_db)
    (comment_owners (Server.serve Server.s_cfg "salt" o_delete CommentRoutes.c_db).1).
Proof. apply serve_refines_ownership. exact c_db_bounded. Defined.

(** The step that request takes is the deletion of Ann's blog. *)
Example ann_deletes_her_blog :
  blog_owners (Server.serve Server.s_cfg "salt" o_delete CommentRoutes.c_db).1 = ∅ /\
  caller Server.s_cfg o_delete = Some 1%N.
Proof. split; vm_compute; reflexivity. Qed.

End Ownership.
